(** * Meeting scheduler: slot generation, strict filter, negotiation ladder

    A shallow embedding of the scheduling core of the multi-agent meeting
    scheduler:

    - [config/models.py]: the pydantic records and enums;
    - [agents/schedule_analyst.py]: candidate generation, conflict filtering
      and soft scoring;
    - [agents/negotiation_specialist.py]: the strict preference filter, the
      four relaxation strategies and the negotiation ladder;
    - [autogent/coordinator.py]: the suggestion bookkeeping of a round and the
      fallback selection after the last round; the loop of rounds of
      [on_messages] and the wording of the answer, with the two agents and
      the model client as parameters;
    - [autogent/analyst_tool.py]: [propose_slots], with the two data stores
      as parameters.

    Conventions of the embedding.

    - A [datetime] is the number of minutes since 0001-01-01 00:00, the
      origin of Python's proleptic Gregorian ordinal, which is a Monday.
      Every datetime the modelled code handles has zero seconds and
      microseconds ([find_free_slots] clears them, slot strings are printed
      and parsed with ["%Y-%m-%d %H:%M"]).
    - A float is only ever compared, added to constants, averaged or
      clamped; it is held as a rational ([Q]) and compared with [Qle_bool].
    - Schedules are mutable pydantic objects: they live in a store indexed by
      references, [model_copy(deep=True)] allocates a new cell, attribute
      assignment overwrites a cell.
    - Of the logger only the [process_step] calls are kept, as the list of
      step names in the order they were issued; the remaining calls only
      format text.
    - Operations that raise in Python (indexing an empty list, [min] of an
      empty list) return [Raise] in the model.
    - The time bounds of the preferences are held as the clock times read
      from them. [Written] follows the strings themselves through
      [negotiate_schedule]: a validated bound need not be one that
      [time.fromisoformat] reads, and the call raises when a gate reaches
      it. *)

From Stdlib Require Import ZArith QArith List Bool Lia Lqa String Permutation Sorted.
From stdpp Require Import base option gmap.
Import ListNotations.

Open Scope Z_scope.

(** ** Dates and times *)

Module Clock.

(** Minutes since 0001-01-01 00:00 (a Monday). *)
Definition datetime := Z.

(** [datetime.time]: seconds and microseconds are always zero here. *)
Record time := mk_time { t_hour : Z; t_minute : Z }.

Definition minutes_per_day : Z := 1440.

(** [timedelta(minutes=m)] and [timedelta(days=d)] added to a datetime. *)
Definition plus_minutes (t : datetime) (m : Z) : datetime := t + m.
Definition plus_days (t : datetime) (d : Z) : datetime := t + d * minutes_per_day.

(** [dt.date()], as a day ordinal counted from 0. *)
Definition date (t : datetime) : Z := t / minutes_per_day.

(** [dt.weekday()]: Monday is 0, Sunday is 6. *)
Definition weekday (t : datetime) : Z := date t mod 7.

(** [dt.hour], [dt.minute], [dt.time()]. *)
Definition hour (t : datetime) : Z := (t / 60) mod 24.
Definition minute (t : datetime) : Z := t mod 60.
Definition time_of (t : datetime) : time := mk_time (hour t) (minute t).

(** [dt.replace(hour=0, minute=0, second=0, microsecond=0)]. *)
Definition midnight (t : datetime) : datetime := date t * minutes_per_day.

(** Comparison of [datetime.time] values: lexicographic on the fields. *)
Definition time_ltb (a b : time) : bool :=
  (t_hour a <? t_hour b) || ((t_hour a =? t_hour b) && (t_minute a <? t_minute b)).
Definition time_leb (a b : time) : bool := negb (time_ltb b a).
Definition time_eqb (a b : time) : bool :=
  (t_hour a =? t_hour b) && (t_minute a =? t_minute b).

(** A datetime given by day ordinal, hour and minute. *)
Definition at_ (day h m : Z) : datetime := day * minutes_per_day + h * 60 + m.

End Clock.
Import Clock.

(** ** [config/models.py] *)

Module Models.

(** The bounds [no_meetings_before] / [no_meetings_after] hold the validated
    ["HH:MM"] string, written with a two-digit hour as [time.fromisoformat]
    reads it; the record keeps its two numeric fields. A flag or a number
    left out in the input is [None]. *)
Record ParticipantPreferences := mk_prefs {
  no_meetings_before : option time;
  no_meetings_after : option time;
  prefer_morning : option bool;
  prefer_afternoon : option bool;
  avoid_lunch_time : option bool;
  max_meetings_per_day : option Z;
  preferred_max_duration : option Z
}.

(** [time.fromisoformat(self.no_meetings_before)]; only called after the
    field was tested to be set. A validated string with a one-digit hour,
    which [time.fromisoformat] does not read, is followed in [Written]
    below, where the call raises. *)
Definition no_before (pr : ParticipantPreferences) : time :=
  match no_meetings_before pr with Some t => t | None => mk_time 0 0 end.
Definition no_after (pr : ParticipantPreferences) : time :=
  match no_meetings_after pr with Some t => t | None => mk_time 0 0 end.

(** Python truthiness of optional fields. A validated time string is never
    empty, hence truthy whenever present. *)
Definition truthy_time (o : option time) : bool :=
  match o with Some _ => true | None => false end.
Definition truthy_bool (o : option bool) : bool :=
  match o with Some b => b | None => false end.
Definition truthy_int (o : option Z) : bool :=
  match o with Some n => negb (n =? 0) | None => false end.
Definition int_value (o : option Z) : Z :=
  match o with Some n => n | None => 0 end.

Record MeetingSchedule := mk_schedule {
  schedule_day : datetime;
  default_duration : Z;
  working_hours_start : time;
  working_hours_end : time;
  time_slot_interval : Z;
  alternative_durations : list Z;
  max_alternative_days : Z
}.

(** The explanatory notes of the scorer, one constructor per message
    template, with the values the template interpolates. *)
Inductive Note :=
| NoteBeforeViolated (who : string) (slot_hour : Z) (bound : time)
| NoteBeforeRespected (who : string) (bound : time)
| NoteAfterViolated (who : string) (slot_hour : Z) (bound : time)
| NoteAfterRespected (who : string) (bound : time)
| NoteMorningAligned (who : string)
| NoteMorningMissed (who : string)
| NoteAfternoonAligned (who : string)
| NoteAfternoonMissed (who : string)
| NoteLunchConflict (who : string)
| NoteLunchRespected (who : string)
| NoteDurationWithin (who : string) (duration cap : Z)
| NoteDurationExceeds (who : string) (duration cap : Z)
| NoteDayAtLimit (who : string) (count cap : Z)
| NoteDayQuiteBusy (who : string) (count : Z)
| NoteDayModeratelyBusy (who : string) (count : Z)
| NoteDayOneMeeting (who : string) (count : Z)
| NoteDayFree (who : string)
| NoteBackToBack (who : string) (buffer : Z)
| NoteBufferOk (who : string)
| NoteMidMorning
| NoteEarlyAfternoon
| NoteEarlyMorning
| NoteLateAfternoon
| NoteVeryEarly
| NoteExcellent
| NoteGood
| NoteAcceptable
| NotePoor.

(** [start_time] and [end_time] are ["%Y-%m-%d %H:%M"] strings; the record
    holds the datetime [strptime] reads from them. *)
Record SlotInfo := mk_slot {
  start_time : datetime;
  end_time : datetime;
  duration_minutes : Z;
  confidence : Q;
  participants : list string;
  participant_scores : list Q;
  participant_notes : list (string * list Note);
  notes : string;
  day_of_week : Z;
  score : Q
}.

Inductive NegotiationOutcome := OPTIMAL_FOUND | COMPROMISE_PROPOSED | IMPOSSIBLE.

Inductive NegotiationStrategy :=
| NONE | DURATION_ADJUSTMENT | TOD_SHIFTING | ALTERNATIVE_DAY | RELAX_CONSTRAINTS.

(** The integer value of the [int] enum. *)
Definition ordinal (s : NegotiationStrategy) : Z :=
  match s with
  | NONE => 0
  | DURATION_ADJUSTMENT => 1
  | TOD_SHIFTING => 2
  | ALTERNATIVE_DAY => 3
  | RELAX_CONSTRAINTS => 4
  end.

Definition strategy_ltb (a b : NegotiationStrategy) : bool := ordinal a <? ordinal b.
Definition strategy_geb (a b : NegotiationStrategy) : bool := ordinal b <=? ordinal a.

(** The [reasoning] texts, one constructor per template. *)
Inductive Reasoning :=
| ReasonStrict
| ReasonReducedDuration (cap : Z)
| ReasonRelaxedTimeOfDay
| ReasonSwitchDay (day : datetime)
| ReasonExtendedHours
| ReasonExhausted.

(** A reference to a [MeetingSchedule] object. *)
Definition ref := positive.

Record NegotiationResult := mk_result {
  outcome : NegotiationOutcome;
  proposed_schedule : option ref;
  selected_slot : option SlotInfo;
  reasoning : Reasoning;
  alternative_suggestions : list SlotInfo;
  strategy_choose : NegotiationStrategy
}.

End Models.
Import Models.

(** ** Floats, as far as the code uses them *)

Definition Qlt_bool (a b : Q) : bool := negb (Qle_bool b a).

(** [max(0.0, min(score, 1.0))]. *)
Definition clamp01 (x : Q) : Q :=
  let m := if Qlt_bool 1 x then 1%Q else x in
  if Qlt_bool m 0 then 0%Q else m.

(** ** Calendars *)

(** A row of a calendar [DataFrame]: the columns [start_time] and [end_time]. *)
Record Busy := mk_busy { b_start : datetime; b_end : datetime }.

Definition DataFrame := list Busy.

(** [df.empty] *)
Definition df_empty (df : DataFrame) : bool :=
  match df with [] => true | _ => false end.

(** [df is not None and not df.empty] *)
Definition has_rows (df : option DataFrame) : bool :=
  match df with Some (_ :: _) => true | _ => false end.

Definition rows (df : option DataFrame) : DataFrame :=
  match df with Some d => d | None => [] end.

(** [participants[p]]: the dict with keys ["preferences"] and ["calendar"]. *)
Record ParticipantData := mk_pdata {
  preferences : ParticipantPreferences;
  calendar : option DataFrame
}.

(** ** [agents/schedule_analyst.py] *)

Module ScheduleAnalyst.

Record ScheduleAnalystAgent := mk_analyst {
  working_hours : time * time;
  min_slot_duration : Z
}.

(** The constructor's defaults: [('09:00', '17:00')] and 30 minutes. *)
Definition default_agent : ScheduleAnalystAgent :=
  mk_analyst (mk_time 9 0, mk_time 17 0) 30.

(** *** [_generate_time_slots]

    The two nested [while] loops, as a machine that performs one loop test
    per step. [AtOuter] is the test of [while current_time < end_date],
    [AtInner] the test of
    [while current_time + timedelta(minutes=duration) <= end_date]. *)
Inductive gen_pc := AtOuter | AtInner.

Record gen_state := mk_gen {
  pc : gen_pc;
  current_time : datetime;
  slots : list (datetime * datetime)
}.

Definition gen_step (self : ScheduleAnalystAgent) (end_date : datetime) (duration : Z)
    (s : gen_state) : gen_state + list (datetime * datetime) :=
  match pc s with
  | AtOuter =>
      if current_time s <? end_date then
        if weekday (current_time s) <? 5 then
          inl (mk_gen AtInner (current_time s) (slots s))
        else
          inr (slots s)                         (* weekend: break *)
      else inr (slots s)
  | AtInner =>
      if plus_minutes (current_time s) duration <=? end_date then
        inl (mk_gen AtInner
               (plus_minutes (current_time s) (min_slot_duration self))
               (slots s ++ [(current_time s,
                             plus_minutes (current_time s) (min_slot_duration self))]))
      else
        inl (mk_gen AtOuter (current_time s) (slots s))
  end.

(** [gen_run fuel s]: the list returned when the loops leave within [fuel]
    tests, [None] when they are still running. *)
Fixpoint gen_run (self : ScheduleAnalystAgent) (end_date : datetime) (duration : Z)
    (fuel : nat) (s : gen_state) : option (list (datetime * datetime)) :=
  match fuel with
  | O => None
  | S fuel' =>
      match gen_step self end_date duration s with
      | inr result => Some result
      | inl s' => gen_run self end_date duration fuel' s'
      end
  end.

Definition _generate_time_slots (self : ScheduleAnalystAgent)
    (start_date end_date : datetime) (duration : Z) (fuel : nat)
    : option (list (datetime * datetime)) :=
  gen_run self end_date duration fuel (mk_gen AtOuter start_date []).

(** The call terminates when some amount of fuel suffices. *)
Definition generate_terminates (self : ScheduleAnalystAgent)
    (start_date end_date : datetime) (duration : Z) : Prop :=
  exists fuel result, _generate_time_slots self start_date end_date duration fuel = Some result.

(** *** [_filter_available_slots] *)

(** One row of the mask
    [(busy_df['start_time'] < slot_end) & (busy_df['end_time'] > slot_start)]. *)
Definition conflicts_with (slot : datetime * datetime) (b : Busy) : bool :=
  (b_start b <? snd slot) && (fst slot <? b_end b).

Definition _filter_available_slots (potential_slots : list (datetime * datetime))
    (busy_df : DataFrame) : list (datetime * datetime) :=
  if df_empty busy_df then potential_slots
  else
    List.filter
      (fun slot => df_empty (List.filter (conflicts_with slot) busy_df))
      potential_slots.

(** *** [_calculate_slot_score_with_notes]

    The running [score] and [notes] are threaded through one function per
    rule of the source, in source order. *)
Definition scoring : Type := Q * list Note.

Definition rule_no_meetings_before (who : string) (prefs : ParticipantPreferences)
    (slot_start : datetime) (st : scoring) : scoring :=
  let '(score, notes) := st in
  if truthy_time (no_meetings_before prefs) then
    (* int(prefs.no_meetings_before.split(':')[0]) *)
    let before := t_hour (no_before prefs) in
    if hour slot_start <? before then
      ((score - 0.3)%Q,
       notes ++ [NoteBeforeViolated who (hour slot_start) (no_before prefs)])
    else (score, notes ++ [NoteBeforeRespected who (no_before prefs)])
  else st.

Definition rule_no_meetings_after (who : string) (prefs : ParticipantPreferences)
    (slot_end : datetime) (st : scoring) : scoring :=
  let '(score, notes) := st in
  if truthy_time (no_meetings_after prefs) then
    let after := t_hour (no_after prefs) in
    if after <? hour slot_end then
      ((score - 0.3)%Q,
       notes ++ [NoteAfterViolated who (hour slot_end) (no_after prefs)])
    else (score, notes ++ [NoteAfterRespected who (no_after prefs)])
  else st.

Definition rule_prefer_morning (who : string) (prefs : ParticipantPreferences)
    (slot_start : datetime) (st : scoring) : scoring :=
  let '(score, notes) := st in
  if truthy_bool (prefer_morning prefs) then
    if (6 <=? hour slot_start) && (hour slot_start <? 12) then
      ((score + 0.2)%Q, notes ++ [NoteMorningAligned who])
    else (score, notes ++ [NoteMorningMissed who])
  else st.

Definition rule_prefer_afternoon (who : string) (prefs : ParticipantPreferences)
    (slot_start : datetime) (st : scoring) : scoring :=
  let '(score, notes) := st in
  if truthy_bool (prefer_afternoon prefs) then
    if (13 <=? hour slot_start) && (hour slot_start <? 18) then
      ((score + 0.2)%Q, notes ++ [NoteAfternoonAligned who])
    else (score, notes ++ [NoteAfternoonMissed who])
  else st.

Definition rule_avoid_lunch (who : string) (prefs : ParticipantPreferences)
    (slot_start slot_end : datetime) (st : scoring) : scoring :=
  let '(score, notes) := st in
  if truthy_bool (avoid_lunch_time prefs) then
    if ((12 <=? hour slot_start) && (hour slot_start <? 13))
       || ((12 <? hour slot_end) && (hour slot_end <=? 13)) then
      ((score - 0.2)%Q, notes ++ [NoteLunchConflict who])
    else (score, notes ++ [NoteLunchRespected who])
  else st.

Definition rule_preferred_duration (who : string) (prefs : ParticipantPreferences)
    (duration : Z) (st : scoring) : scoring :=
  let '(score, notes) := st in
  if truthy_int (preferred_max_duration prefs) then
    let cap := int_value (preferred_max_duration prefs) in
    if duration <=? cap then
      ((score + 0.1)%Q, notes ++ [NoteDurationWithin who duration cap])
    else (score, notes ++ [NoteDurationExceeds who duration cap])
  else st.

(** [calendar[calendar['start_time'].dt.date == slot_date]] *)
Definition same_day_meetings (cal : DataFrame) (slot_start : datetime) : DataFrame :=
  List.filter (fun b => date (b_start b) =? date slot_start) cal.

Definition close_meetings (cal : DataFrame) (slot_start slot_end : datetime) : DataFrame :=
  let buffer_minutes := 15 in
  List.filter
    (fun b =>
       ((plus_minutes slot_start (- buffer_minutes) <? b_end b) && (b_end b <=? slot_start))
       || ((slot_end <=? b_start b) && (b_start b <? plus_minutes slot_end buffer_minutes)))
    cal.

Definition rule_calendar (who : string) (prefs : ParticipantPreferences)
    (cal : option DataFrame) (slot_start slot_end : datetime) (st : scoring) : scoring :=
  if has_rows cal then
    let '(score, notes) := st in
    let meeting_count := Z.of_nat (List.length (same_day_meetings (rows cal) slot_start)) in
    let cap := int_value (max_meetings_per_day prefs) in
    let '(score, notes) :=
      if truthy_int (max_meetings_per_day prefs) && (cap <=? meeting_count) then
        ((score - 0.3)%Q, notes ++ [NoteDayAtLimit who meeting_count cap])
      else if 4 <=? meeting_count then
        ((score - 0.2)%Q, notes ++ [NoteDayQuiteBusy who meeting_count])
      else if 2 <=? meeting_count then
        ((score - 0.1)%Q, notes ++ [NoteDayModeratelyBusy who meeting_count])
      else if meeting_count =? 1 then
        (score, notes ++ [NoteDayOneMeeting who meeting_count])
      else (score, notes ++ [NoteDayFree who]) in
    if negb (df_empty (close_meetings (rows cal) slot_start slot_end)) then
      ((score - 0.1)%Q, notes ++ [NoteBackToBack who 15])
    else (score, notes ++ [NoteBufferOk who])
  else st.

Definition rule_time_assessment (slot_start : datetime) (st : scoring) : scoring :=
  let '(score, notes) := st in
  let h := hour slot_start in
  if (10 <=? h) && (h <=? 11) then (score, notes ++ [NoteMidMorning])
  else if (14 <=? h) && (h <=? 15) then (score, notes ++ [NoteEarlyAfternoon])
  else if h =? 9 then (score, notes ++ [NoteEarlyMorning])
  else if 16 <=? h then (score, notes ++ [NoteLateAfternoon])
  else if h <? 9 then (score, notes ++ [NoteVeryEarly])
  else st.

Definition rule_final (st : scoring) : scoring :=
  let '(score, notes) := st in
  let final_score := clamp01 score in
  if Qlt_bool 0.8 final_score then (final_score, notes ++ [NoteExcellent])
  else if Qlt_bool 0.6 final_score then (final_score, notes ++ [NoteGood])
  else if Qlt_bool 0.4 final_score then (final_score, notes ++ [NoteAcceptable])
  else (final_score, notes ++ [NotePoor]).

Definition _calculate_slot_score_with_notes (slot_start slot_end : datetime)
    (duration : Z) (participant_name : string) (participant_data : ParticipantData)
    : scoring :=
  let prefs := preferences participant_data in
  let cal := calendar participant_data in
  let st := (0.5%Q, []) in
  let st := rule_no_meetings_before participant_name prefs slot_start st in
  let st := rule_no_meetings_after participant_name prefs slot_end st in
  let st := rule_prefer_morning participant_name prefs slot_start st in
  let st := rule_prefer_afternoon participant_name prefs slot_start st in
  let st := rule_avoid_lunch participant_name prefs slot_start slot_end st in
  let st := rule_preferred_duration participant_name prefs duration st in
  let st := rule_calendar participant_name prefs cal slot_start slot_end st in
  let st := rule_time_assessment slot_start st in
  rule_final st.



End ScheduleAnalyst.

(** ** The store of schedule objects and the step log *)

Module Runtime.

(** The first argument of each [logger.process_step] call of the
    negotiation specialist. *)
Inductive process_step :=
| ps_negotiate_schedule
| ps_preference_processing
| ps_strict_filter
| ps_iterative_negotiation
| ps_strategy_duration
| ps_strategy_tod
| ps_strategy_alt_day
| ps_strategy_relax
| ps_duration_adjust
| ps_time_shift
| ps_alternative_day
| ps_relax_hours.

(** [IndexError], [ValueError] and pydantic's [ValidationError];
    [DanglingRef] stands for reading a reference that is not in the store,
    which a Python program cannot do. *)
Inductive exn := IndexError | ValueError | ValidationError | DanglingRef.

Inductive result (A : Type) :=
| Ok (a : A)
| Raise (e : exn).
Arguments Ok {A} a.
Arguments Raise {A} e.

Record world := mk_world {
  heap : gmap ref MeetingSchedule;
  steps : list process_step
}.

Definition M (A : Type) : Type := world -> world * result A.

Definition ret {A} (a : A) : M A := fun w => (w, Ok a).
Definition raise {A} (e : exn) : M A := fun w => (w, Raise e).
Definition bind {A B} (m : M A) (k : A -> M B) : M B :=
  fun w =>
    match m w with
    | (w', Ok a) => k a w'
    | (w', Raise e) => (w', Raise e)
    end.

Declare Scope engine_scope.
Delimit Scope engine_scope with engine.
Notation "x <- m ;; k" := (bind m (fun x => k))
  (at level 100, m at next level, right associativity) : engine_scope.
Notation "m ;;; k" := (bind m (fun _ => k))
  (at level 100, right associativity) : engine_scope.

(** [self.logger.process_step(name, ...)] *)
Definition log_step (s : process_step) : M unit :=
  fun w => (mk_world (heap w) (steps w ++ [s]), Ok tt).

(** Reading the object behind a reference. *)
Definition read (r : ref) : M MeetingSchedule :=
  fun w =>
    match heap w !! r with
    | Some v => (w, Ok v)
    | None => (w, Raise DanglingRef)
    end.

(** [obj.model_copy(deep=True)]: a new object with the same field values;
    the list field is held by value, so nothing is shared. *)
Definition model_copy (r : ref) : M ref :=
  fun w =>
    match heap w !! r with
    | Some v =>
        let r' := fresh (dom (heap w)) in
        (mk_world (<[r' := v]> (heap w)) (steps w), Ok r')
    | None => (w, Raise DanglingRef)
    end.

(** Attribute assignment [obj.field = value], as an update of the cell. *)
Definition assign (r : ref) (f : MeetingSchedule -> MeetingSchedule) : M unit :=
  fun w =>
    match heap w !! r with
    | Some v => (mk_world (<[r := f v]> (heap w)) (steps w), Ok tt)
    | None => (w, Raise DanglingRef)
    end.

Definition set_default_duration (d : Z) (s : MeetingSchedule) : MeetingSchedule :=
  mk_schedule (schedule_day s) d (working_hours_start s) (working_hours_end s)
    (time_slot_interval s) (alternative_durations s) (max_alternative_days s).

Definition set_schedule_day (d : datetime) (s : MeetingSchedule) : MeetingSchedule :=
  mk_schedule d (default_duration s) (working_hours_start s) (working_hours_end s)
    (time_slot_interval s) (alternative_durations s) (max_alternative_days s).

Definition set_working_hours_start (t : time) (s : MeetingSchedule) : MeetingSchedule :=
  mk_schedule (schedule_day s) (default_duration s) t (working_hours_end s)
    (time_slot_interval s) (alternative_durations s) (max_alternative_days s).

Definition set_working_hours_end (t : time) (s : MeetingSchedule) : MeetingSchedule :=
  mk_schedule (schedule_day s) (default_duration s) (working_hours_start s) t
    (time_slot_interval s) (alternative_durations s) (max_alternative_days s).

(** [l[0]] *)
Definition index0 {A} (l : list A) : M A :=
  match l with
  | x :: _ => ret x
  | [] => raise IndexError
  end.

(** [l[1:3]] *)
Definition slice_1_3 {A} (l : list A) : list A := firstn 2 (skipn 1 l).

(** [min(l)] on integers. *)
Definition py_min (l : list Z) : M Z :=
  match l with
  | x :: l' => ret (fold_left Z.min l' x)
  | [] => raise ValueError
  end.

(** Python truthiness of a list. *)
Definition nonempty {A} (l : list A) : bool :=
  match l with [] => false | _ => true end.

(** [l.sort(key=lambda s: s.confidence, reverse=True)] and
    [sorted(l, key=..., reverse=True)]: descending by confidence, stable
    (equal keys keep their input order). *)
Fixpoint insert_by_confidence (x : SlotInfo) (l : list SlotInfo) : list SlotInfo :=
  match l with
  | [] => [x]
  | y :: l' =>
      if Qlt_bool (confidence x) (confidence y)
      then y :: insert_by_confidence x l'
      else x :: y :: l'
  end.

Definition sort_by_confidence (l : list SlotInfo) : list SlotInfo :=
  fold_right insert_by_confidence [] l.

(** [ranked a b]: [a] may stand before [b] in a list sorted by descending
    confidence. *)
Definition ranked (a b : SlotInfo) : Prop := (confidence b <= confidence a)%Q.

(** [d.get(k)] on a dict held as an association list in insertion order. *)
Fixpoint dict_get {V} (d : list (string * V)) (k : string) : option V :=
  match d with
  | [] => None
  | (k', v) :: d' => if String.eqb k k' then Some v else dict_get d' k
  end.

End Runtime.
Import Runtime.
Local Open Scope engine_scope.

(** ** [agents/negotiation_specialist.py] *)

Module NegotiationSpecialist.

Record NegotiationSpecialistAgent := mk_agent { initial : ref }.

(** The dict comprehensions at the top of [negotiate_schedule]. *)
Definition prefs_of (participants : list (string * ParticipantData))
    : list (string * ParticipantPreferences) :=
  map (fun pd => (fst pd, preferences (snd pd))) participants.

Definition calendars_of (participants : list (string * ParticipantData))
    : list (string * option DataFrame) :=
  map (fun pd => (fst pd, calendar (snd pd))) participants.

(** [calendars.get(p)]: [None] for a missing key as for a stored [None]. *)
Definition calendars_get (calendars : list (string * option DataFrame)) (p : string)
    : option DataFrame :=
  match dict_get calendars p with
  | Some df => df
  | None => None
  end.

(** [lunch = (time(12, 0), time(13, 0))] and the test
    [lunch[0] <= st.time() < lunch[1] or lunch[0] < et.time() <= lunch[1]]. *)
Definition lunch : time * time := (mk_time 12 0, mk_time 13 0).

Definition lunch_test (st_time et_time : time) : bool :=
  (time_leb (fst lunch) st_time && time_ltb st_time (snd lunch))
  || (time_ltb (fst lunch) et_time && time_leb et_time (snd lunch)).

(** [((df["start_time"] >= lo) & (df["start_time"] < hi)).sum()] *)
Definition starts_within (df : DataFrame) (lo hi : datetime) : Z :=
  Z.of_nat (List.length (List.filter (fun b => (lo <=? b_start b) && (b_start b <? hi)) df)).

(** What pydantic guarantees of a validated [ParticipantPreferences]: the
    two integer fields are declared [gt=0]. *)
Definition validated (pr : ParticipantPreferences) : Prop :=
  (forall n, preferred_max_duration pr = Some n -> 0 < n)
  /\ (forall n, max_meetings_per_day pr = Some n -> 0 < n).

(** The guards of the four [if] statements of the ladder: whether the
    strategy is attempted in a round that follows [previous_strategy]. *)
Definition attempts (previous_strategy s : NegotiationStrategy) : bool :=
  match s with
  | NONE => false
  | DURATION_ADJUSTMENT =>
      strategy_ltb previous_strategy DURATION_ADJUSTMENT
      || strategy_geb previous_strategy ALTERNATIVE_DAY
  | TOD_SHIFTING =>
      strategy_ltb previous_strategy TOD_SHIFTING
      || strategy_geb previous_strategy ALTERNATIVE_DAY
  | ALTERNATIVE_DAY => strategy_ltb previous_strategy ALTERNATIVE_DAY
  | RELAX_CONSTRAINTS => strategy_ltb previous_strategy RELAX_CONSTRAINTS
  end.

(** The second disjunct of the first two guards. *)
Definition wrap_condition (previous_strategy : NegotiationStrategy) : bool :=
  strategy_geb previous_strategy ALTERNATIVE_DAY.

(** The strategy that a step of the log announces, and the strategies
    attempted according to a log, in the order of their attempts. *)
Definition announced (s : process_step) : option NegotiationStrategy :=
  match s with
  | ps_strategy_duration => Some DURATION_ADJUSTMENT
  | ps_strategy_tod => Some TOD_SHIFTING
  | ps_strategy_alt_day => Some ALTERNATIVE_DAY
  | ps_strategy_relax => Some RELAX_CONSTRAINTS
  | _ => None
  end.

Fixpoint strategies_tried (log : list process_step) : list NegotiationStrategy :=
  match log with
  | [] => []
  | s :: log' =>
      match announced s with
      | Some x => x :: strategies_tried log'
      | None => strategies_tried log'
      end
  end.

(** The result built after the last rung. *)
Definition impossible_result : NegotiationResult :=
  mk_result IMPOSSIBLE None None ReasonExhausted [] NONE.

(** The four rungs, bottom to top. *)
Definition ladder : list NegotiationStrategy :=
  [DURATION_ADJUSTMENT; TOD_SHIFTING; ALTERNATIVE_DAY; RELAX_CONSTRAINTS].

Section Engine.

(** Minutes by which local time is ahead of UTC. [dt.timestamp()] reads a
    naive datetime as local time, and [pd.to_datetime(ms, unit='ms')]
    gives back the naive UTC datetime. *)
Variable utcoffset : Z.

Definition via_timestamp (t : datetime) : datetime := t - utcoffset.

(** *** The strict filter *)

(** The body of the loop over [prefs.items()]: [false] is
    [return False], [true] falls through to the next participant. *)
Definition respects_one (slot : SlotInfo) (calendars : list (string * option DataFrame))
    (p : string) (pr : ParticipantPreferences) : bool :=
  let st := start_time slot in
  let et := end_time slot in
  let dur := duration_minutes slot in
  if truthy_time (no_meetings_before pr) && time_ltb (time_of st) (no_before pr) then false
  else if truthy_time (no_meetings_after pr) && time_ltb (no_after pr) (time_of et) then false
  else if truthy_bool (prefer_morning pr) && negb ((6 <=? hour st) && (hour st <? 12)) then false
  else if truthy_bool (prefer_afternoon pr) && negb ((13 <=? hour st) && (hour st <? 18)) then false
  else if truthy_bool (avoid_lunch_time pr) && lunch_test (time_of st) (time_of et) then false
  else if truthy_int (preferred_max_duration pr)
          && (int_value (preferred_max_duration pr) <? dur) then false
  else if truthy_int (max_meetings_per_day pr) then
    let df := calendars_get calendars p in
    if has_rows df then
      let day_start := midnight st in
      let day_end := plus_days day_start 1 in
      let todays := starts_within (rows df) (via_timestamp day_start) (via_timestamp day_end) in
      negb (int_value (max_meetings_per_day pr) <=? todays)
    else true
  else true.

Definition _slot_respects_all (slot : SlotInfo)
    (prefs : list (string * ParticipantPreferences))
    (calendars : list (string * option DataFrame)) : bool :=
  forallb (fun ppr => respects_one slot calendars (fst ppr) (snd ppr)) prefs.

(** *** Duration adjustment *)

(** The [SlotInfo] rebuilt from [s.model_dump()] with [duration_minutes]
    replaced by the cap: the constructor validates
    [duration_minutes > 0]. *)
Definition replace_duration (cap : Z) (s : SlotInfo) : SlotInfo :=
  mk_slot (start_time s) (end_time s) cap (confidence s) (participants s)
    (participant_scores s) (participant_notes s) (notes s) (day_of_week s) (score s).

Definition with_duration (cap : Z) (s : SlotInfo) : M SlotInfo :=
  if 0 <? cap then ret (replace_duration cap s) else raise ValidationError.

Fixpoint map_M {A B} (f : A -> M B) (l : list A) : M (list B) :=
  match l with
  | [] => ret []
  | x :: l' => y <- f x ;; ys <- map_M f l' ;; ret (y :: ys)
  end.

Definition _strategy_duration_adjust (self : NegotiationSpecialistAgent)
    (slots : list SlotInfo) (prefs : list (string * ParticipantPreferences))
    : M (option NegotiationResult) :=
  log_step ps_duration_adjust ;;;
  let caps :=
    map (fun ppr => int_value (preferred_max_duration (snd ppr)))
      (List.filter (fun ppr => truthy_int (preferred_max_duration (snd ppr))) prefs) in
  if negb (nonempty caps) then ret None
  else
    smallest_cap <- py_min caps ;;
    init <- read (initial self) ;;
    if default_duration init <=? smallest_cap then ret None
    else
      new_sched <- model_copy (initial self) ;;
      assign new_sched (set_default_duration smallest_cap) ;;;
      compat <- map_M (with_duration smallest_cap)
                  (List.filter (fun s => smallest_cap <=? duration_minutes s) slots) ;;
      if negb (nonempty compat) then ret None
      else
        let compat := sort_by_confidence compat in
        best_slot <- index0 compat ;;
        ret (Some (mk_result COMPROMISE_PROPOSED (Some new_sched) (Some best_slot)
                     (ReasonReducedDuration smallest_cap) (slice_1_3 compat)
                     DURATION_ADJUSTMENT)).

(** *** Time-of-day shifting *)

(** The nested function [ok]. Both [st] and [et] are parsed from
    [slot.start_time]. *)
Definition time_shift_ok (prefs : list (string * ParticipantPreferences))
    (slot : SlotInfo) : bool :=
  let st := start_time slot in
  let et := start_time slot in
  forallb
    (fun ppr =>
       let pr := snd ppr in
       if truthy_time (no_meetings_before pr) && time_ltb (time_of st) (no_before pr)
       then false
       else if truthy_time (no_meetings_after pr) && time_ltb (no_after pr) (time_of et)
       then false
       else if truthy_bool (avoid_lunch_time pr) && lunch_test (time_of st) (time_of et)
       then false
       else if truthy_int (preferred_max_duration pr)
               && (int_value (preferred_max_duration pr) <? duration_minutes slot)
       then false
       else true)
    prefs.

Definition _strategy_time_shift (self : NegotiationSpecialistAgent)
    (slots : list SlotInfo) (prefs : list (string * ParticipantPreferences))
    : M (option NegotiationResult) :=
  log_step ps_time_shift ;;;
  let viable := List.filter (time_shift_ok prefs) slots in
  if negb (nonempty viable) then ret None
  else
    let viable := sort_by_confidence viable in
    best_slot <- index0 viable ;;
    new_sched <- model_copy (initial self) ;;
    assign new_sched (set_schedule_day (start_time best_slot)) ;;;
    ret (Some (mk_result COMPROMISE_PROPOSED (Some new_sched) (Some best_slot)
                 ReasonRelaxedTimeOfDay (slice_1_3 viable) TOD_SHIFTING)).

(** *** Alternative day *)

(** The loop over [prefs.items()] that computes [day_ok]. *)
Definition day_ok (prefs : list (string * ParticipantPreferences))
    (calendars : list (string * option DataFrame)) (day : datetime) : bool :=
  forallb
    (fun ppr =>
       let pref := snd ppr in
       if negb (truthy_int (max_meetings_per_day pref)) then true
       else
         let df := calendars_get calendars (fst ppr) in
         if negb (has_rows df) then true
         else
           let todays :=
             starts_within (rows df) (via_timestamp day)
               (via_timestamp (plus_days day 1)) in
           negb (int_value (max_meetings_per_day pref) <=? todays))
    prefs.

(** The days visited by
    [for offset in range(1, max + 1): for sign in (+1, -1)], in order. *)
Definition candidate_days (base_day : datetime) (max_days : Z) : list datetime :=
  flat_map
    (fun offset => [plus_days base_day offset; plus_days base_day (- offset)])
    (map Z.of_nat (seq 1 (Z.to_nat max_days))).

Definition _strategy_alternative_day (self : NegotiationSpecialistAgent)
    (slots : list SlotInfo) (prefs : list (string * ParticipantPreferences))
    (calendars : list (string * option DataFrame)) : M (option NegotiationResult) :=
  log_step ps_alternative_day ;;;
  init <- read (initial self) ;;
  if max_alternative_days init =? 0 then ret None
  else
    let base_day := schedule_day init in
    match List.find (fun day => (weekday day <? 5) && day_ok prefs calendars day)
            (candidate_days base_day (max_alternative_days init)) with
    | Some day =>
        new_sched <- model_copy (initial self) ;;
        assign new_sched (set_schedule_day day) ;;;
        ret (Some (mk_result COMPROMISE_PROPOSED (Some new_sched) None
                     (ReasonSwitchDay day) [] ALTERNATIVE_DAY))
    | None => ret None
    end.

(** *** Relaxed working hours *)

(** The loop body that computes [allowed] for one slot. *)
Definition relax_allowed (prefs : list (string * ParticipantPreferences))
    (s : SlotInfo) : bool :=
  let st := start_time s in
  let et := end_time s in
  forallb
    (fun ppr =>
       let pr := snd ppr in
       if truthy_time (no_meetings_before pr) && time_ltb (time_of st) (no_before pr)
       then false
       else if truthy_time (no_meetings_after pr) && time_ltb (no_after pr) (time_of et)
       then false
       else if truthy_bool (avoid_lunch_time pr) && lunch_test (time_of st) (time_of et)
       then false
       else if truthy_int (preferred_max_duration pr)
               && (int_value (preferred_max_duration pr) <? duration_minutes s)
       then false
       else true)
    prefs.

(** [(strptime(t, "%H:%M") + timedelta(minutes=m)).strftime("%H:%M")]:
    the clock wraps around midnight. *)
Definition shift_clock (t : time) (m : Z) : time :=
  let total := (t_hour t * 60 + t_minute t + m) mod minutes_per_day in
  mk_time (total / 60) (total mod 60).

Definition _strategy_relax_hours (self : NegotiationSpecialistAgent)
    (slots : list SlotInfo) (prefs : list (string * ParticipantPreferences))
    : M (option NegotiationResult) :=
  log_step ps_relax_hours ;;;
  let widened_slots := List.filter (relax_allowed prefs) slots in
  if negb (nonempty widened_slots) then ret None
  else
    let widened_slots := sort_by_confidence widened_slots in
    best_slot <- index0 widened_slots ;;
    init <- read (initial self) ;;
    let new_start := shift_clock (working_hours_start init) (-30) in
    let new_end := shift_clock (working_hours_end init) 30 in
    new_sched <- model_copy (initial self) ;;
    assign new_sched (set_working_hours_start new_start) ;;;
    assign new_sched (set_working_hours_end new_end) ;;;
    ret (Some (mk_result COMPROMISE_PROPOSED (Some new_sched) (Some best_slot)
                 ReasonExtendedHours (slice_1_3 widened_slots) RELAX_CONSTRAINTS)).

(** *** The ladder *)

(** One rung: [if guard: result = strategy(...); if result: return result].
    [k] is the rest of the function. *)
Definition rung (guard : bool) (announce : process_step)
    (strategy : M (option NegotiationResult)) (k : M NegotiationResult)
    : M NegotiationResult :=
  if guard then
    log_step announce ;;;
    result <- strategy ;;
    match result with
    | Some r => ret r
    | None => k
    end
  else k.

Definition negotiate_schedule (self : NegotiationSpecialistAgent)
    (available_slots : list SlotInfo) (participants : list (string * ParticipantData))
    (min_score : Q) (previous_strategy : NegotiationStrategy) : M NegotiationResult :=
  log_step ps_negotiate_schedule ;;;
  log_step ps_preference_processing ;;;
  let prefs := prefs_of participants in
  let calendars := calendars_of participants in
  log_step ps_strict_filter ;;;
  let ok_slots :=
    List.filter (fun s => _slot_respects_all s prefs calendars) available_slots in
  if nonempty ok_slots then
    let ok_slots := sort_by_confidence ok_slots in
    best <- index0 ok_slots ;;
    let outcome :=
      if Qle_bool min_score (confidence best) then OPTIMAL_FOUND
      else COMPROMISE_PROPOSED in
    ret (mk_result outcome (Some (initial self)) (Some best) ReasonStrict
           (slice_1_3 ok_slots) NONE)
  else
    log_step ps_iterative_negotiation ;;;
    rung (attempts previous_strategy DURATION_ADJUSTMENT)
      ps_strategy_duration (_strategy_duration_adjust self available_slots prefs)
    (rung (attempts previous_strategy TOD_SHIFTING)
      ps_strategy_tod (_strategy_time_shift self available_slots prefs)
    (rung (attempts previous_strategy ALTERNATIVE_DAY)
      ps_strategy_alt_day (_strategy_alternative_day self available_slots prefs calendars)
    (rung (attempts previous_strategy RELAX_CONSTRAINTS)
      ps_strategy_relax (_strategy_relax_hours self available_slots prefs)
    (ret impossible_result)))).

End Engine.

End NegotiationSpecialist.

(** ** [autogent/coordinator.py] *)

Module Coordinator.

Definition time_eq_dec (a b : time) : {a = b} + {a <> b}.
Proof. decide equality; apply Z.eq_dec. Defined.

Definition Note_eq_dec (a b : Note) : {a = b} + {a <> b}.
Proof.
  decide equality;
    first [ apply Z.eq_dec | apply string_dec | apply time_eq_dec ].
Defined.

Fixpoint list_eqb {A} (eqb : A -> A -> bool) (l1 l2 : list A) : bool :=
  match l1, l2 with
  | [], [] => true
  | x :: l1', y :: l2' => eqb x y && list_eqb eqb l1' l2'
  | _, _ => false
  end.

Definition notes_entry_eqb (a b : string * list Note) : bool :=
  String.eqb (fst a) (fst b)
  && list_eqb (fun x y => if Note_eq_dec x y then true else false) (snd a) (snd b).

(** Two suggestions have the same [json.dumps(suggestion, sort_keys=True)]
    text exactly when they agree field by field. *)
Definition slot_eqb (a b : SlotInfo) : bool :=
  (start_time a =? start_time b)
  && (end_time a =? end_time b)
  && (duration_minutes a =? duration_minutes b)
  && Qeq_bool (confidence a) (confidence b)
  && list_eqb String.eqb (participants a) (participants b)
  && list_eqb Qeq_bool (participant_scores a) (participant_scores b)
  && list_eqb notes_entry_eqb (participant_notes a) (participant_notes b)
  && String.eqb (notes a) (notes b)
  && (day_of_week a =? day_of_week b)
  && Qeq_bool (score a) (score b).

(** The bookkeeping of one round: the selected slot, if any, then the
    alternatives, are appended to [all_suggestions]. *)
Definition collect (all_suggestions : list SlotInfo) (negotiation : NegotiationResult)
    : list SlotInfo :=
  let all_suggestions :=
    match selected_slot negotiation with
    | Some s => all_suggestions ++ [s]
    | None => all_suggestions
    end in
  let suggestions := alternative_suggestions negotiation in
  if nonempty suggestions then all_suggestions ++ suggestions else all_suggestions.

Definition suggestions_of (negotiation_history : list NegotiationResult) : list SlotInfo :=
  fold_left collect negotiation_history [].

(** [Counter(suggestion_strings)]: the counts, keyed in order of first
    occurrence. *)
Fixpoint counter_add (x : SlotInfo) (c : list (SlotInfo * nat)) : list (SlotInfo * nat) :=
  match c with
  | [] => [(x, 1%nat)]
  | (y, n) :: c' =>
      if slot_eqb x y then (y, S n) :: c' else (y, n) :: counter_add x c'
  end.

Definition Counter (l : list SlotInfo) : list (SlotInfo * nat) :=
  fold_left (fun c x => counter_add x c) l [].

(** How often a suggestion occurs in the list, up to equality of the JSON
    texts; the count a counter holds for it; and counters whose keys are
    pairwise different. *)
Definition occurrences (s : SlotInfo) (l : list SlotInfo) : nat :=
  List.length (List.filter (slot_eqb s) l).

Fixpoint lookup_count (c : list (SlotInfo * nat)) (s : SlotInfo) : nat :=
  match c with
  | [] => 0%nat
  | (y, n) :: c' => if slot_eqb s y then n else lookup_count c' s
  end.

Fixpoint distinct_keys (c : list (SlotInfo * nat)) : Prop :=
  match c with
  | [] => True
  | (y, _) :: c' => (forall e, In e c' -> slot_eqb (fst e) y = false) /\ distinct_keys c'
  end.

(** [max(items, key=itemgetter(1))], which [most_common(1)] reduces to: the
    first of the entries with the greatest count. *)
Fixpoint max_by_count (best : SlotInfo * nat) (c : list (SlotInfo * nat))
    : SlotInfo * nat :=
  match c with
  | [] => best
  | x :: c' => max_by_count (if (snd best <? snd x)%nat then x else best) c'
  end.

(** [Counter(...).most_common(1)[0]] *)
Definition most_common_1 (l : list SlotInfo) : result (SlotInfo * nat) :=
  match Counter l with
  | [] => Raise IndexError
  | x :: c => Ok (max_by_count x c)
  end.

(** [sorted(all_suggestions, key=lambda x: x['confidence'], reverse=True)[0]] *)
Definition highest_confidence_of (l : list SlotInfo) : result SlotInfo :=
  match sort_by_confidence l with
  | [] => Raise IndexError
  | x :: _ => Ok x
  end.

(** The block under [if not optimal_found:]. *)
Definition fallback_selection (all_suggestions : list SlotInfo) : result (option SlotInfo) :=
  if nonempty all_suggestions then
    match most_common_1 all_suggestions with
    | Raise e => Raise e
    | Ok (most_common, count) =>
        match highest_confidence_of all_suggestions with
        | Raise e => Raise e
        | Ok highest_confidence =>
            Ok (Some (if Qlt_bool (confidence highest_confidence) (confidence most_common)
                      then most_common
                      else highest_confidence))
        end
    end
  else Ok None.

(** The slot chosen once the rounds are over. *)
Definition final_slot (optimal_found : bool) (best_slot : option SlotInfo)
    (all_suggestions : list SlotInfo) : result (option SlotInfo) :=
  if negb optimal_found then fallback_selection all_suggestions else Ok best_slot.

(** The selection rule in the words of the specification: the modal
    suggestion when its confidence does not exceed that of the
    highest-confidence suggestion, the highest-confidence suggestion
    otherwise. *)
Definition fallback_as_specified (all_suggestions : list SlotInfo)
    : result (option SlotInfo) :=
  if nonempty all_suggestions then
    match most_common_1 all_suggestions with
    | Raise e => Raise e
    | Ok (most_common, count) =>
        match highest_confidence_of all_suggestions with
        | Raise e => Raise e
        | Ok highest_confidence =>
            Ok (Some (if Qle_bool (confidence most_common) (confidence highest_confidence)
                      then most_common
                      else highest_confidence))
        end
    end
  else Ok None.

End Coordinator.

(** ** The rest of [agents/schedule_analyst.py], and [autogent/analyst_tool.py] *)

Module Analysis.
Import ScheduleAnalyst.

(** [AttributeError] (reading [.empty] of a calendar that is [None]),
    [KeyError] (a participant without stored preferences) and the
    [ValidationError] of the [SlotInfo] constructor. *)
Inductive error := AttributeError | KeyError | SlotValidationError.

Inductive answer (A : Type) :=
| Done (a : A)
| Failed (e : error).
Arguments Done {A} a.
Arguments Failed {A} e.

(** [dt.replace(hour=c.hour, minute=c.minute, second=0, microsecond=0)] *)
Definition replace_time (t : datetime) (c : time) : datetime :=
  midnight t + t_hour c * 60 + t_minute c.

(** *** [_generate_slot_notes] *)

Definition hour_note (h : Z) : list string :=
  if (10 <=? h) && (h <=? 11) then ["Optimal mid-morning time"%string]
  else if (14 <=? h) && (h <=? 15) then ["Good early afternoon slot"%string]
  else if h =? 9 then ["Early morning - may suit early risers"%string]
  else if 16 <=? h then ["Late afternoon slot"%string]
  else [].

Definition weekday_note (d : Z) : list string :=
  if (d =? 1) || (d =? 2) || (d =? 3) then ["Mid-week scheduling"%string]
  else if d =? 0 then ["Monday scheduling"%string]
  else if d =? 4 then ["Friday scheduling"%string]
  else [].

Definition score_note (score : Q) : list string :=
  if Qlt_bool 0.8 score then ["High confidence slot"%string]
  else if Qlt_bool 0.6 score then ["Good availability"%string]
  else ["Available but suboptimal timing"%string].

Definition _generate_slot_notes (slot_time : datetime) (score : Q) : string :=
  let notes := hour_note (hour slot_time) ++ weekday_note (weekday slot_time)
               ++ score_note score in
  if nonempty notes then String.concat "; " notes else "Available time slot"%string.

(** *** [_score_slots] *)

(** [sum(scores) / len(scores) if scores else 0.0]. The mean is taken
    exactly; the float one differs from it by the rounding of the sum and of
    the division, so nothing below rests on its value at a threshold, only on
    its lying between 0 and 1. *)
Definition average (scores : list Q) : Q :=
  if nonempty scores
  then (fold_left Qplus scores 0 / inject_Z (Z.of_nat (List.length scores)))%Q
  else 0%Q.

(** The [SlotInfo] constructor with its two field constraints,
    [duration_minutes > 0] and [0 <= confidence <= 1]. *)
Definition new_SlotInfo (start_time end_time : datetime) (duration_minutes : Z)
    (confidence : Q) (participants : list string) (participant_scores : list Q)
    (participant_notes : list (string * list Note)) (notes : string) (day_of_week : Z)
    (score : Q) : answer SlotInfo :=
  if (0 <? duration_minutes) && Qle_bool 0 confidence && Qle_bool confidence 1 then
    Done (mk_slot start_time end_time duration_minutes confidence participants
            participant_scores participant_notes notes day_of_week score)
  else Failed SlotValidationError.

(** The body of the loop over [available_slots]. *)
Definition score_one (participants_data : list (string * ParticipantData)) (duration : Z)
    (slot : datetime * datetime) : answer SlotInfo :=
  let (slot_start, slot_end) := slot in
  let scored :=
    map (fun pd =>
           (fst pd,
            _calculate_slot_score_with_notes slot_start slot_end duration (fst pd) (snd pd)))
      participants_data in
  let participant_scores := map (fun ps => fst (snd ps)) scored in
  let participant_notes := map (fun ps => (fst ps, snd (snd ps))) scored in
  let avg_score := average participant_scores in
  new_SlotInfo slot_start slot_end duration
    (if Qlt_bool 1 avg_score then 1%Q else avg_score)
    (map fst participants_data) participant_scores participant_notes
    (_generate_slot_notes slot_start avg_score) (weekday slot_start) avg_score.

Fixpoint map_answer {A B} (f : A -> answer B) (l : list A) : answer (list B) :=
  match l with
  | [] => Done []
  | x :: l' =>
      match f x with
      | Failed e => Failed e
      | Done y =>
          match map_answer f l' with
          | Failed e => Failed e
          | Done ys => Done (y :: ys)
          end
      end
  end.

(** [scored_slots.sort(key=lambda x: x.score, reverse=True)]: descending by
    score, stable. *)
Fixpoint insert_by_score (x : SlotInfo) (l : list SlotInfo) : list SlotInfo :=
  match l with
  | [] => [x]
  | y :: l' =>
      if Qlt_bool (score x) (score y) then y :: insert_by_score x l' else x :: y :: l'
  end.

Definition sort_by_score (l : list SlotInfo) : list SlotInfo :=
  fold_right insert_by_score [] l.

Definition _score_slots (available_slots : list (datetime * datetime))
    (participants_data : list (string * ParticipantData)) (duration : Z)
    : answer (list SlotInfo) :=
  match map_answer (score_one participants_data duration) available_slots with
  | Failed e => Failed e
  | Done scored_slots => Done (sort_by_score scored_slots)
  end.

(** *** [find_free_slots] *)

(** The loop that collects the calendars reads [calendar_df.empty] of each. *)
Fixpoint all_busy_slots (participants_data : list (string * ParticipantData))
    : answer (list DataFrame) :=
  match participants_data with
  | [] => Done []
  | pd :: rest =>
      match calendar (snd pd) with
      | None => Failed AttributeError
      | Some calendar_df =>
          match all_busy_slots rest with
          | Failed e => Failed e
          | Done dfs => Done (calendar_df :: dfs)
          end
      end
  end.

(** [schedule_day] is given; the source takes the current time when it is
    left out. [None] stands for a call that is still running after [fuel]
    loop tests of the generator. *)
Definition find_free_slots (self : ScheduleAnalystAgent)
    (participants_data : list (string * ParticipantData)) (meeting_duration : Z)
    (schedule_day : datetime) (fuel : nat) : option (answer (list SlotInfo)) :=
  let (start_time_obj, end_time_obj) := working_hours self in
  let start_date := replace_time schedule_day start_time_obj in
  let end_date := replace_time start_date end_time_obj in
  match all_busy_slots participants_data with
  | Failed e => Some (Failed e)
  | Done dfs =>
      let combined_busy := List.concat dfs in
      match _generate_time_slots self start_date end_date meeting_duration fuel with
      | None => None
      | Some potential_slots =>
          let available_slots := _filter_available_slots potential_slots combined_busy in
          Some (_score_slots available_slots participants_data meeting_duration)
      end
  end.

(** *** [AnalystAgentAutogen.propose_slots] *)

Section Stores.

(** The two stores of [mock_data]: [get_preference] raises [KeyError] for an
    unknown name ([None] here), [get_person_calendar] returns a frame for
    every name. *)
Variable get_preference : string -> option ParticipantPreferences.
Variable get_person_calendar : string -> DataFrame.

(** [participants_data[p] = {...}] for each [p] in turn: a name that comes
    again overwrites the entry it already has. *)
Fixpoint load_participants (participants : list string) (seen : list string)
    : answer (list (string * ParticipantData)) :=
  match participants with
  | [] => Done []
  | p :: rest =>
      match get_preference p with
      | None => Failed KeyError
      | Some preferences =>
          match load_participants rest (p :: seen) with
          | Failed e => Failed e
          | Done data =>
              if existsb (String.eqb p) seen then Done data
              else Done ((p, mk_pdata preferences (Some (get_person_calendar p))) :: data)
          end
      end
  end.

Definition propose_slots (participants : list string) (meeting_schedule : MeetingSchedule)
    (fuel : nat) : option (answer (list SlotInfo)) :=
  match load_participants participants [] with
  | Failed e => Some (Failed e)
  | Done participants_data =>
      let agent :=
        mk_analyst (working_hours_start meeting_schedule, working_hours_end meeting_schedule)
          (default_duration meeting_schedule) in
      find_free_slots agent participants_data (default_duration meeting_schedule)
        (schedule_day meeting_schedule) fuel
  end.

End Stores.

(** *** Vocabulary for the statements *)

(** [k] candidates in a row from [start], each [step] minutes long. *)
Definition back_to_back (start step : Z) (k : nat) : list (datetime * datetime) :=
  map (fun i => (start + Z.of_nat i * step, start + Z.of_nat i * step + step)) (seq 0 k).

(** How often the inner loop of the generator appends a candidate. *)
Definition inner_passes (start_date end_date duration step : Z) : nat :=
  if start_date + duration <=? end_date
  then Z.to_nat ((end_date - start_date - duration) / step + 1)
  else 0%nat.

(** What the loop body builds for one slot when the duration is positive. *)
Definition scored_as (participants_data : list (string * ParticipantData)) (duration : Z)
    (slot : datetime * datetime) (s : SlotInfo) : Prop :=
  (start_time s, end_time s) = slot
  /\ duration_minutes s = duration
  /\ participants s = map fst participants_data
  /\ map fst (participant_notes s) = map fst participants_data
  /\ List.length (participant_scores s) = List.length participants_data
  /\ day_of_week s = weekday (start_time s)
  /\ notes s = _generate_slot_notes (start_time s) (score s)
  /\ confidence s = score s
  /\ (0 <= score s <= 1)%Q.

(** No row of the calendar of any of the participants overlaps the interval
    from [lo] to [hi]. *)
Definition free_for (get_person_calendar : string -> DataFrame) (participants : list string)
    (lo hi : datetime) : Prop :=
  forall p b,
    In p participants -> In b (get_person_calendar p) ->
    ~ (b_start b < hi /\ b_end b > lo).

(** The minute of the day a clock time names. *)
Definition minute_of_day (t : time) : Z := t_hour t * 60 + t_minute t.

(** A time of day that a clock can show. *)
Definition valid_time (t : time) : Prop :=
  0 <= t_hour t < 24 /\ 0 <= t_minute t < 60.

End Analysis.

(** ** Vocabulary for the statements about the ladder *)

Module Ladder.
Import NegotiationSpecialist.

(** The step a rung logs before it calls its strategy, and the step the
    strategy logs on entry. *)
Definition announce_step (s : NegotiationStrategy) : process_step :=
  match s with
  | DURATION_ADJUSTMENT => ps_strategy_duration
  | TOD_SHIFTING => ps_strategy_tod
  | ALTERNATIVE_DAY => ps_strategy_alt_day
  | _ => ps_strategy_relax
  end.

Definition own_step (s : NegotiationStrategy) : process_step :=
  match s with
  | DURATION_ADJUSTMENT => ps_duration_adjust
  | TOD_SHIFTING => ps_time_shift
  | ALTERNATIVE_DAY => ps_alternative_day
  | _ => ps_relax_hours
  end.

Section Offers.

Variable utcoffset : Z.
Variable self : NegotiationSpecialistAgent.
Variable init : MeetingSchedule.
Variable slots : list SlotInfo.
Variable prefs : list (string * ParticipantPreferences).
Variable calendars : list (string * option DataFrame).

(** The call that a rung makes. *)
Definition strategy_call (s : NegotiationStrategy) : M (option NegotiationResult) :=
  match s with
  | DURATION_ADJUSTMENT => _strategy_duration_adjust self slots prefs
  | TOD_SHIFTING => _strategy_time_shift self slots prefs
  | ALTERNATIVE_DAY => _strategy_alternative_day utcoffset self slots prefs calendars
  | _ => _strategy_relax_hours self slots prefs
  end.

(** Whether a strategy has something workable to propose, given the field
    values [init] of the initial schedule: a cap below the current duration
    and a slot long enough for it; a slot that passes the time-shift gate; a
    weekday within range on which no daily cap is reached; a slot that passes
    the relaxed-hours gate. *)
Definition duration_offers : bool :=
  match map (fun ppr => int_value (preferred_max_duration (snd ppr)))
          (List.filter (fun ppr => truthy_int (preferred_max_duration (snd ppr))) prefs)
  with
  | [] => false
  | c :: cs =>
      let smallest_cap := fold_left Z.min cs c in
      negb (default_duration init <=? smallest_cap)
      && nonempty (List.filter (fun s => smallest_cap <=? duration_minutes s) slots)
  end.

Definition time_shift_offers : bool :=
  nonempty (List.filter (time_shift_ok prefs) slots).

Definition alternative_day_offers : bool :=
  negb (max_alternative_days init =? 0)
  && match List.find (fun day => (weekday day <? 5) && day_ok utcoffset prefs calendars day)
             (candidate_days (schedule_day init) (max_alternative_days init)) with
     | Some _ => true
     | None => false
     end.

Definition relax_offers : bool :=
  nonempty (List.filter (relax_allowed prefs) slots).

Definition offers (s : NegotiationStrategy) : bool :=
  match s with
  | NONE => false
  | DURATION_ADJUSTMENT => duration_offers
  | TOD_SHIFTING => time_shift_offers
  | ALTERNATIVE_DAY => alternative_day_offers
  | RELAX_CONSTRAINTS => relax_offers
  end.

(** The rungs [rungs] stacked as in [negotiate_schedule], closed by the
    construction of the impossible result. *)
Definition climb (previous_strategy : NegotiationStrategy)
    (rungs : list NegotiationStrategy) : M NegotiationResult :=
  fold_right
    (fun s k => rung (attempts previous_strategy s) (announce_step s) (strategy_call s) k)
    (ret impossible_result) rungs.

End Offers.

(** The invariant in the words of the specification: when the result comes
    from strategy [k], a strictly lower strategy is missing from the round
    only if its ordinal is below [previous_strategy] or the wrap condition
    holds. *)
Definition order_invariant_as_specified (previous_strategy : NegotiationStrategy)
    (tried : list NegotiationStrategy) (k : NegotiationStrategy) : Prop :=
  forall j,
    In j ladder -> ordinal j < ordinal k -> ~ In j tried ->
    ordinal j < ordinal previous_strategy \/ wrap_condition previous_strategy = true.

(** The proposed schedule [r] refers to is a new object: its reference was
    unused in [w], differs from the reference of the initial schedule, and
    holds [new_sched] in [w']; every other cell of [w'] is the cell of [w],
    the initial schedule among them. *)
Definition copied_on_write (self : NegotiationSpecialistAgent) (w w' : world)
    (new_sched : MeetingSchedule) (r : NegotiationResult) : Prop :=
  exists new_ref,
    proposed_schedule r = Some new_ref
    /\ new_ref <> initial self
    /\ heap w !! new_ref = None
    /\ heap w' !! new_ref = Some new_sched
    /\ heap w' !! initial self = heap w !! initial self
    /\ forall l, l <> new_ref -> heap w' !! l = heap w !! l.

(** Two schedules that agree on every field but the one or two named. *)
Definition same_but_default_duration (a b : MeetingSchedule) : Prop :=
  schedule_day a = schedule_day b
  /\ working_hours_start a = working_hours_start b
  /\ working_hours_end a = working_hours_end b
  /\ time_slot_interval a = time_slot_interval b
  /\ alternative_durations a = alternative_durations b
  /\ max_alternative_days a = max_alternative_days b.

Definition same_but_schedule_day (a b : MeetingSchedule) : Prop :=
  default_duration a = default_duration b
  /\ working_hours_start a = working_hours_start b
  /\ working_hours_end a = working_hours_end b
  /\ time_slot_interval a = time_slot_interval b
  /\ alternative_durations a = alternative_durations b
  /\ max_alternative_days a = max_alternative_days b.

Definition same_but_working_hours (a b : MeetingSchedule) : Prop :=
  schedule_day a = schedule_day b
  /\ default_duration a = default_duration b
  /\ time_slot_interval a = time_slot_interval b
  /\ alternative_durations a = alternative_durations b
  /\ max_alternative_days a = max_alternative_days b.

End Ladder.

(** ** Vocabulary for the statements about results and the store *)

Module Outcomes.
Import NegotiationSpecialist.

(** Every object of [w] is in [w'] with the field values it had. *)
Definition untouched (w w' : world) : Prop :=
  forall l v, heap w !! l = Some v -> heap w' !! l = Some v.

(** The log of [w'] continues the log of [w]. *)
Definition log_grows (w w' : world) : Prop :=
  exists new, steps w' = steps w ++ new.

(** At most two alternatives, none of them more confident than the selected
    slot, which exists when there is an alternative. *)
Definition leads (r : NegotiationResult) : Prop :=
  (List.length (alternative_suggestions r) <= 2)%nat
  /\ forall a, In a (alternative_suggestions r) ->
               exists best, selected_slot r = Some best
                            /\ (confidence a <= confidence best)%Q.

(** A result of strategy [s]: a compromise with a schedule object of its
    own, and a selected slot unless the strategy is the alternative day. *)
Definition compromise_of (self : NegotiationSpecialistAgent) (s : NegotiationStrategy)
    (w' : world) (r : NegotiationResult) : Prop :=
  outcome r = COMPROMISE_PROPOSED
  /\ strategy_choose r = s
  /\ (exists l v, proposed_schedule r = Some l /\ l <> initial self
                  /\ heap w' !! l = Some v)
  /\ (selected_slot r = None <-> s = ALTERNATIVE_DAY)
  /\ leads r.

(** [cap] is the least of the duration caps that are set. *)
Definition smallest_cap_of (prefs : list (string * ParticipantPreferences)) (cap : Z)
    : Prop :=
  (exists ppr, In ppr prefs /\ preferred_max_duration (snd ppr) = Some cap /\ cap <> 0)
  /\ forall ppr c, In ppr prefs -> preferred_max_duration (snd ppr) = Some c -> c <> 0 ->
                   cap <= c.

End Outcomes.

(** ** The rounds of [CoordinatorAgent.on_messages] *)

Module Rounds.
Import Analysis Coordinator.

(** The reply of the negotiator as the coordinator parses it: the fields of
    the result together with the objects they refer to, since the JSON text
    holds the proposed schedule by value. *)
Record Negotiation := mk_negotiation {
  objects : gmap ref MeetingSchedule;
  fields : NegotiationResult
}.

(** [negotiation.get('proposed_schedule')] *)
Definition get_proposed_schedule (negotiation : Negotiation) : option MeetingSchedule :=
  match proposed_schedule (fields negotiation) with
  | Some l => objects negotiation !! l
  | None => None
  end.

(** What [on_messages] raises: the [TypeError] of unpacking [None] into the
    [MeetingSchedule] constructor, pydantic's [ValidationError] of that
    constructor, the [AttributeError] of calling [get] on [None], and what
    the two agents or the fallback selection raise, passed on. *)
Inductive exception :=
| TypeError
| ScheduleValidationError
| NoneAttributeError
| FromAnalyst (e : Analysis.error)
| FromNegotiator (e : exn)
| FromFallback (e : exn).

Inductive run (A : Type) :=
| Returned (a : A)
| Raised (e : exception).
Arguments Returned {A} a.
Arguments Raised {A} e.

(** The pattern of [normalize_working_hours] on an hour and a minute. *)
Definition time_matches (t : time) : bool :=
  (0 <=? t_hour t) && (t_hour t <=? 23) && (0 <=? t_minute t) && (t_minute t <=? 59).

(** The [MeetingSchedule] constructor on the dumped fields [s]: the declared
    ranges are checked and [schedule_day] is moved to midnight. *)
Definition new_MeetingSchedule (s : MeetingSchedule) : run MeetingSchedule :=
  if (15 <=? default_duration s) && (default_duration s <=? 480)
     && time_matches (working_hours_start s) && time_matches (working_hours_end s)
     && (15 <=? time_slot_interval s) && (time_slot_interval s <=? 480)
     && (1 <=? List.length (alternative_durations s))%nat
     && (List.length (alternative_durations s) <=? 5)%nat
     && (0 <=? max_alternative_days s) && (max_alternative_days s <=? 7)
  then Returned (set_schedule_day (midnight (schedule_day s)) s)
  else Raised ScheduleValidationError.

(** The variables of [on_messages] that the loop leaves behind. *)
Record loop_exit := mk_exit {
  optimal_found : bool;
  best_slot : option SlotInfo;
  round_num : nat;
  all_suggestions : list SlotInfo;
  negotiation_history : list Negotiation
}.

(** The arguments of the call of [_generate_tailored_response]. *)
Record Summary := mk_summary {
  outcome_type : string;
  summary_slot : option SlotInfo;
  negotiation_rounds : nat;
  history : list Negotiation
}.

(** The dict that [reduce_meeting_dict_for_llm] builds. In
    [participant_assessments] a participant without notes has [None], for
    the text ['No assessment']. *)
Record Reduced := mk_reduced {
  reduced_outcome : NegotiationOutcome;
  selected_time : datetime * datetime;
  reduced_confidence : Q;
  reduced_duration_minutes : Z;
  reduced_reasoning : Reasoning;
  alternatives_count : nat;
  participant_assessments : list (string * option Note)
}.

(** [notes[-1] if notes else 'No assessment'] *)
Definition last_note (notes : list Note) : option Note :=
  match rev notes with
  | [] => None
  | n :: _ => Some n
  end.

(** The key [selected_slot] is in every reply, with [None] for a result
    without slot, so that the default of the first [get] is never used. *)
Definition reduce_meeting_dict_for_llm (meeting_data : Negotiation) : run Reduced :=
  match selected_slot (fields meeting_data) with
  | None => Raised NoneAttributeError
  | Some selected =>
      Returned
        (mk_reduced (outcome (fields meeting_data))
           (start_time selected, end_time selected)
           (confidence selected) (duration_minutes selected)
           (reasoning (fields meeting_data))
           (List.length (alternative_suggestions (fields meeting_data)))
           (map (fun pn => (fst pn, last_note (snd pn))) (participant_notes selected)))
  end.

Fixpoint map_run {A B} (f : A -> run B) (l : list A) : run (list B) :=
  match l with
  | [] => Returned []
  | x :: l' =>
      match f x with
      | Raised e => Raised e
      | Returned y =>
          match map_run f l' with
          | Raised e => Raised e
          | Returned ys => Returned (y :: ys)
          end
      end
  end.

(** What [_generate_tailored_response] returns: the text of the model, or
    one of the three texts it falls back on, with the start and end they
    quote ([None] for ['N/A']). *)
Inductive ResponseContent :=
| FromModel (text : string)
| ScheduledSuccessfully (start_ end_ : option datetime)
| ScheduledWithCompromises (start_ end_ : option datetime)
| UnableToSchedule.

Section Agents.

(** [analyst_agent.run] and [negotiator_agent.run] for the participants of
    the request, as functions of what the coordinator sends: the schedule,
    and the slots of the analyst. The negotiator also gets the number of the
    round, which stands for the messages of earlier rounds that it may see. *)
Variable analyst_agent : MeetingSchedule -> answer (list SlotInfo).
Variable negotiator_agent : nat -> list SlotInfo -> MeetingSchedule -> result Negotiation.

(** [while round_num < self.max_negotiation_rounds and not optimal_found],
    with [remaining] the rounds left, [max_negotiation_rounds - round_num]. *)
Fixpoint negotiation_loop (remaining : nat) (round_num : nat) (schedule : MeetingSchedule)
    (all_suggestions : list SlotInfo) (negotiation_history : list Negotiation)
    : run loop_exit :=
  match remaining with
  | O => Returned (mk_exit false None round_num all_suggestions negotiation_history)
  | S remaining' =>
      match analyst_agent schedule with
      | Failed e => Raised (FromAnalyst e)
      | Done slots =>
          match negotiator_agent round_num slots schedule with
          | Raise e => Raised (FromNegotiator e)
          | Ok negotiation =>
              let negotiation_history := negotiation_history ++ [negotiation] in
              let all_suggestions := collect all_suggestions (fields negotiation) in
              match outcome (fields negotiation) with
              | OPTIMAL_FOUND =>
                  Returned (mk_exit true (selected_slot (fields negotiation)) round_num
                              all_suggestions negotiation_history)
              | _ =>
                  match get_proposed_schedule negotiation with
                  | None => Raised TypeError
                  | Some proposed =>
                      match new_MeetingSchedule proposed with
                      | Raised e => Raised e
                      | Returned schedule =>
                          negotiation_loop remaining' (S round_num) schedule
                            all_suggestions negotiation_history
                      end
                  end
              end
          end
      end
  end.

(** [on_messages] from the parsed request up to the call that words the
    answer. [schedule_date] is the parsed date of the request, if it names
    one. *)
Definition negotiation_summary (max_negotiation_rounds : nat)
    (initial_meeting_schedule : MeetingSchedule) (schedule_date : option datetime)
    : run Summary :=
  let schedule :=
    match schedule_date with
    | Some day => set_schedule_day day initial_meeting_schedule
    | None => initial_meeting_schedule
    end in
  match negotiation_loop max_negotiation_rounds 0 schedule [] [] with
  | Raised e => Raised e
  | Returned exit =>
      match final_slot (optimal_found exit) (best_slot exit) (all_suggestions exit) with
      | Raise e => Raised (FromFallback e)
      | Ok best_slot =>
          Returned
            (mk_summary
               (if optimal_found exit then "OPTIMAL_FOUND"%string
                else match best_slot with
                     | Some _ => "FALLBACK"%string
                     | None => "IMPOSSIBLE"%string
                     end)
               best_slot (round_num exit) (negotiation_history exit))
      end
  end.

(** [self._model_client.create] on the prompt, which is worded from the
    summary and the reduced history; [None] when the client raises. *)
Variable model_client : Summary -> list Reduced -> option string.

(** The prompt is built, with every reply of the history reduced, before the
    [try] block that guards the call of the model. *)
Definition _generate_tailored_response (summary : Summary) : run ResponseContent :=
  match map_run reduce_meeting_dict_for_llm (history summary) with
  | Raised e => Raised e
  | Returned reduced =>
      match model_client summary reduced with
      | Some text => Returned (FromModel text)
      | None =>
          let start_ := option_map start_time (summary_slot summary) in
          let end_ := option_map end_time (summary_slot summary) in
          if String.eqb (outcome_type summary) "OPTIMAL_FOUND" then
            Returned (ScheduledSuccessfully start_ end_)
          else
            match summary_slot summary with
            | Some _ => Returned (ScheduledWithCompromises start_ end_)
            | None => Returned UnableToSchedule
            end
      end
  end.

Definition on_messages (max_negotiation_rounds : nat)
    (initial_meeting_schedule : MeetingSchedule) (schedule_date : option datetime)
    : run ResponseContent :=
  match negotiation_summary max_negotiation_rounds initial_meeting_schedule
          schedule_date with
  | Raised e => Raised e
  | Returned summary => _generate_tailored_response summary
  end.

End Agents.

(** A reply after which the loop goes on: it is not optimal and carries a
    schedule that the constructor accepts. *)
Definition goes_on (negotiation : Negotiation) : Prop :=
  outcome (fields negotiation) <> OPTIMAL_FOUND
  /\ exists proposed schedule,
      get_proposed_schedule negotiation = Some proposed
      /\ new_MeetingSchedule proposed = Returned schedule.

End Rounds.

(** ** The time bounds as the validated strings have them *)

Module Written.
Import NegotiationSpecialist.



(** What [normalize_time] lets through for [no_meetings_before] and
    [no_meetings_after]: an hour of one or two digits, a colon and a
    two-digit minute (['9:30'], ['09:30']), with nothing or one newline
    after it, which [$] admits; an integer becomes ['HH:00'], a lone hour
    of two digits ['HH:00'] and a lone digit ['0H']. The record keeps the
    clock time the digits name and whether the string is one that
    [time.fromisoformat] reads: a two-digit hour and nothing after the
    minute. *)
Record Bound := mk_bound { clock : time; isoformat : bool }.

(** [time.fromisoformat(s)] *)
Definition fromisoformat (b : Bound) : result time :=
  if isoformat b then Ok (clock b) else Raise ValueError.

Record ParticipantPreferences := mk_prefs {
  no_meetings_before : option Bound;
  no_meetings_after : option Bound;
  prefer_morning : option bool;
  prefer_afternoon : option bool;
  avoid_lunch_time : option bool;
  max_meetings_per_day : option Z;
  preferred_max_duration : option Z
}.

Record ParticipantData := mk_pdata {
  preferences : ParticipantPreferences;
  calendar : option DataFrame
}.

(** The specialist, with what its initial schedule holds beyond the clock
    times of its working hours: whether [datetime.strptime(_, "%H:%M")]
    reads the two strings. [normalize_working_hours] admits one newline
    after the minute, on which it does not. The specialist never assigns to
    its initial schedule, so one flag stands for the whole call. *)
Record NegotiationSpecialistAgent := mk_agent {
  specialist : NegotiationSpecialist.NegotiationSpecialistAgent;
  working_hours_read : bool
}.

(** [datetime.strptime(self.initial.working_hours_start, "%H:%M")] and the
    same on [working_hours_end]. *)
Definition strptime_working_hours (self : NegotiationSpecialistAgent) : M unit :=
  if working_hours_read self then ret tt else raise ValueError.

(** The dict comprehensions at the top of [negotiate_schedule]. *)
Definition prefs_of (participants : list (string * ParticipantData))
    : list (string * ParticipantPreferences) :=
  map (fun pd => (fst pd, preferences (snd pd))) participants.

Definition calendars_of (participants : list (string * ParticipantData))
    : list (string * option DataFrame) :=
  map (fun pd => (fst pd, calendar (snd pd))) participants.

(** Sequencing of tests that may raise. *)
Definition and_then {A B} (r : result A) (k : A -> result B) : result B :=
  match r with
  | Ok a => k a
  | Raise e => Raise e
  end.

(** A loop of tests with [return False] (or [break]) at the first one that
    fails; a test that raises ends the loop with its exception. *)
Fixpoint for_all {A} (body : A -> result bool) (l : list A) : result bool :=
  match l with
  | [] => Ok true
  | x :: l' =>
      and_then (body x) (fun passed => if passed then for_all body l' else Ok false)
  end.

(** [[s for s in l if test(s)]] *)
Fixpoint keep {A} (test : A -> result bool) (l : list A) : result (list A) :=
  match l with
  | [] => Ok []
  | x :: l' =>
      and_then (test x) (fun kept =>
      and_then (keep test l') (fun rest =>
      Ok (if kept then x :: rest else rest)))
  end.

Definition lift {A} (r : result A) : M A := fun w => (w, r).

(** [pr.no_meetings_before and st.time() < pr.no_before()]: a validated
    string is truthy, and [no_before()] parses it before the comparison. *)
Definition too_early (st_time : time) (pr : ParticipantPreferences) : result bool :=
  match no_meetings_before pr with
  | Some b => and_then (fromisoformat b) (fun bound => Ok (time_ltb st_time bound))
  | None => Ok false
  end.

(** [pr.no_meetings_after and et.time() > pr.no_after()] *)
Definition too_late (et_time : time) (pr : ParticipantPreferences) : result bool :=
  match no_meetings_after pr with
  | Some b => and_then (fromisoformat b) (fun bound => Ok (time_ltb bound et_time))
  | None => Ok false
  end.

Section Engine.

Variable utcoffset : Z.

(** *** The strict filter *)

(** The body of the loop over [prefs.items()] in [_slot_respects_all]. *)
Definition respects_one (slot : SlotInfo) (calendars : list (string * option DataFrame))
    (p : string) (pr : ParticipantPreferences) : result bool :=
  let st := start_time slot in
  let et := end_time slot in
  let dur := duration_minutes slot in
  and_then (too_early (time_of st) pr) (fun early =>
  if early then Ok false
  else
    and_then (too_late (time_of et) pr) (fun late =>
    if late then Ok false
    else if truthy_bool (prefer_morning pr) && negb ((6 <=? hour st) && (hour st <? 12))
    then Ok false
    else if truthy_bool (prefer_afternoon pr) && negb ((13 <=? hour st) && (hour st <? 18))
    then Ok false
    else if truthy_bool (avoid_lunch_time pr) && lunch_test (time_of st) (time_of et)
    then Ok false
    else if truthy_int (preferred_max_duration pr)
            && (int_value (preferred_max_duration pr) <? dur)
    then Ok false
    else if truthy_int (max_meetings_per_day pr) then
      let df := calendars_get calendars p in
      if has_rows df then
        let day_start := midnight st in
        let day_end := plus_days day_start 1 in
        let todays :=
          starts_within (rows df) (via_timestamp utcoffset day_start)
            (via_timestamp utcoffset day_end) in
        Ok (negb (int_value (max_meetings_per_day pr) <=? todays))
      else Ok true
    else Ok true)).

Definition _slot_respects_all (slot : SlotInfo)
    (prefs : list (string * ParticipantPreferences))
    (calendars : list (string * option DataFrame)) : result bool :=
  for_all (fun ppr => respects_one slot calendars (fst ppr) (snd ppr)) prefs.

(** *** Time-of-day shifting *)

(** The tests that the nested function [ok] and the loop of
    [_strategy_relax_hours] share, on the start and end they are given. *)
Definition hard_limits (st et : datetime) (duration : Z) (pr : ParticipantPreferences)
    : result bool :=
  and_then (too_early (time_of st) pr) (fun early =>
  if early then Ok false
  else
    and_then (too_late (time_of et) pr) (fun late =>
    if late then Ok false
    else if truthy_bool (avoid_lunch_time pr) && lunch_test (time_of st) (time_of et)
    then Ok false
    else if truthy_int (preferred_max_duration pr)
            && (int_value (preferred_max_duration pr) <? duration)
    then Ok false
    else Ok true)).

(** The nested function [ok]. Both [st] and [et] are parsed from
    [slot.start_time]. *)
Definition time_shift_ok (prefs : list (string * ParticipantPreferences))
    (slot : SlotInfo) : result bool :=
  let st := start_time slot in
  let et := start_time slot in
  for_all (fun ppr => hard_limits st et (duration_minutes slot) (snd ppr)) prefs.

Definition _strategy_time_shift (self : NegotiationSpecialistAgent)
    (slots : list SlotInfo) (prefs : list (string * ParticipantPreferences))
    : M (option NegotiationResult) :=
  log_step ps_time_shift ;;;
  viable <- lift (keep (time_shift_ok prefs) slots) ;;
  if negb (nonempty viable) then ret None
  else
    let viable := sort_by_confidence viable in
    best_slot <- index0 viable ;;
    new_sched <- model_copy (initial (specialist self)) ;;
    assign new_sched (set_schedule_day (start_time best_slot)) ;;;
    ret (Some (mk_result COMPROMISE_PROPOSED (Some new_sched) (Some best_slot)
                 ReasonRelaxedTimeOfDay (slice_1_3 viable) TOD_SHIFTING)).

(** *** Relaxed working hours *)

(** The loop body that computes [allowed] for one slot. *)
Definition relax_allowed (prefs : list (string * ParticipantPreferences))
    (s : SlotInfo) : result bool :=
  let st := start_time s in
  let et := end_time s in
  for_all (fun ppr => hard_limits st et (duration_minutes s) (snd ppr)) prefs.

Definition _strategy_relax_hours (self : NegotiationSpecialistAgent)
    (slots : list SlotInfo) (prefs : list (string * ParticipantPreferences))
    : M (option NegotiationResult) :=
  log_step ps_relax_hours ;;;
  widened_slots <- lift (keep (relax_allowed prefs) slots) ;;
  if negb (nonempty widened_slots) then ret None
  else
    let widened_slots := sort_by_confidence widened_slots in
    best_slot <- index0 widened_slots ;;
    init <- read (initial (specialist self)) ;;
    strptime_working_hours self ;;;
    let new_start := shift_clock (working_hours_start init) (-30) in
    let new_end := shift_clock (working_hours_end init) 30 in
    new_sched <- model_copy (initial (specialist self)) ;;
    assign new_sched (set_working_hours_start new_start) ;;;
    assign new_sched (set_working_hours_end new_end) ;;;
    ret (Some (mk_result COMPROMISE_PROPOSED (Some new_sched) (Some best_slot)
                 ReasonExtendedHours (slice_1_3 widened_slots) RELAX_CONSTRAINTS)).

(** *** Strategies that read no bound *)

(** The preferences with each bound replaced by the clock time its digits
    name. [_strategy_duration_adjust] reads [preferred_max_duration] alone
    and [_strategy_alternative_day] reads [max_meetings_per_day] alone, so
    both run on them as they run on the preferences as written. *)
Definition parsed (pr : ParticipantPreferences) : Models.ParticipantPreferences :=
  Models.mk_prefs (option_map clock (no_meetings_before pr))
    (option_map clock (no_meetings_after pr))
    (prefer_morning pr) (prefer_afternoon pr) (avoid_lunch_time pr)
    (max_meetings_per_day pr) (preferred_max_duration pr).

Definition parsed_prefs (prefs : list (string * ParticipantPreferences))
    : list (string * Models.ParticipantPreferences) :=
  map (fun ppr => (fst ppr, parsed (snd ppr))) prefs.

Definition _strategy_duration_adjust (self : NegotiationSpecialistAgent)
    (slots : list SlotInfo) (prefs : list (string * ParticipantPreferences))
    : M (option NegotiationResult) :=
  NegotiationSpecialist._strategy_duration_adjust (specialist self) slots
    (parsed_prefs prefs).

Definition _strategy_alternative_day (self : NegotiationSpecialistAgent)
    (slots : list SlotInfo) (prefs : list (string * ParticipantPreferences))
    (calendars : list (string * option DataFrame)) : M (option NegotiationResult) :=
  NegotiationSpecialist._strategy_alternative_day utcoffset (specialist self) slots
    (parsed_prefs prefs) calendars.

(** *** The ladder *)

Definition negotiate_schedule (self : NegotiationSpecialistAgent)
    (available_slots : list SlotInfo) (participants : list (string * ParticipantData))
    (min_score : Q) (previous_strategy : NegotiationStrategy) : M NegotiationResult :=
  log_step ps_negotiate_schedule ;;;
  log_step ps_preference_processing ;;;
  let prefs := prefs_of participants in
  let calendars := calendars_of participants in
  log_step ps_strict_filter ;;;
  ok_slots <- lift (keep (fun s => _slot_respects_all s prefs calendars) available_slots) ;;
  if nonempty ok_slots then
    let ok_slots := sort_by_confidence ok_slots in
    best <- index0 ok_slots ;;
    let outcome :=
      if Qle_bool min_score (confidence best) then OPTIMAL_FOUND
      else COMPROMISE_PROPOSED in
    ret (mk_result outcome (Some (initial (specialist self))) (Some best) ReasonStrict
           (slice_1_3 ok_slots) NONE)
  else
    log_step ps_iterative_negotiation ;;;
    rung (attempts previous_strategy DURATION_ADJUSTMENT)
      ps_strategy_duration (_strategy_duration_adjust self available_slots prefs)
    (rung (attempts previous_strategy TOD_SHIFTING)
      ps_strategy_tod (_strategy_time_shift self available_slots prefs)
    (rung (attempts previous_strategy ALTERNATIVE_DAY)
      ps_strategy_alt_day (_strategy_alternative_day self available_slots prefs calendars)
    (rung (attempts previous_strategy RELAX_CONSTRAINTS)
      ps_strategy_relax (_strategy_relax_hours self available_slots prefs)
    (ret impossible_result)))).

End Engine.

(** *** Vocabulary of the statements *)






End Written.

(** ** Concrete days, participants and slots used in the examples *)

Module Fixtures.

(** Day ordinals: 2025-01-06 is a Monday, 2025-01-10 a Friday. *)
Definition monday_2025_01_06 : Z := 739256.
Definition friday_2025_01_10 : Z := 739260.

(** The initial schedule: Monday 2025-01-06, 60 minutes, 08:00 to 18:00,
    alternatives within three days. It is the only object in the store, at
    reference 1, and nothing was logged yet. *)
Definition schedule0 : MeetingSchedule :=
  mk_schedule (at_ monday_2025_01_06 0 0) 60 (mk_time 8 0) (mk_time 18 0) 30
    [15; 45; 60] 3.

Definition agent0 : NegotiationSpecialist.NegotiationSpecialistAgent :=
  NegotiationSpecialist.mk_agent 1%positive.

Definition world0 : world := mk_world {[ 1%positive := schedule0 ]} [].

(** Preferences with every field left out, and three single-field variants. *)
Definition no_preferences : ParticipantPreferences :=
  mk_prefs None None None None None None None.

Definition prefers_morning : ParticipantPreferences :=
  mk_prefs None None (Some true) None None None None.

Definition not_after_17 : ParticipantPreferences :=
  mk_prefs None (Some (mk_time 17 0)) None None None None None.


Definition avoids_lunch : ParticipantPreferences :=
  mk_prefs None None None None (Some true) None None.


Definition at_most_45 : ParticipantPreferences :=
  mk_prefs None None None None None None (Some 45).

Definition at_most_10 : ParticipantPreferences :=
  mk_prefs None None None None None None (Some 10).

Definition alone (pr : ParticipantPreferences) : list (string * ParticipantData) :=
  [("Alice"%string, mk_pdata pr None)].

(** A slot of Monday 2025-01-06 that starts at [h]:[m]. *)
Definition slot_at (h m duration : Z) (conf : Q) : SlotInfo :=
  mk_slot (at_ monday_2025_01_06 h m) (at_ monday_2025_01_06 h m + duration)
    duration conf ["Alice"%string] [conf] [] ""%string 0 conf.

(** The fallback scenario: slot X (confidence 0.55) is selected in rounds one
    and three, slot Y (confidence 0.9) in round two; no round is optimal. *)
Definition slot_x : SlotInfo := slot_at 10 0 60 0.55.
Definition slot_y : SlotInfo := slot_at 14 0 60 0.9.

(** A tie: slot A once and slot B twice, all at confidence 0.9. *)
Definition slot_a : SlotInfo := slot_at 9 0 60 0.9.
Definition slot_b : SlotInfo := slot_at 15 0 60 0.9.

Definition compromise_on (s : SlotInfo) : NegotiationResult :=
  mk_result COMPROMISE_PROPOSED (Some 1%positive) (Some s) ReasonStrict [] NONE.

Definition three_rounds : list NegotiationResult :=
  [compromise_on slot_x; compromise_on slot_y; compromise_on slot_x].

(** The stores behind [get_preference] and [get_person_calendar]: Alice
    prefers mornings and is busy on Monday from 10:00 to 11:00, Bob accepts
    nothing after 17:00 and has no entry in the calendar data; nobody else
    is known. *)
Definition stored_preference (name : string) : option ParticipantPreferences :=
  if String.eqb name "Alice" then Some prefers_morning
  else if String.eqb name "Bob" then Some not_after_17
  else None.

Definition stored_calendar (name : string) : DataFrame :=
  if String.eqb name "Alice"
  then [mk_busy (at_ monday_2025_01_06 10 0) (at_ monday_2025_01_06 11 0)]
  else [].

(** Two pairs of agents for the coordinator. The analyst of the first
    always offers the slot at 10:00 and its negotiator runs the specialist
    for Alice, who prefers mornings; the analyst of the second offers
    nothing. The negotiator reads no earlier message. *)
Definition schedule_no_alternative_day : MeetingSchedule :=
  mk_schedule (at_ monday_2025_01_06 0 0) 60 (mk_time 8 0) (mk_time 18 0) 30
    [15; 45; 60] 0.

Definition analyst_morning (schedule : MeetingSchedule) : Analysis.answer (list SlotInfo) :=
  Analysis.Done [slot_at 10 0 60 0.7].

Definition analyst_nothing (schedule : MeetingSchedule) : Analysis.answer (list SlotInfo) :=
  Analysis.Done [].

Definition negotiator_for (pr : ParticipantPreferences) (round : nat)
    (slots : list SlotInfo) (schedule : MeetingSchedule) : result Rounds.Negotiation :=
  match NegotiationSpecialist.negotiate_schedule 0 agent0 slots (alone pr)
          0.6 NONE (mk_world {[ 1%positive := schedule ]} []) with
  | (w, Ok r) => Ok (Rounds.mk_negotiation (heap w) r)
  | (_, Raise e) => Raise e
  end.

Definition negotiator_for_alice : nat -> list SlotInfo -> MeetingSchedule
                                  -> result Rounds.Negotiation :=
  negotiator_for prefers_morning.




(** The specialist of the examples, its working hours written ['08:00']
    and ['18:00']. *)
Definition written_agent0 : Written.NegotiationSpecialistAgent :=
  Written.mk_agent agent0 true.

(** The same specialist when a newline follows the minute of one of the
    working hours. *)
Definition written_agent_newline : Written.NegotiationSpecialistAgent :=
  Written.mk_agent agent0 false.

(** Mornings only, and nothing over lunch. *)
Definition written_morning_no_lunch : Written.ParticipantPreferences :=
  Written.mk_prefs None None (Some true) None (Some true) None None.

Definition written_alone (pr : Written.ParticipantPreferences)
    : list (string * Written.ParticipantData) :=
  [("Alice"%string, Written.mk_pdata pr None)].

End Fixtures.

(** * Properties *)

Import ScheduleAnalyst NegotiationSpecialist Ladder Coordinator Fixtures.
Import Analysis Outcomes Rounds.

(** ** The definitions on small inputs *)

Example at_monday_morning :
  weekday (at_ monday_2025_01_06 9 30) = 0
  /\ hour (at_ monday_2025_01_06 9 30) = 9
  /\ minute (at_ monday_2025_01_06 9 30) = 30
  /\ weekday (at_ friday_2025_01_10 9 30) = 4.
Proof. repeat split. Qed.

Example generate_two_hours :
  _generate_time_slots default_agent
    (at_ monday_2025_01_06 9 0) (at_ monday_2025_01_06 11 0) 30 10
  = Some [(at_ monday_2025_01_06 9 0, at_ monday_2025_01_06 9 30);
          (at_ monday_2025_01_06 9 30, at_ monday_2025_01_06 10 0);
          (at_ monday_2025_01_06 10 0, at_ monday_2025_01_06 10 30);
          (at_ monday_2025_01_06 10 30, at_ monday_2025_01_06 11 0)].
Proof. reflexivity. Qed.

Example filter_one_busy_hour :
  _filter_available_slots
    [(at_ monday_2025_01_06 9 0, at_ monday_2025_01_06 10 0);
     (at_ monday_2025_01_06 10 0, at_ monday_2025_01_06 11 0);
     (at_ monday_2025_01_06 11 0, at_ monday_2025_01_06 12 0)]
    [mk_busy (at_ monday_2025_01_06 10 0) (at_ monday_2025_01_06 11 0)]
  = [(at_ monday_2025_01_06 9 0, at_ monday_2025_01_06 10 0);
     (at_ monday_2025_01_06 11 0, at_ monday_2025_01_06 12 0)].
Proof. reflexivity. Qed.

(** Descending, and stable on equal confidences. *)
Example sort_is_stable :
  map start_time
    (sort_by_confidence
       [slot_at 9 0 60 0.5; slot_at 10 0 60 0.9; slot_at 11 0 60 0.5; slot_at 12 0 60 0.9])
  = map start_time
      [slot_at 10 0 60 0.9; slot_at 12 0 60 0.9; slot_at 9 0 60 0.5; slot_at 11 0 60 0.5].
Proof. reflexivity. Qed.

Example score_morning_person :
  _calculate_slot_score_with_notes (at_ monday_2025_01_06 10 0) (at_ monday_2025_01_06 11 0)
    60 "Alice" (mk_pdata prefers_morning None)
  = ((0.5 + 0.2)%Q, [NoteMorningAligned "Alice"; NoteMidMorning; NoteGood]).
Proof. reflexivity. Qed.

Example shift_clock_wraps :
  shift_clock (mk_time 0 0) (-30) = mk_time 23 30
  /\ shift_clock (mk_time 8 0) (-30) = mk_time 7 30
  /\ shift_clock (mk_time 18 0) 30 = mk_time 18 30.
Proof. repeat split. Qed.

Example candidate_days_alternate :
  map date (candidate_days (at_ monday_2025_01_06 0 0) 2)
  = [monday_2025_01_06 + 1; monday_2025_01_06 - 1;
     monday_2025_01_06 + 2; monday_2025_01_06 - 2].
Proof. reflexivity. Qed.

Example attempts_after_each_strategy :
  map (fun previous => List.filter (attempts previous) ladder)
    [NONE; DURATION_ADJUSTMENT; TOD_SHIFTING; ALTERNATIVE_DAY; RELAX_CONSTRAINTS]
  = [[DURATION_ADJUSTMENT; TOD_SHIFTING; ALTERNATIVE_DAY; RELAX_CONSTRAINTS];
     [TOD_SHIFTING; ALTERNATIVE_DAY; RELAX_CONSTRAINTS];
     [ALTERNATIVE_DAY; RELAX_CONSTRAINTS];
     [DURATION_ADJUSTMENT; TOD_SHIFTING; RELAX_CONSTRAINTS];
     [DURATION_ADJUSTMENT; TOD_SHIFTING]].
Proof. reflexivity. Qed.

(** ** Candidate generation *)

(** A running machine that takes one more step behaves like its successor. *)
Lemma gen_run_unfold self end_date duration fuel s s' :
  gen_step self end_date duration s = inl s' ->
  gen_run self end_date duration (S fuel) s = gen_run self end_date duration fuel s'.
Proof. intros Hstep. simpl. now rewrite Hstep. Qed.

(** Once a successor never returns, the state never returns either. *)
Lemma gen_run_diverges_step self end_date duration s s' :
  gen_step self end_date duration s = inl s' ->
  (forall fuel, gen_run self end_date duration fuel s' = None) ->
  forall fuel, gen_run self end_date duration fuel s = None.
Proof.
  intros Hstep Hdiv [|fuel]; [reflexivity|].
  rewrite (gen_run_unfold _ _ _ _ _ _ Hstep). apply Hdiv.
Qed.

(** The stuck configuration: on a weekday, with [current_time] still before
    [end_date] but the meeting no longer fitting, the outer test succeeds, the
    inner test fails, and nothing has changed when the outer test is reached
    again. *)
Lemma gen_run_stuck self end_date duration cur acc :
  cur < end_date ->
  weekday cur < 5 ->
  end_date < plus_minutes cur duration ->
  forall fuel,
    gen_run self end_date duration fuel (mk_gen AtOuter cur acc) = None
    /\ gen_run self end_date duration fuel (mk_gen AtInner cur acc) = None.
Proof.
  intros Hlt Hwd Hfit.
  assert (Houter : gen_step self end_date duration (mk_gen AtOuter cur acc)
                   = inl (mk_gen AtInner cur acc)).
  { unfold gen_step; simpl.
    destruct (Z.ltb_spec cur end_date); [|lia].
    destruct (Z.ltb_spec (weekday cur) 5); [reflexivity|lia]. }
  assert (Hinner : gen_step self end_date duration (mk_gen AtInner cur acc)
                   = inl (mk_gen AtOuter cur acc)).
  { unfold gen_step; simpl.
    destruct (Z.leb_spec (plus_minutes cur duration) end_date); [lia|reflexivity]. }
  induction fuel as [|fuel [IHo IHi]]; [split; reflexivity|].
  split.
  - rewrite (gen_run_unfold _ _ _ _ _ _ Houter). exact IHi.
  - rewrite (gen_run_unfold _ _ _ _ _ _ Hinner). exact IHo.
Qed.

(** Whenever the generator returns, every pair spans [min_slot_duration]
    minutes: the end is computed from the step, not from [duration]. *)
Lemma gen_run_span self end_date duration fuel :
  forall s result,
    Forall (fun p => snd p = plus_minutes (fst p) (min_slot_duration self)) (slots s) ->
    gen_run self end_date duration fuel s = Some result ->
    Forall (fun p => snd p = plus_minutes (fst p) (min_slot_duration self)) result.
Proof.
  induction fuel as [|fuel IH]; intros s result Hinv Hrun; [discriminate|].
  simpl in Hrun.
  destruct (gen_step self end_date duration s) as [s'|r] eqn:Hstep.
  - apply (IH s'); [|exact Hrun].
    unfold gen_step in Hstep.
    destruct (pc s).
    + destruct (current_time s <? end_date); [|discriminate].
      destruct (weekday (current_time s) <? 5); [|discriminate].
      injection Hstep as <-. exact Hinv.
    + destruct (plus_minutes (current_time s) duration <=? end_date);
        injection Hstep as <-; simpl; [|exact Hinv].
      apply Forall_app. split; [exact Hinv|]. constructor; [reflexivity|constructor].
  - injection Hrun as <-.
    unfold gen_step in Hstep.
    destruct (pc s).
    + destruct (current_time s <? end_date).
      * destruct (weekday (current_time s) <? 5); [discriminate|].
        injection Hstep as <-. exact Hinv.
      * injection Hstep as <-. exact Hinv.
    + destruct (plus_minutes (current_time s) duration <=? end_date); discriminate.
Qed.

Lemma generated_slots_span self start_date end_date duration fuel result :
  _generate_time_slots self start_date end_date duration fuel = Some result ->
  Forall (fun p => snd p = plus_minutes (fst p) (min_slot_duration self)) result.
Proof. apply gen_run_span. constructor. Qed.

(** An empty range, or a range that starts on a weekend, returns at once with
    no candidate. *)
Lemma generate_empty_range self start_date end_date duration :
  end_date <= start_date ->
  _generate_time_slots self start_date end_date duration 1 = Some [].
Proof.
  intros H. unfold _generate_time_slots. simpl. unfold gen_step. simpl.
  destruct (Z.ltb_spec start_date end_date); [lia|reflexivity].
Qed.

Lemma generate_weekend self start_date end_date duration :
  5 <= weekday start_date ->
  _generate_time_slots self start_date end_date duration 1 = Some [].
Proof.
  intros H. unfold _generate_time_slots. simpl. unfold gen_step. simpl.
  destruct (start_date <? end_date); [|reflexivity].
  destruct (Z.ltb_spec (weekday start_date) 5); [lia|reflexivity].
Qed.

(** C2 (code at the failing input). The default agent steps by 30 minutes;
    asked for 15-minute meetings on Monday 2025-01-06 between 09:00 and 17:00
    it returns sixteen pairs, each 30 minutes long: the first is
    (09:00, 09:30), whose end is not start + 15. *)
Theorem generated_end_is_not_start_plus_duration :
  exists result,
    _generate_time_slots default_agent
      (at_ monday_2025_01_06 9 0) (at_ monday_2025_01_06 17 0) 15 40 = Some result
    /\ List.length result = 16%nat
    /\ In (at_ monday_2025_01_06 9 0, at_ monday_2025_01_06 9 30) result
    /\ at_ monday_2025_01_06 9 30 <> plus_minutes (at_ monday_2025_01_06 9 0) 15
    /\ Forall (fun p => snd p = plus_minutes (fst p) 30
                        /\ snd p <> plus_minutes (fst p) 15) result.
Proof.
  eexists. split; [vm_compute; reflexivity|].
  split; [reflexivity|].
  split; [left; reflexivity|].
  split; [vm_compute; discriminate|].
  repeat constructor; vm_compute; discriminate.
Qed.

(** The weekday is tested once per pass of the outer loop only: a range that
    begins on Friday evening and ends on Saturday yields candidates that lie
    on Saturday. *)
Lemma generated_candidate_on_saturday :
  exists result,
    _generate_time_slots (mk_analyst (mk_time 23 0, mk_time 2 0) 60)
      (at_ friday_2025_01_10 23 0) (at_ (friday_2025_01_10 + 1) 2 0) 60 10 = Some result
    /\ In (at_ (friday_2025_01_10 + 1) 0 0, at_ (friday_2025_01_10 + 1) 1 0) result
    /\ weekday (at_ (friday_2025_01_10 + 1) 0 0) = 5.
Proof.
  eexists. split; [vm_compute; reflexivity|].
  split; [right; left; reflexivity|reflexivity].
Qed.

(** C3 (code at the failing input). With working hours 09:00 to 12:00 and a
    240-minute meeting on Monday 2025-01-06 the duration does not fit; the
    loops never leave, whatever the number of loop tests allowed, so no list,
    empty or not, is returned. The same happens after candidates were
    produced, when the remaining time is shorter than the meeting: 08:00 to
    18:00 with 45-minute meetings. *)
Theorem generator_does_not_terminate :
  (forall fuel,
      _generate_time_slots (mk_analyst (mk_time 9 0, mk_time 12 0) 240)
        (at_ monday_2025_01_06 9 0) (at_ monday_2025_01_06 12 0) 240 fuel = None)
  /\ ~ generate_terminates (mk_analyst (mk_time 9 0, mk_time 12 0) 240)
         (at_ monday_2025_01_06 9 0) (at_ monday_2025_01_06 12 0) 240
  /\ (forall fuel,
         _generate_time_slots (mk_analyst (mk_time 8 0, mk_time 18 0) 45)
           (at_ monday_2025_01_06 8 0) (at_ monday_2025_01_06 18 0) 45 fuel = None).
Proof.
  assert (H1 : forall fuel,
      _generate_time_slots (mk_analyst (mk_time 9 0, mk_time 12 0) 240)
        (at_ monday_2025_01_06 9 0) (at_ monday_2025_01_06 12 0) 240 fuel = None).
  { intros fuel. unfold _generate_time_slots.
    apply gen_run_stuck; vm_compute; reflexivity. }
  split; [exact H1|]. split.
  - intros (fuel & result & Hrun). rewrite H1 in Hrun. discriminate.
  - intros fuel. unfold _generate_time_slots. revert fuel.
    do 15 (eapply gen_run_diverges_step; [vm_compute; reflexivity|]).
    intros fuel. apply gen_run_stuck; vm_compute; reflexivity.
Qed.

(** ** Conflict filtering *)

(** The acceptance test of one candidate: no row of the busy frame satisfies
    [busy.start < slot.end AND busy.end > slot.start]. *)
Lemma no_conflict_iff (slot : datetime * datetime) (busy_df : DataFrame) :
  df_empty (List.filter (conflicts_with slot) busy_df) = true
  <-> forall b, In b busy_df -> ~ (b_start b < snd slot /\ b_end b > fst slot).
Proof.
  induction busy_df as [|b0 busy IH]; simpl.
  - split; [intros _ b []|reflexivity].
  - destruct (conflicts_with slot b0) eqn:Hc; simpl.
    + split; [discriminate|]. intros H. exfalso. apply (H b0 (or_introl eq_refl)).
      unfold conflicts_with in Hc. apply andb_prop in Hc. destruct Hc as [H1 H2].
      apply Z.ltb_lt in H1. apply Z.ltb_lt in H2. lia.
    + rewrite IH. split.
      * intros H b [<-|Hin]; [|now apply H].
        intros [H1 H2]. unfold conflicts_with in Hc.
        apply andb_false_iff in Hc. destruct Hc as [Hc|Hc]; apply Z.ltb_ge in Hc; lia.
      * intros H b Hin. apply H. now right.
Qed.

(** With or without the early return, the result is the input filtered by the
    acceptance test. *)
Lemma filter_available_as_filter potential_slots busy_df :
  _filter_available_slots potential_slots busy_df
  = List.filter (fun slot => df_empty (List.filter (conflicts_with slot) busy_df))
      potential_slots.
Proof.
  unfold _filter_available_slots. destruct busy_df as [|b busy]; [|reflexivity].
  simpl. induction potential_slots as [|x l IH]; [reflexivity|].
  simpl. now rewrite <- IH.
Qed.

Lemma filter_sublist_self {A} (p : A -> bool) (l : list A) :
  sublist (List.filter p l) l.
Proof.
  induction l as [|x l IH]; simpl; [constructor|].
  destruct (p x); now constructor.
Qed.

Lemma filter_sublist_mono {A} (p q : A -> bool) (l : list A) :
  (forall x, In x l -> p x = true -> q x = true) ->
  sublist (List.filter p l) (List.filter q l).
Proof.
  induction l as [|x l IH]; intros Himp; simpl; [constructor|].
  assert (IH' : sublist (List.filter p l) (List.filter q l)).
  { apply IH. intros y Hy. apply Himp. now right. }
  destruct (p x) eqn:Hp.
  - rewrite (Himp x (or_introl eq_refl) Hp). now constructor.
  - destruct (q x); [now constructor|exact IH'].
Qed.

(** C8. The result of the conflict filter is a subsequence of the candidates;
    it holds exactly the candidates for which no busy interval satisfies
    busy.start < slot.end and busy.end > slot.start; taking one busy interval
    out of a busy frame, wherever it stands, keeps every accepted candidate
    accepted (the old result is a subsequence of the new one); and an empty
    busy frame returns the candidates unchanged. *)
Theorem filter_conflicts_monotonic :
  forall (candidates : list (datetime * datetime)) (busy : DataFrame),
    sublist (_filter_available_slots candidates busy) candidates
    /\ (forall slot,
           In slot (_filter_available_slots candidates busy)
           <-> In slot candidates
               /\ forall b, In b busy -> ~ (b_start b < snd slot /\ b_end b > fst slot))
    /\ (forall b busy',
           sublist (_filter_available_slots candidates (busy ++ b :: busy'))
                   (_filter_available_slots candidates (busy ++ busy')))
    /\ _filter_available_slots candidates [] = candidates.
Proof.
  intros candidates busy. repeat split.
  - rewrite filter_available_as_filter. apply filter_sublist_self.
  - rewrite filter_available_as_filter in H. apply filter_In in H. tauto.
  - rewrite filter_available_as_filter in H. apply filter_In in H.
    destruct H as [_ H]. now apply no_conflict_iff.
  - intros [Hin Hfree]. rewrite filter_available_as_filter. apply filter_In.
    split; [exact Hin|]. now apply no_conflict_iff.
  - intros b busy'. rewrite !filter_available_as_filter.
    apply filter_sublist_mono. intros slot _ Hacc.
    apply no_conflict_iff. intros b' Hin.
    apply (proj1 (no_conflict_iff slot (busy ++ b :: busy')) Hacc).
    apply in_app_or in Hin. apply in_or_app. simpl. tauto.
Qed.

(** ** Sorting by confidence *)

Lemma Qlt_bool_true a b : Qlt_bool a b = true <-> (a < b)%Q.
Proof.
  unfold Qlt_bool. rewrite negb_true_iff. split.
  - intros H. apply Qnot_le_lt. intros Hle.
    apply Qle_bool_iff in Hle. congruence.
  - intros H. destruct (Qle_bool b a) eqn:E; [|reflexivity].
    apply Qle_bool_iff in E. exfalso. now apply (Qlt_not_le a b).
Qed.

Lemma Qlt_bool_false a b : Qlt_bool a b = false <-> (b <= a)%Q.
Proof.
  unfold Qlt_bool. rewrite negb_false_iff. apply Qle_bool_iff.
Qed.

Lemma insert_by_confidence_perm x l :
  Permutation (insert_by_confidence x l) (x :: l).
Proof.
  induction l as [|y l IH]; simpl; [reflexivity|].
  destruct (Qlt_bool (confidence x) (confidence y)); [|reflexivity].
  rewrite IH. apply perm_swap.
Qed.

Lemma sort_by_confidence_perm l : Permutation (sort_by_confidence l) l.
Proof.
  induction l as [|x l IH]; simpl; [reflexivity|].
  rewrite insert_by_confidence_perm. now constructor.
Qed.

Lemma sort_by_confidence_In x l : In x (sort_by_confidence l) <-> In x l.
Proof.
  split; apply Permutation_in;
    [apply sort_by_confidence_perm | symmetry; apply sort_by_confidence_perm].
Qed.

Lemma insert_by_confidence_sorted x l :
  StronglySorted ranked l -> StronglySorted ranked (insert_by_confidence x l).
Proof.
  induction l as [|y l IH]; intros Hs; simpl.
  - repeat constructor.
  - apply StronglySorted_inv in Hs. destruct Hs as [Hl Hy].
    destruct (Qlt_bool (confidence x) (confidence y)) eqn:E.
    + constructor; [now apply IH|].
      apply Qlt_bool_true in E.
      rewrite List.Forall_forall in *. intros z Hz.
      apply (Permutation_in _ (insert_by_confidence_perm x l)) in Hz.
      destruct Hz as [<-|Hz]; [now apply Qlt_le_weak|now apply Hy].
    + apply Qlt_bool_false in E.
      constructor; [now constructor|].
      constructor; [exact E|].
      rewrite List.Forall_forall in *. intros z Hz. unfold ranked.
      apply Qle_trans with (confidence y); [now apply Hy|exact E].
Qed.

Lemma sort_by_confidence_sorted l : StronglySorted ranked (sort_by_confidence l).
Proof.
  induction l as [|x l IH]; simpl; [constructor|].
  now apply insert_by_confidence_sorted.
Qed.

(** The head of the sorted list is an element of greatest confidence. *)
Lemma sort_by_confidence_head l best rest :
  sort_by_confidence l = best :: rest ->
  In best l /\ forall s, In s l -> (confidence s <= confidence best)%Q.
Proof.
  intros Hsort.
  pose proof (sort_by_confidence_sorted l) as Hs. rewrite Hsort in Hs.
  apply StronglySorted_inv in Hs. destruct Hs as [_ Hall].
  split.
  - apply sort_by_confidence_In. rewrite Hsort. now left.
  - intros s Hin. apply sort_by_confidence_In in Hin. rewrite Hsort in Hin.
    destruct Hin as [<-|Hin]; [apply Qle_refl|].
    rewrite List.Forall_forall in Hall. now apply Hall.
Qed.

(** It is the first such in the order of the input: the sort is stable and
    moves an element ahead of another only on a strictly greater confidence,
    so every element that stands before it in the input has a strictly
    smaller confidence. *)
Lemma sort_by_confidence_first l best rest :
  sort_by_confidence l = best :: rest ->
  exists earlier later,
    l = earlier ++ best :: later
    /\ Forall (fun s => (confidence s < confidence best)%Q) earlier.
Proof.
  revert best rest.
  induction l as [|x l IH]; intros best rest Hsort; [discriminate|].
  cbn [sort_by_confidence fold_right] in Hsort.
  fold (sort_by_confidence l) in Hsort.
  destruct (sort_by_confidence l) as [|b tl] eqn:Hl.
  - cbn in Hsort. injection Hsort as <- _.
    exists [], l. split; [reflexivity|constructor].
  - cbn [insert_by_confidence] in Hsort.
    destruct (Qlt_bool (confidence x) (confidence b)) eqn:E.
    + injection Hsort as <- _.
      destruct (IH _ _ eq_refl) as (earlier & later & -> & Hall).
      exists (x :: earlier), later. split; [reflexivity|].
      constructor; [now apply Qlt_bool_true|exact Hall].
    + injection Hsort as <- _.
      exists [], l. split; [reflexivity|constructor].
Qed.

Lemma sort_by_confidence_nil l : sort_by_confidence l = [] -> l = [].
Proof.
  intros H. apply Permutation_nil. rewrite <- H.
  apply sort_by_confidence_perm.
Qed.

Lemma firstn_2_length {A} (l : list A) : (List.length (firstn 2 l) <= 2)%nat.
Proof. destruct l as [|a [|b l]]; simpl; lia. Qed.

(** ** The store *)

Lemma fresh_unused (h : gmap ref MeetingSchedule) : h !! fresh (dom h) = None.
Proof. apply not_elem_of_dom, is_fresh. Qed.

Lemma model_copy_run r v w :
  heap w !! r = Some v ->
  model_copy r w
  = (mk_world (<[fresh (dom (heap w)) := v]> (heap w)) (steps w),
     Ok (fresh (dom (heap w)))).
Proof. intros H. unfold model_copy. now rewrite H. Qed.

Lemma assign_run r f v w :
  heap w !! r = Some v ->
  assign r f w = (mk_world (<[r := f v]> (heap w)) (steps w), Ok tt).
Proof. intros H. unfold assign. now rewrite H. Qed.

Lemma fresh_is_new r v (h : gmap ref MeetingSchedule) :
  h !! r = Some v -> fresh (dom h) <> r.
Proof. intros H E. rewrite <- E in H. rewrite fresh_unused in H. discriminate. Qed.

(** ** The strategies, in closed form *)

Lemma sorted_nonempty x l : sort_by_confidence (x :: l) <> [].
Proof. intros H. apply sort_by_confidence_nil in H. discriminate. Qed.

Lemma time_shift_run self slots prefs w init :
  heap w !! initial self = Some init ->
  _strategy_time_shift self slots prefs w
  = match sort_by_confidence (List.filter (time_shift_ok prefs) slots) with
    | [] => (mk_world (heap w) (steps w ++ [ps_time_shift]), Ok None)
    | best :: rest =>
        (mk_world
           (<[fresh (dom (heap w)) := set_schedule_day (start_time best) init]> (heap w))
           (steps w ++ [ps_time_shift]),
         Ok (Some (mk_result COMPROMISE_PROPOSED (Some (fresh (dom (heap w)))) (Some best)
                     ReasonRelaxedTimeOfDay (firstn 2 rest) TOD_SHIFTING)))
    end.
Proof.
  intros Hinit. unfold _strategy_time_shift, bind at 1, log_step.
  destruct (List.filter (time_shift_ok prefs) slots) as [|x l] eqn:Hf; [reflexivity|].
  cbn [nonempty negb].
  destruct (sort_by_confidence (x :: l)) as [|best rest] eqn:Hs;
    [now apply sorted_nonempty in Hs|].
  unfold bind, index0, ret. cbn [heap steps].
  rewrite (model_copy_run (initial self) init) by exact Hinit.
  erewrite assign_run by (simpl; apply lookup_insert_eq).
  cbn [heap steps]. now rewrite insert_insert_eq.
Qed.

Lemma relax_hours_run self slots prefs w init :
  heap w !! initial self = Some init ->
  _strategy_relax_hours self slots prefs w
  = match sort_by_confidence (List.filter (relax_allowed prefs) slots) with
    | [] => (mk_world (heap w) (steps w ++ [ps_relax_hours]), Ok None)
    | best :: rest =>
        (mk_world
           (<[fresh (dom (heap w)) :=
                set_working_hours_end (shift_clock (working_hours_end init) 30)
                  (set_working_hours_start (shift_clock (working_hours_start init) (-30))
                     init)]> (heap w))
           (steps w ++ [ps_relax_hours]),
         Ok (Some (mk_result COMPROMISE_PROPOSED (Some (fresh (dom (heap w)))) (Some best)
                     ReasonExtendedHours (firstn 2 rest) RELAX_CONSTRAINTS)))
    end.
Proof.
  intros Hinit. unfold _strategy_relax_hours, bind at 1, log_step.
  destruct (List.filter (relax_allowed prefs) slots) as [|x l] eqn:Hf; [reflexivity|].
  cbn [nonempty negb].
  destruct (sort_by_confidence (x :: l)) as [|best rest] eqn:Hs;
    [now apply sorted_nonempty in Hs|].
  unfold bind, index0, ret, read. cbn [heap steps]. rewrite Hinit.
  rewrite (model_copy_run (initial self) init) by exact Hinit.
  erewrite assign_run by (simpl; apply lookup_insert_eq).
  erewrite assign_run by (simpl; apply lookup_insert_eq).
  cbn [heap steps]. now rewrite !insert_insert_eq.
Qed.

Lemma alternative_day_run utcoffset self slots prefs calendars w init :
  heap w !! initial self = Some init ->
  _strategy_alternative_day utcoffset self slots prefs calendars w
  = if max_alternative_days init =? 0
    then (mk_world (heap w) (steps w ++ [ps_alternative_day]), Ok None)
    else
      match List.find (fun day => (weekday day <? 5) && day_ok utcoffset prefs calendars day)
              (candidate_days (schedule_day init) (max_alternative_days init)) with
      | None => (mk_world (heap w) (steps w ++ [ps_alternative_day]), Ok None)
      | Some day =>
          (mk_world (<[fresh (dom (heap w)) := set_schedule_day day init]> (heap w))
             (steps w ++ [ps_alternative_day]),
           Ok (Some (mk_result COMPROMISE_PROPOSED (Some (fresh (dom (heap w)))) None
                       (ReasonSwitchDay day) [] ALTERNATIVE_DAY)))
      end.
Proof.
  intros Hinit. unfold _strategy_alternative_day, bind at 1, log_step.
  unfold bind at 1, read. cbn [heap steps]. rewrite Hinit.
  destruct (max_alternative_days init =? 0); [reflexivity|].
  destruct (List.find _ _) as [day|]; [|reflexivity].
  unfold bind, ret.
  rewrite (model_copy_run (initial self) init) by exact Hinit.
  erewrite assign_run by (simpl; apply lookup_insert_eq).
  cbn [heap steps]. now rewrite insert_insert_eq.
Qed.

Lemma map_M_with_duration cap l w :
  0 < cap ->
  map_M (with_duration cap) l w = (w, Ok (map (replace_duration cap) l)).
Proof.
  intros Hcap. induction l as [|x l IH]; [reflexivity|].
  cbn [map_M map]. unfold bind at 1. unfold with_duration at 1.
  destruct (Z.ltb_spec 0 cap); [|lia].
  unfold ret at 1. unfold bind at 1. rewrite IH. reflexivity.
Qed.

(** A cap that is not positive makes the first rebuilt slot fail validation. *)
Lemma map_M_with_duration_invalid cap x l w :
  cap <= 0 ->
  map_M (with_duration cap) (x :: l) w = (w, Raise ValidationError).
Proof.
  intros Hcap. cbn [map_M]. unfold bind at 1, with_duration at 1.
  destruct (Z.ltb_spec 0 cap); [lia|reflexivity].
Qed.

Lemma fold_min_positive l x :
  0 < x -> Forall (fun c => 0 < c) l -> 0 < fold_left Z.min l x.
Proof.
  revert x. induction l as [|y l IH]; intros x Hx Hl; [exact Hx|].
  simpl. apply List.Forall_cons_iff in Hl. destruct Hl as [Hy Hl].
  apply IH; [lia|exact Hl].
Qed.

(** The caps collected by the list comprehension of the duration strategy. *)
Lemma caps_positive (prefs : list (string * ParticipantPreferences)) :
  Forall (fun ppr => validated (snd ppr)) prefs ->
  Forall (fun c => 0 < c)
    (map (fun ppr => int_value (preferred_max_duration (snd ppr)))
       (List.filter (fun ppr => truthy_int (preferred_max_duration (snd ppr))) prefs)).
Proof.
  intros Hv. apply List.Forall_forall. intros c Hc.
  apply in_map_iff in Hc. destruct Hc as (ppr & <- & Hin).
  apply filter_In in Hin. destruct Hin as [Hin Ht].
  rewrite List.Forall_forall in Hv. destruct (Hv ppr Hin) as [Hd _].
  destruct (preferred_max_duration (snd ppr)) as [n|]; [|discriminate].
  simpl. now apply Hd.
Qed.

(** The duration adjustment in closed form, for any preferences. *)
Lemma duration_adjust_run_any self slots prefs w init :
  heap w !! initial self = Some init ->
  _strategy_duration_adjust self slots prefs w
  = match map (fun ppr => int_value (preferred_max_duration (snd ppr)))
            (List.filter (fun ppr => truthy_int (preferred_max_duration (snd ppr))) prefs)
    with
    | [] => (mk_world (heap w) (steps w ++ [ps_duration_adjust]), Ok None)
    | c :: cs =>
        let smallest_cap := fold_left Z.min cs c in
        if default_duration init <=? smallest_cap
        then (mk_world (heap w) (steps w ++ [ps_duration_adjust]), Ok None)
        else
          let h' := <[fresh (dom (heap w)) := set_default_duration smallest_cap init]> (heap w) in
          match List.filter (fun s => smallest_cap <=? duration_minutes s) slots with
          | [] => (mk_world h' (steps w ++ [ps_duration_adjust]), Ok None)
          | x :: l =>
              if 0 <? smallest_cap then
                match sort_by_confidence (map (replace_duration smallest_cap) (x :: l)) with
                | [] => (mk_world h' (steps w ++ [ps_duration_adjust]), Ok None)
                | best :: rest =>
                    (mk_world h' (steps w ++ [ps_duration_adjust]),
                     Ok (Some (mk_result COMPROMISE_PROPOSED (Some (fresh (dom (heap w))))
                                 (Some best) (ReasonReducedDuration smallest_cap)
                                 (firstn 2 rest) DURATION_ADJUSTMENT)))
                end
              else (mk_world h' (steps w ++ [ps_duration_adjust]), Raise ValidationError)
          end
    end.
Proof.
  intros Hinit. unfold _strategy_duration_adjust, bind at 1, log_step.
  destruct (map _ (List.filter _ prefs)) as [|c cs]; [reflexivity|].
  cbn [nonempty negb py_min].
  set (smallest_cap := fold_left Z.min cs c) in *.
  unfold bind at 1, ret at 1. unfold bind at 1, read. cbn [heap steps]. rewrite Hinit.
  destruct (default_duration init <=? smallest_cap); [reflexivity|].
  unfold bind at 1.
  rewrite (model_copy_run (initial self) init) by exact Hinit.
  unfold bind at 1.
  erewrite assign_run by (simpl; apply lookup_insert_eq).
  cbn [heap steps]. rewrite insert_insert_eq. cbv zeta.
  destruct (List.filter _ slots) as [|x l] eqn:Hf; [reflexivity|].
  unfold bind at 1.
  destruct (Z.ltb_spec 0 smallest_cap) as [Hpos|Hneg].
  - rewrite map_M_with_duration by exact Hpos.
    cbn [map nonempty negb].
    destruct (sort_by_confidence _) as [|best rest] eqn:Hs;
      [now apply sorted_nonempty in Hs|].
    reflexivity.
  - now rewrite map_M_with_duration_invalid.
Qed.

(** With validated preferences the smallest cap is positive and nothing is
    raised. *)
Lemma duration_adjust_run self slots prefs w init :
  heap w !! initial self = Some init ->
  Forall (fun ppr => validated (snd ppr)) prefs ->
  _strategy_duration_adjust self slots prefs w
  = match map (fun ppr => int_value (preferred_max_duration (snd ppr)))
            (List.filter (fun ppr => truthy_int (preferred_max_duration (snd ppr))) prefs)
    with
    | [] => (mk_world (heap w) (steps w ++ [ps_duration_adjust]), Ok None)
    | c :: cs =>
        let smallest_cap := fold_left Z.min cs c in
        if default_duration init <=? smallest_cap
        then (mk_world (heap w) (steps w ++ [ps_duration_adjust]), Ok None)
        else
          let h' := <[fresh (dom (heap w)) := set_default_duration smallest_cap init]> (heap w) in
          match sort_by_confidence
                  (map (replace_duration smallest_cap)
                     (List.filter (fun s => smallest_cap <=? duration_minutes s) slots))
          with
          | [] => (mk_world h' (steps w ++ [ps_duration_adjust]), Ok None)
          | best :: rest =>
              (mk_world h' (steps w ++ [ps_duration_adjust]),
               Ok (Some (mk_result COMPROMISE_PROPOSED (Some (fresh (dom (heap w))))
                           (Some best) (ReasonReducedDuration smallest_cap)
                           (firstn 2 rest) DURATION_ADJUSTMENT)))
          end
    end.
Proof.
  intros Hinit Hvalid. rewrite (duration_adjust_run_any self slots prefs w init Hinit).
  pose proof (caps_positive prefs Hvalid) as Hpos.
  destruct (map _ (List.filter _ prefs)) as [|c cs]; [reflexivity|].
  apply List.Forall_cons_iff in Hpos. destruct Hpos as [Hc Hcs].
  pose proof (fold_min_positive cs c Hc Hcs) as Hsmall.
  cbv zeta. destruct (default_duration init <=? fold_left Z.min cs c); [reflexivity|].
  destruct (List.filter _ slots) as [|x l]; [reflexivity|].
  destruct (Z.ltb_spec 0 (fold_left Z.min cs c)); [reflexivity|lia].
Qed.

(** ** What the ladder relies on from each strategy *)

Lemma lookup_after_copy (h : gmap ref MeetingSchedule) r v v' :
  h !! r = Some v -> <[fresh (dom h) := v']> h !! r = Some v.
Proof.
  intros H. rewrite lookup_insert_ne; [exact H|]. now apply (fresh_is_new r v).
Qed.

Lemma sort_match_nonempty (l : list SlotInfo) :
  nonempty l = true -> exists best rest, sort_by_confidence l = best :: rest.
Proof.
  destruct l as [|x l]; [discriminate|]. intros _.
  destruct (sort_by_confidence (x :: l)) as [|best rest] eqn:Hs;
    [now apply sorted_nonempty in Hs|eauto].
Qed.

(** Closes the five parts of a contract once the run is in closed form. *)
Ltac close_contract :=
  do 2 eexists; repeat split; cbn [heap steps];
  eauto using lookup_after_copy;
  try discriminate;
  try (intros _; eexists; repeat split; discriminate).

Lemma strategy_call_contract utcoffset self init slots prefs calendars s w :
  In s ladder ->
  heap w !! initial self = Some init ->
  Forall (fun ppr => validated (snd ppr)) prefs ->
  exists w1 res,
    strategy_call utcoffset self slots prefs calendars s w = (w1, Ok res)
    /\ steps w1 = steps w ++ [own_step s]
    /\ heap w1 !! initial self = Some init
    /\ (offers utcoffset init slots prefs calendars s = false -> res = None)
    /\ (offers utcoffset init slots prefs calendars s = true ->
        exists r, res = Some r /\ strategy_choose r = s
                  /\ outcome r = COMPROMISE_PROPOSED /\ proposed_schedule r <> None).
Proof.
  intros Hs Hinit Hvalid.
  destruct Hs as [<-|[<-|[<-|[<-|[]]]]]; cbn [strategy_call offers own_step].
  - (* duration adjustment *)
    rewrite (duration_adjust_run self slots prefs w init Hinit Hvalid).
    unfold duration_offers.
    destruct (map _ (List.filter _ prefs)) as [|c cs]; [close_contract|].
    cbv zeta.
    destruct (default_duration init <=? fold_left Z.min cs c); [close_contract|].
    cbn [negb andb].
    destruct (List.filter _ slots) as [|x l] eqn:Hf; [close_contract|].
    destruct (sort_match_nonempty (map (replace_duration (fold_left Z.min cs c)) (x :: l))
                eq_refl) as (best & rest & ->).
    close_contract.
  - (* time-of-day shifting *)
    rewrite (time_shift_run self slots prefs w init Hinit). unfold time_shift_offers.
    destruct (List.filter (time_shift_ok prefs) slots) as [|x l] eqn:Hf; [close_contract|].
    destruct (sort_match_nonempty (x :: l) eq_refl) as (best & rest & ->).
    close_contract.
  - (* alternative day *)
    rewrite (alternative_day_run utcoffset self slots prefs calendars w init Hinit).
    unfold alternative_day_offers.
    destruct (max_alternative_days init =? 0); [close_contract|].
    destruct (List.find _ _) as [day|]; close_contract.
  - (* relaxed hours *)
    rewrite (relax_hours_run self slots prefs w init Hinit). unfold relax_offers.
    destruct (List.filter (relax_allowed prefs) slots) as [|x l] eqn:Hf; [close_contract|].
    destruct (sort_match_nonempty (x :: l) eq_refl) as (best & rest & ->).
    close_contract.
Qed.

(** ** The ladder *)

Lemma announced_announce s : In s ladder -> announced (announce_step s) = Some s.
Proof. intros [<-|[<-|[<-|[<-|[]]]]]; reflexivity. Qed.

Lemma announced_own s : announced (own_step s) = None.
Proof. destruct s; reflexivity. Qed.

Lemma rung_skipped guard announce strategy k w :
  guard = false -> rung guard announce strategy k w = k w.
Proof. now intros ->. Qed.

Lemma rung_attempted announce strategy k w :
  rung true announce strategy k w
  = match strategy (mk_world (heap w) (steps w ++ [announce])) with
    | (w1, Ok (Some r)) => (w1, Ok r)
    | (w1, Ok None) => k w1
    | (w1, Raise e) => (w1, Raise e)
    end.
Proof.
  unfold rung, bind, log_step.
  destruct (strategy _) as [w1 [[r|]|e]]; reflexivity.
Qed.

(** The ladder in closed form. The result comes from the first rung, bottom
    to top, that is both attempted and has something to offer; the strategies
    attempted are the attempted rungs up to that one; when there is no such
    rung every attempted rung was tried and the impossible result is built.
    The run never raises and never touches the initial schedule. *)
Lemma climb_run utcoffset self init slots prefs calendars previous_strategy rungs :
  Forall (fun s => In s ladder) rungs ->
  Forall (fun ppr => validated (snd ppr)) prefs ->
  forall w,
    heap w !! initial self = Some init ->
    exists w' r new,
      climb utcoffset self slots prefs calendars previous_strategy rungs w = (w', Ok r)
      /\ steps w' = steps w ++ new
      /\ heap w' !! initial self = Some init
      /\ match List.find
                 (fun s => attempts previous_strategy s
                           && offers utcoffset init slots prefs calendars s) rungs with
         | None =>
             r = impossible_result
             /\ strategies_tried new = List.filter (attempts previous_strategy) rungs
         | Some k =>
             strategy_choose r = k /\ outcome r = COMPROMISE_PROPOSED
             /\ proposed_schedule r <> None
             /\ (exists w0,
                   strategy_call utcoffset self slots prefs calendars k w0
                   = (w', Ok (Some r)))
             /\ exists pre post,
                 rungs = pre ++ k :: post
                 /\ strategies_tried new
                    = List.filter (attempts previous_strategy) pre ++ [k]
                 /\ forall j, In j pre -> attempts previous_strategy j = true ->
                              offers utcoffset init slots prefs calendars j = false
         end.
Proof.
  intros Hrungs Hvalid.
  induction rungs as [|s rungs IH]; intros w Hinit.
  - exists w, impossible_result, []. cbn. rewrite app_nil_r. auto.
  - apply List.Forall_cons_iff in Hrungs. destruct Hrungs as [Hs Hrungs].
    specialize (IH Hrungs).
    cbn [climb fold_right List.find List.filter].
    fold (climb utcoffset self slots prefs calendars previous_strategy rungs).
    destruct (attempts previous_strategy s) eqn:Hatt.
    + rewrite rung_attempted.
      destruct (strategy_call_contract utcoffset self init slots prefs calendars s
                  (mk_world (heap w) (steps w ++ [announce_step s])) Hs Hinit Hvalid)
        as (w1 & res & Hrun & Hsteps & Hinit1 & Hno & Hyes).
      rewrite Hrun. cbn [steps] in Hsteps. cbn [andb].
      destruct (offers utcoffset init slots prefs calendars s) eqn:Hoff.
      * destruct (Hyes eq_refl) as (r & -> & Hk & Hout & Hsched).
        exists w1, r, [announce_step s; own_step s].
        split; [reflexivity|]. split; [now rewrite Hsteps, <- app_assoc|].
        split; [exact Hinit1|]. repeat split; try assumption.
        { eexists. exact Hrun. }
        exists [], rungs. repeat split.
        -- cbn. now rewrite (announced_announce s Hs), announced_own.
        -- intros j [].
      * rewrite (Hno eq_refl).
        destruct (IH w1 Hinit1) as (w' & r & new & Hclimb & Hsteps' & Hinit' & Hres).
        exists w', r, (announce_step s :: own_step s :: new).
        split; [exact Hclimb|].
        split; [rewrite Hsteps', Hsteps, <- !app_assoc; reflexivity|].
        split; [exact Hinit'|].
        cbn [strategies_tried]. rewrite (announced_announce s Hs), announced_own.
        destruct (List.find _ rungs) as [k|].
        -- destruct Hres as (Hk & Hout & Hsched & Hcall & pre & post & -> & Htried & Hpre).
           repeat split; try assumption.
           exists (s :: pre), post. repeat split.
           ++ cbn [List.filter]. rewrite Hatt, Htried. reflexivity.
           ++ intros j [<-|Hj] Hj'; [exact Hoff|now apply Hpre].
        -- destruct Hres as [-> Htried]. now rewrite Htried.
    + rewrite rung_skipped by reflexivity. cbn [andb].
      destruct (IH w Hinit) as (w' & r & new & Hclimb & Hsteps' & Hinit' & Hres).
      exists w', r, new. repeat split; try assumption.
      destruct (List.find _ rungs) as [k|]; [|exact Hres].
      destruct Hres as (Hk & Hout & Hsched & Hcall & pre & post & -> & Htried & Hpre).
      repeat split; try assumption.
      exists (s :: pre), post. repeat split.
      * cbn [List.filter]. now rewrite Hatt.
      * intros j [<-|Hj] Hj'; [congruence|now apply Hpre].
Qed.

(** ** [negotiate_schedule] *)

(** Without a strict-filter survivor the call is the climb of the four rungs,
    entered after four steps were logged. *)
Lemma negotiate_without_survivor utcoffset self available_slots participants
    min_score previous_strategy w :
  List.filter
    (fun s => _slot_respects_all utcoffset s (prefs_of participants)
                (calendars_of participants)) available_slots = [] ->
  negotiate_schedule utcoffset self available_slots participants min_score
    previous_strategy w
  = climb utcoffset self available_slots (prefs_of participants)
      (calendars_of participants) previous_strategy ladder
      (mk_world (heap w)
         (steps w ++ [ps_negotiate_schedule; ps_preference_processing;
                      ps_strict_filter; ps_iterative_negotiation])).
Proof.
  intros Hnone. unfold negotiate_schedule. rewrite Hnone. cbn [nonempty].
  unfold bind, log_step. cbn [heap steps]. rewrite <- !app_assoc. reflexivity.
Qed.

(** With a survivor the call returns after the strict filter. *)
Lemma negotiate_with_survivor utcoffset self available_slots participants
    min_score previous_strategy w best rest :
  sort_by_confidence
    (List.filter
       (fun s => _slot_respects_all utcoffset s (prefs_of participants)
                   (calendars_of participants)) available_slots) = best :: rest ->
  negotiate_schedule utcoffset self available_slots participants min_score
    previous_strategy w
  = (mk_world (heap w)
       (steps w ++ [ps_negotiate_schedule; ps_preference_processing; ps_strict_filter]),
     Ok (mk_result
           (if Qle_bool min_score (confidence best) then OPTIMAL_FOUND
            else COMPROMISE_PROPOSED)
           (Some (initial self)) (Some best) ReasonStrict (firstn 2 rest) NONE)).
Proof.
  intros Hsort. unfold negotiate_schedule.
  destruct (List.filter _ available_slots) as [|x l] eqn:Hf;
    [discriminate|].
  cbn [nonempty]. rewrite Hsort.
  unfold bind, log_step, index0, ret. cbn [heap steps]. rewrite <- !app_assoc.
  reflexivity.
Qed.

(** C4. When some input slot passes the strict filter, the call returns a
    result whose selected slot is a survivor of the strict filter of greatest
    confidence (the head of the survivors sorted by descending confidence);
    the outcome is OPTIMAL_FOUND when that confidence is at least min_score
    and COMPROMISE_PROPOSED otherwise; the alternatives are the next two
    survivors in that order at most; the log shows the three steps up to the
    strict filter and no strategy, and the store is untouched. *)
Theorem strict_survivor_returned_immediately :
  forall utcoffset self available_slots participants min_score previous_strategy w,
    (exists s, In s available_slots
               /\ _slot_respects_all utcoffset s (prefs_of participants)
                    (calendars_of participants) = true) ->
    exists best rest r w',
      negotiate_schedule utcoffset self available_slots participants min_score
        previous_strategy w = (w', Ok r)
      /\ Permutation (best :: rest)
           (List.filter
              (fun s => _slot_respects_all utcoffset s (prefs_of participants)
                          (calendars_of participants)) available_slots)
      /\ StronglySorted ranked (best :: rest)
      /\ selected_slot r = Some best
      /\ In best available_slots
      /\ _slot_respects_all utcoffset best (prefs_of participants)
           (calendars_of participants) = true
      /\ (forall s, In s available_slots ->
                    _slot_respects_all utcoffset s (prefs_of participants)
                      (calendars_of participants) = true ->
                    (confidence s <= confidence best)%Q)
      /\ (((min_score <= confidence best)%Q /\ outcome r = OPTIMAL_FOUND)
          \/ ((confidence best < min_score)%Q /\ outcome r = COMPROMISE_PROPOSED))
      /\ alternative_suggestions r = firstn 2 rest
      /\ (List.length (alternative_suggestions r) <= 2)%nat
      /\ proposed_schedule r = Some (initial self)
      /\ strategy_choose r = NONE
      /\ heap w' = heap w
      /\ steps w'
         = steps w ++ [ps_negotiate_schedule; ps_preference_processing; ps_strict_filter]
      /\ strategies_tried
           [ps_negotiate_schedule; ps_preference_processing; ps_strict_filter] = [].
Proof.
  intros utcoffset self available_slots participants min_score previous_strategy w
    (s & Hin & Hok).
  set (respects := fun s => _slot_respects_all utcoffset s (prefs_of participants)
                              (calendars_of participants)).
  assert (Hne : nonempty (List.filter respects available_slots) = true).
  { destruct (List.filter respects available_slots) eqn:Hf; [|reflexivity].
    assert (Hs : In s (List.filter respects available_slots))
      by (apply filter_In; split; assumption).
    rewrite Hf in Hs. destruct Hs. }
  destruct (sort_match_nonempty _ Hne) as (best & rest & Hsort).
  destruct (sort_by_confidence_head _ _ _ Hsort) as [Hbest Hmax].
  apply filter_In in Hbest. destruct Hbest as [Hbest_in Hbest_ok].
  exists best, rest. do 2 eexists.
  split; [apply (negotiate_with_survivor _ _ _ _ _ _ _ best rest Hsort)|].
  split; [rewrite <- Hsort; apply sort_by_confidence_perm|].
  split; [rewrite <- Hsort; apply sort_by_confidence_sorted|].
  split; [reflexivity|]. split; [exact Hbest_in|]. split; [exact Hbest_ok|].
  split.
  { intros s' Hs' Hok'. apply Hmax. apply filter_In. split; assumption. }
  split.
  { cbn [outcome]. destruct (Qle_bool min_score (confidence best)) eqn:E.
    - left. split; [now apply Qle_bool_iff|reflexivity].
    - right. split; [|reflexivity]. apply Qnot_le_lt. intros Hle.
      apply Qle_bool_iff in Hle. congruence. }
  cbn [alternative_suggestions]. split; [reflexivity|].
  split; [apply firstn_2_length|]. repeat split.
Qed.

(** The ways to split the ladder around one rung. *)
Lemma ladder_split pre k post :
  ladder = pre ++ k :: post ->
  (pre = [] /\ k = DURATION_ADJUSTMENT)
  \/ (pre = [DURATION_ADJUSTMENT] /\ k = TOD_SHIFTING)
  \/ (pre = [DURATION_ADJUSTMENT; TOD_SHIFTING] /\ k = ALTERNATIVE_DAY)
  \/ (pre = [DURATION_ADJUSTMENT; TOD_SHIFTING; ALTERNATIVE_DAY]
      /\ k = RELAX_CONSTRAINTS).
Proof.
  unfold ladder. intros H.
  destruct pre as [|a [|b [|c [|d pre]]]]; cbn in H; inversion H; subst; auto 6.
  destruct pre; discriminate.
Qed.

Lemma filtered_ladder_sorted (p : NegotiationStrategy -> bool) :
  StronglySorted (fun a b => ordinal a < ordinal b) (List.filter p ladder).
Proof.
  unfold ladder. cbn [List.filter].
  destruct (p DURATION_ADJUSTMENT), (p TOD_SHIFTING), (p ALTERNATIVE_DAY),
    (p RELAX_CONSTRAINTS); repeat constructor.
Qed.

(** The guards, read off the table: a rung is attempted when it lies
    strictly above [previous_strategy], and the two lowest rungs are attempted
    again once [previous_strategy] is ALTERNATIVE_DAY or above. *)
Lemma attempts_spec previous_strategy s :
  attempts previous_strategy s = true
  <-> In s ladder
      /\ (ordinal previous_strategy < ordinal s
          \/ (wrap_condition previous_strategy = true
              /\ (s = DURATION_ADJUSTMENT \/ s = TOD_SHIFTING))).
Proof.
  unfold ladder.
  destruct previous_strategy, s; cbn; split;
    try discriminate; try (intros _; split; [tauto|lia]);
    try (intros _; split; [tauto|right; split; [reflexivity|tauto]]);
    intros [Hl [Ho|[Hw [Hs|Hs]]]]; try reflexivity; try lia; try discriminate;
    try (repeat destruct Hl as [Hl|Hl]; discriminate).
Qed.

Lemma world0_initial : heap world0 !! initial agent0 = Some schedule0.
Proof. apply lookup_singleton_eq. Qed.

Lemma alone_validated pr :
  validated pr ->
  Forall (fun ppr => validated (snd ppr)) (prefs_of (alone pr)).
Proof. intros H. repeat constructor; apply H. Qed.

Lemma unset_validated pr :
  preferred_max_duration pr = None -> max_meetings_per_day pr = None -> validated pr.
Proof. intros H1 H2. split; intros n Hn; congruence. Qed.

(** A run of the strict path: both slots comply, the one with confidence 0.9
    is selected. *)
Lemma strict_survivor_returned_immediately_witness :
  (exists s, In s [slot_at 10 0 60 0.7; slot_at 11 0 60 0.9]
             /\ _slot_respects_all 0 s (prefs_of (alone no_preferences))
                  (calendars_of (alone no_preferences)) = true)
  /\ exists best r w',
      negotiate_schedule 0 agent0 [slot_at 10 0 60 0.7; slot_at 11 0 60 0.9]
        (alone no_preferences) 0.6 NONE world0 = (w', Ok r)
      /\ selected_slot r = Some best
      /\ (confidence (slot_at 11 0 60 0.9) <= confidence best)%Q.
Proof.
  assert (H : exists s, In s [slot_at 10 0 60 0.7; slot_at 11 0 60 0.9]
                        /\ _slot_respects_all 0 s (prefs_of (alone no_preferences))
                             (calendars_of (alone no_preferences)) = true).
  { exists (slot_at 10 0 60 0.7). split; [left; reflexivity|reflexivity]. }
  split; [exact H|].
  destruct (strict_survivor_returned_immediately 0 agent0
              [slot_at 10 0 60 0.7; slot_at 11 0 60 0.9] (alone no_preferences)
              0.6 NONE world0 H)
    as (best & rest & r & w' & Hrun & _ & _ & Hsel & _ & _ & Hmax & _).
  exists best, r, w'. split; [exact Hrun|]. split; [exact Hsel|].
  apply Hmax; [right; left; reflexivity|reflexivity].
Defined.


(** ** The bounds as written against the bounds as read *)




















(** A bound that does not parse is reached as soon as there is a slot to
    test and the participant who set it comes first: the strict filter
    raises ValueError on the first slot, after three steps were logged. *)
Lemma unread_bound_raises utcoffset self slot slots p pd rest min_score
    previous_strategy w b :
  Written.no_meetings_before (Written.preferences pd) = Some b ->
  Written.isoformat b = false ->
  Written.negotiate_schedule utcoffset self (slot :: slots) ((p, pd) :: rest) min_score
    previous_strategy w
  = (mk_world (heap w)
       (steps w ++ [ps_negotiate_schedule; ps_preference_processing; ps_strict_filter]),
     Raise ValueError).
Proof.
  intros Hset Hiso. unfold Written.negotiate_schedule.
  cbn [Written.prefs_of Written.calendars_of map fst snd Written.keep
       Written._slot_respects_all Written.for_all].
  unfold Written.respects_one at 1. unfold Written.too_early at 1.
  rewrite Hset. unfold Written.fromisoformat. rewrite Hiso.
  cbn [Written.and_then].
  unfold bind, log_step, Written.lift. cbn [heap steps].
  rewrite <- !app_assoc. reflexivity.
Qed.

(** Working hours that [datetime.strptime] does not read are reached when
    the last rung has a slot to offer. The slot from 13:00 to 14:00 is not
    in the morning, and the time shift, which tests the start against lunch
    as an end, rejects it too; the relaxed hours accept it and then parse the
    working hours. *)
Lemma unread_working_hours_raise :
  snd (Written.negotiate_schedule 0 written_agent_newline [slot_at 13 0 60 0.7]
         (written_alone written_morning_no_lunch) 0.6 ALTERNATIVE_DAY world0)
  = Raise ValueError
  /\ exists r,
      snd (Written.negotiate_schedule 0 written_agent0 [slot_at 13 0 60 0.7]
             (written_alone written_morning_no_lunch) 0.6 ALTERNATIVE_DAY world0)
      = Ok r
      /\ strategy_choose r = RELAX_CONSTRAINTS.
Proof.
  split; [vm_compute; reflexivity|].
  eexists. split; [vm_compute; reflexivity|reflexivity].
Qed.





Lemma strategies_tried_app a b :
  strategies_tried (a ++ b) = strategies_tried a ++ strategies_tried b.
Proof.
  induction a as [|s a IH]; [reflexivity|].
  cbn [app strategies_tried]. destruct (announced s); cbn; now rewrite IH.
Qed.

Lemma ladder_no_none : ~ In NONE ladder.
Proof. unfold ladder. cbn. intuition discriminate. Qed.

(** A rung that lies below the winning rung stands before it on the ladder. *)
Lemma ladder_below pre k post j :
  ladder = pre ++ k :: post -> In j ladder -> ordinal j < ordinal k -> In j pre.
Proof.
  intros Hsplit Hj Hlt.
  destruct (ladder_split pre k post Hsplit) as [[-> ->]|[[-> ->]|[[-> ->]|[-> ->]]]];
    unfold ladder in Hj; cbn in Hj;
    repeat destruct Hj as [Hj|Hj]; subst; cbn in *; try lia; tauto.
Qed.

Lemma ladder_prefix_below pre k post j :
  ladder = pre ++ k :: post -> In j pre -> ordinal j < ordinal k.
Proof.
  intros Hsplit Hj.
  destruct (ladder_split pre k post Hsplit) as [[-> ->]|[[-> ->]|[[-> ->]|[-> ->]]]];
    cbn in Hj; repeat destruct Hj as [Hj|Hj]; subst; cbn; try lia; tauto.
Qed.

Lemma ladder_prefix_sorted (p : NegotiationStrategy -> bool) pre k post :
  ladder = pre ++ k :: post ->
  StronglySorted (fun a b => ordinal a < ordinal b) (List.filter p pre ++ [k]).
Proof.
  intros Hsplit.
  destruct (ladder_split pre k post Hsplit) as [[-> ->]|[[-> ->]|[[-> ->]|[-> ->]]]];
    cbn [List.filter];
    destruct (p DURATION_ADJUSTMENT), (p TOD_SHIFTING), (p ALTERNATIVE_DAY);
    repeat constructor.
Qed.

(** C1, as the code has it. In a call in which no slot passes the strict
    filter the strategies are attempted in increasing order. A strategy is
    attempted only if its ordinal is strictly above previous_strategy, or if
    it is DURATION_ADJUSTMENT or TOD_SHIFTING and previous_strategy is
    ALTERNATIVE_DAY or above (the wrap condition); so a strategy whose ordinal
    is at most previous_strategy is skipped unless it is one of these two and
    the wrap condition holds. When the result comes from strategy k, k is the
    last strategy attempted, the result and the final state are those its
    call returned, and every lower strategy j was either attempted (and had
    nothing to offer) or has its guard false, in which case its ordinal is at
    most previous_strategy. When no strategy produces a result,
    every strategy whose guard holds was attempted. *)
Theorem ladder_attempts_in_order :
  forall utcoffset self available_slots participants min_score previous_strategy w init,
    heap w !! initial self = Some init ->
    Forall (fun ppr => validated (snd ppr)) (prefs_of participants) ->
    List.filter
      (fun s => _slot_respects_all utcoffset s (prefs_of participants)
                  (calendars_of participants)) available_slots = [] ->
    exists w' r new,
      negotiate_schedule utcoffset self available_slots participants min_score
        previous_strategy w = (w', Ok r)
      /\ steps w' = steps w ++ new
      /\ StronglySorted (fun a b => ordinal a < ordinal b) (strategies_tried new)
      /\ (forall s, In s (strategies_tried new) ->
            In s ladder
            /\ (ordinal previous_strategy < ordinal s
                \/ (wrap_condition previous_strategy = true
                    /\ (s = DURATION_ADJUSTMENT \/ s = TOD_SHIFTING))))
      /\ (forall k, strategy_choose r = k -> k <> NONE ->
            In k (strategies_tried new)
            /\ (exists w0,
                  strategy_call utcoffset self available_slots (prefs_of participants)
                    (calendars_of participants) k w0 = (w', Ok (Some r)))
            /\ (forall j, In j (strategies_tried new) -> ordinal j <= ordinal k)
            /\ (forall j, In j ladder -> ordinal j < ordinal k ->
                  (In j (strategies_tried new)
                   /\ offers utcoffset init available_slots (prefs_of participants)
                        (calendars_of participants) j = false)
                  \/ (attempts previous_strategy j = false
                      /\ ordinal j <= ordinal previous_strategy)))
      /\ (strategy_choose r = NONE ->
            r = impossible_result
            /\ forall j, In j ladder -> attempts previous_strategy j = true ->
                 In j (strategies_tried new)).
Proof.
  intros utcoffset self available_slots participants min_score previous_strategy w init
    Hinit Hvalid Hnone.
  rewrite (negotiate_without_survivor _ _ _ _ _ _ _ Hnone).
  destruct (climb_run utcoffset self init available_slots (prefs_of participants)
              (calendars_of participants) previous_strategy ladder
              ltac:(repeat constructor; cbn; tauto) Hvalid
              (mk_world (heap w)
                 (steps w ++ [ps_negotiate_schedule; ps_preference_processing;
                              ps_strict_filter; ps_iterative_negotiation]))
              Hinit)
    as (w' & r & new & Hrun & Hsteps & _ & Hres).
  exists w', r,
    ([ps_negotiate_schedule; ps_preference_processing; ps_strict_filter;
      ps_iterative_negotiation] ++ new).
  split; [exact Hrun|].
  split; [rewrite Hsteps; cbn [steps]; now rewrite <- app_assoc|].
  rewrite strategies_tried_app. cbn [strategies_tried announced app].
  assert (Hbelow_skipped : forall j, In j ladder -> attempts previous_strategy j = false ->
                                     ordinal j <= ordinal previous_strategy).
  { intros j Hj Hatt.
    destruct (Z.le_gt_cases (ordinal j) (ordinal previous_strategy)) as [|Hgt];
      [assumption|].
    assert (attempts previous_strategy j = true) by (apply attempts_spec; auto).
    congruence. }
  destruct (List.find _ ladder) as [k0|] eqn:Hfind.
  - destruct Hres as (Hk & _ & _ & Hcall & pre & post & Hsplit & Htried & Hpre).
    subst k0.
    apply find_some in Hfind. destruct Hfind as [Hk0 Hboth].
    apply andb_prop in Hboth. destruct Hboth as [Hatt0 _].
    rewrite Htried.
    split; [now apply ladder_prefix_sorted with post|].
    split.
    { intros s Hs. apply attempts_spec. apply in_app_or in Hs.
      destruct Hs as [Hs|[<-|[]]]; [|exact Hatt0].
      apply filter_In in Hs. tauto. }
    split.
    { intros k <- _.
      split; [apply in_or_app; right; now left|].
      split; [exact Hcall|].
      split.
      - intros j Hj. apply in_app_or in Hj. destruct Hj as [Hj|[<-|[]]]; [|lia].
        apply filter_In in Hj. destruct Hj as [Hj _].
        pose proof (ladder_prefix_below _ _ _ _ Hsplit Hj). lia.
      - intros j Hj Hlt.
        pose proof (ladder_below _ _ _ _ Hsplit Hj Hlt) as Hjpre.
        destruct (attempts previous_strategy j) eqn:Hattj.
        + left. split; [|now apply Hpre].
          apply in_or_app. left. apply filter_In. split; assumption.
        + right. split; [reflexivity|now apply Hbelow_skipped]. }
    intros Hnone'. rewrite Hnone' in Hk0. now apply ladder_no_none in Hk0.
  - destruct Hres as [-> Htried]. rewrite Htried.
    split; [apply filtered_ladder_sorted|].
    split.
    { intros s Hs. apply attempts_spec. apply filter_In in Hs. tauto. }
    split.
    { intros k Hk Hk'. cbn in Hk. congruence. }
    intros _. split; [reflexivity|].
    intros j Hj Hatt. apply filter_In. split; assumption.
Qed.

(** Alice prefers mornings and the only slot starts at 14:00, so nothing
    passes the strict filter; the previous round ended on TOD_SHIFTING. *)
Lemma ladder_attempts_in_order_witness :
  heap world0 !! initial agent0 = Some schedule0
  /\ Forall (fun ppr => validated (snd ppr)) (prefs_of (alone prefers_morning))
  /\ List.filter
       (fun s => _slot_respects_all 0 s (prefs_of (alone prefers_morning))
                   (calendars_of (alone prefers_morning)))
       [slot_at 14 0 60 0.7] = []
  /\ exists w' r new,
      negotiate_schedule 0 agent0 [slot_at 14 0 60 0.7] (alone prefers_morning) 0.6
        TOD_SHIFTING world0 = (w', Ok r)
      /\ StronglySorted (fun a b => ordinal a < ordinal b) (strategies_tried new).
Proof.
  split; [exact world0_initial|].
  split; [apply alone_validated, unset_validated; reflexivity|].
  split; [reflexivity|].
  destruct (ladder_attempts_in_order 0 agent0 [slot_at 14 0 60 0.7]
              (alone prefers_morning) 0.6 TOD_SHIFTING world0 schedule0
              world0_initial
              (alone_validated _ (unset_validated prefers_morning eq_refl eq_refl))
              eq_refl)
    as (w' & r & new & Hrun & _ & Hsorted & _).
  exists w', r, new. split; [exact Hrun|exact Hsorted].
Defined.

(** C1 as stated fails on that input. The slot passes the time-shift gate, and
    TOD_SHIFTING has an ordinal that is not below previous_strategy, so the
    stated rule does not skip it; the wrap condition does not hold. The call
    nevertheless leaves TOD_SHIFTING (and DURATION_ADJUSTMENT) out and returns
    the result of ALTERNATIVE_DAY. *)
Lemma ladder_skips_previous_strategy_itself :
  exists w' r,
    negotiate_schedule 0 agent0 [slot_at 14 0 60 0.7] (alone prefers_morning) 0.6
      TOD_SHIFTING world0 = (w', Ok r)
    /\ strategy_choose r = ALTERNATIVE_DAY
    /\ strategies_tried (steps w') = [ALTERNATIVE_DAY]
    /\ offers 0 schedule0 [slot_at 14 0 60 0.7] (prefs_of (alone prefers_morning))
         (calendars_of (alone prefers_morning)) TOD_SHIFTING = true
    /\ ordinal TOD_SHIFTING < ordinal ALTERNATIVE_DAY
    /\ ~ ordinal TOD_SHIFTING < ordinal TOD_SHIFTING
    /\ wrap_condition TOD_SHIFTING = false
    /\ ~ order_invariant_as_specified TOD_SHIFTING (strategies_tried (steps w'))
           (strategy_choose r).
Proof.
  do 2 eexists. split; [vm_compute; reflexivity|].
  cbn [strategy_choose steps strategies_tried announced].
  repeat split; try reflexivity; try (cbn; lia).
  intros Hinv.
  destruct (Hinv TOD_SHIFTING) as [Hlt|Hwrap].
  - unfold ladder. cbn. tauto.
  - cbn. lia.
  - cbn. intros [H|[]]. discriminate.
  - cbn in Hlt. lia.
  - discriminate.
Qed.

(** ** Copy on write *)

Lemma copied_into_fresh self w init new_sched steps' r :
  heap w !! initial self = Some init ->
  proposed_schedule r = Some (fresh (dom (heap w))) ->
  copied_on_write self w
    (mk_world (<[fresh (dom (heap w)) := new_sched]> (heap w)) steps') new_sched r.
Proof.
  intros Hinit Hr. exists (fresh (dom (heap w))). cbn [heap].
  split; [exact Hr|]. split; [now apply (fresh_is_new _ init)|].
  split; [apply fresh_unused|]. split; [apply lookup_insert_eq|].
  split.
  - apply lookup_insert_ne. now apply (fresh_is_new _ init).
  - intros l Hl. apply lookup_insert_ne. congruence.
Qed.

(** C9. Each of the four strategies, when it returns a result, has allocated
    a new schedule object for it and left every cell that existed before
    untouched, the initial schedule in particular. The new schedule carries
    the field values of the initial one except default_duration for the
    duration adjustment, schedule_day for the time-of-day shift (set to the
    start of the selected slot) and for the alternative day, and
    working_hours_start and working_hours_end for the relaxed hours. *)
Theorem strategies_copy_on_write :
  forall utcoffset self slots prefs calendars w init,
    heap w !! initial self = Some init ->
    (forall w' r,
        _strategy_duration_adjust self slots prefs w = (w', Ok (Some r)) ->
        exists new_sched,
          copied_on_write self w w' new_sched r
          /\ same_but_default_duration new_sched init)
    /\ (forall w' r,
          _strategy_time_shift self slots prefs w = (w', Ok (Some r)) ->
          exists new_sched best,
            copied_on_write self w w' new_sched r
            /\ same_but_schedule_day new_sched init
            /\ selected_slot r = Some best
            /\ schedule_day new_sched = start_time best)
    /\ (forall w' r,
          _strategy_alternative_day utcoffset self slots prefs calendars w
          = (w', Ok (Some r)) ->
          exists new_sched,
            copied_on_write self w w' new_sched r
            /\ same_but_schedule_day new_sched init)
    /\ (forall w' r,
          _strategy_relax_hours self slots prefs w = (w', Ok (Some r)) ->
          exists new_sched,
            copied_on_write self w w' new_sched r
            /\ same_but_working_hours new_sched init).
Proof.
  intros utcoffset self slots prefs calendars w init Hinit.
  repeat split.
  - intros w' r. rewrite (duration_adjust_run_any self slots prefs w init Hinit).
    destruct (map _ (List.filter _ prefs)) as [|c cs]; [discriminate|].
    cbv zeta. destruct (default_duration init <=? fold_left Z.min cs c); [discriminate|].
    destruct (List.filter _ slots) as [|x l]; [discriminate|].
    destruct (0 <? fold_left Z.min cs c); [|discriminate].
    destruct (sort_by_confidence _) as [|best rest]; [discriminate|].
    intros [= <- <-]. eexists. split.
    + now apply (copied_into_fresh self w init).
    + repeat split.
  - intros w' r. rewrite (time_shift_run self slots prefs w init Hinit).
    destruct (sort_by_confidence _) as [|best rest]; [discriminate|].
    intros [= <- <-]. exists (set_schedule_day (start_time best) init), best.
    split; [now apply (copied_into_fresh self w init)|]. repeat split.
  - intros w' r.
    rewrite (alternative_day_run utcoffset self slots prefs calendars w init Hinit).
    destruct (max_alternative_days init =? 0); [discriminate|].
    destruct (List.find _ _) as [day|]; [|discriminate].
    intros [= <- <-]. eexists. split.
    + now apply (copied_into_fresh self w init).
    + repeat split.
  - intros w' r. rewrite (relax_hours_run self slots prefs w init Hinit).
    destruct (sort_by_confidence _) as [|best rest]; [discriminate|].
    intros [= <- <-]. eexists. split.
    + now apply (copied_into_fresh self w init).
    + repeat split.
Qed.

(** The time-of-day shift on the afternoon slot of Alice, who prefers
    mornings: the initial schedule stays in its cell. *)
Lemma strategies_copy_on_write_witness :
  heap world0 !! initial agent0 = Some schedule0
  /\ exists w' r new_sched,
      _strategy_time_shift agent0 [slot_at 14 0 60 0.7] (prefs_of (alone prefers_morning))
        world0 = (w', Ok (Some r))
      /\ copied_on_write agent0 world0 w' new_sched r
      /\ same_but_schedule_day new_sched schedule0.
Proof.
  split; [exact world0_initial|].
  destruct (strategies_copy_on_write 0 agent0 [slot_at 14 0 60 0.7]
              (prefs_of (alone prefers_morning)) (calendars_of (alone prefers_morning))
              world0 schedule0 world0_initial)
    as (_ & Hshift & _).
  destruct (_strategy_time_shift agent0 [slot_at 14 0 60 0.7]
              (prefs_of (alone prefers_morning)) world0) as [w' res] eqn:Hrun.
  assert (Hres : exists r, res = Ok (Some r)).
  { vm_compute in Hrun. injection Hrun as _ <-. eexists. reflexivity. }
  destruct Hres as [r ->].
  destruct (Hshift w' r eq_refl) as (new_sched & best & Hcopy & Hsame & _).
  exists w', r, new_sched.
  split; [reflexivity|]. split; [exact Hcopy|exact Hsame].
Defined.

(** ** The time-of-day shift *)

(** What the strategy does guarantee: the selected slot is one of the input
    slots, passes the gate, has the greatest confidence among the slots that
    pass it, and the alternatives are at most two. *)
Lemma time_shift_selects_best self slots prefs w init w' r :
  heap w !! initial self = Some init ->
  _strategy_time_shift self slots prefs w = (w', Ok (Some r)) ->
  exists best,
    selected_slot r = Some best
    /\ In best slots
    /\ time_shift_ok prefs best = true
    /\ (forall s, In s slots -> time_shift_ok prefs s = true ->
                  (confidence s <= confidence best)%Q)
    /\ (List.length (alternative_suggestions r) <= 2)%nat.
Proof.
  intros Hinit. rewrite (time_shift_run self slots prefs w init Hinit).
  destruct (sort_by_confidence _) as [|best rest] eqn:Hsort; [discriminate|].
  intros [= <- <-]. exists best. cbn [selected_slot alternative_suggestions].
  destruct (sort_by_confidence_head _ _ _ Hsort) as [Hin Hmax].
  apply filter_In in Hin. destruct Hin as [Hin Hok].
  repeat split; try assumption.
  - intros s Hs Hoks. apply Hmax. apply filter_In. split; assumption.
  - apply firstn_2_length.
Qed.

(** C6 (code at the failing input). Alice accepts no meeting after 17:00 and
    the slot runs from 16:30 to 17:30, so it breaks her bound at its end time.
    The gate of the time-of-day shift lets it pass, because it reads the end
    time from the start time, and the strategy selects it; the strict filter
    and the gate of the relaxed-hours strategy, which read the end time,
    both reject it. In the same way a slot from 11:30 to 12:30 passes the gate
    for a participant who avoids lunch time, although the lunch test on its
    start and end times holds. *)
Theorem time_shift_gate_ignores_end_time :
  time_ltb (no_after not_after_17) (time_of (end_time (slot_at 16 30 60 0.7))) = true
  /\ time_shift_ok (prefs_of (alone not_after_17)) (slot_at 16 30 60 0.7) = true
  /\ relax_allowed (prefs_of (alone not_after_17)) (slot_at 16 30 60 0.7) = false
  /\ _slot_respects_all 0 (slot_at 16 30 60 0.7) (prefs_of (alone not_after_17))
       (calendars_of (alone not_after_17)) = false
  /\ (exists w' r,
         _strategy_time_shift agent0 [slot_at 16 30 60 0.7]
           (prefs_of (alone not_after_17)) world0 = (w', Ok (Some r))
         /\ selected_slot r = Some (slot_at 16 30 60 0.7))
  /\ lunch_test (time_of (start_time (slot_at 11 30 60 0.7)))
       (time_of (end_time (slot_at 11 30 60 0.7))) = true
  /\ time_shift_ok (prefs_of (alone avoids_lunch)) (slot_at 11 30 60 0.7) = true
  /\ relax_allowed (prefs_of (alone avoids_lunch)) (slot_at 11 30 60 0.7) = false.
Proof.
  repeat split; try reflexivity.
  do 2 eexists. split; [vm_compute; reflexivity|reflexivity].
Qed.

(** ** The fallback of the coordinator *)

Lemma counter_add_keys x c k :
  In k (map fst (counter_add x c)) -> k = x \/ In k (map fst c).
Proof.
  induction c as [|[y n] c IH]; cbn.
  - intros [<-|[]]. now left.
  - destruct (slot_eqb x y); cbn; [tauto|].
    intros [<-|H]; [tauto|]. destruct (IH H); tauto.
Qed.

Lemma counter_add_nonempty x c : counter_add x c <> [].
Proof. destruct c as [|[y n] c]; cbn; [|destruct (slot_eqb x y)]; discriminate. Qed.

Lemma counter_fold_keys l c k :
  In k (map fst (fold_left (fun c x => counter_add x c) l c)) ->
  In k l \/ In k (map fst c).
Proof.
  revert c. induction l as [|x l IH]; intros c; cbn; [tauto|].
  intros H. destruct (IH _ H) as [H'|H']; [tauto|].
  destruct (counter_add_keys _ _ _ H'); subst; tauto.
Qed.

Lemma counter_fold_nonempty l c :
  c <> [] -> fold_left (fun c x => counter_add x c) l c <> [].
Proof.
  revert c. induction l as [|x l IH]; intros c Hc; cbn; [exact Hc|].
  apply IH, counter_add_nonempty.
Qed.

Lemma max_by_count_in best c : In (max_by_count best c) (best :: c).
Proof.
  revert best. induction c as [|x c IH]; intros best; cbn [max_by_count In]; [tauto|].
  destruct (IH (if (snd best <? snd x)%nat then x else best)) as [H|H]; [|tauto].
  rewrite <- H. destruct (snd best <? snd x)%nat; tauto.
Qed.

(** The entry that [most_common(1)] returns is keyed by one of the
    suggestions. *)
Lemma most_common_1_in x l :
  exists modal count, most_common_1 (x :: l) = Ok (modal, count) /\ In modal (x :: l).
Proof.
  unfold most_common_1.
  destruct (Counter (x :: l)) as [|e c] eqn:Hc.
  - exfalso. revert Hc. unfold Counter. cbn [fold_left].
    apply counter_fold_nonempty, counter_add_nonempty.
  - pose proof (max_by_count_in e c) as Hin. rewrite <- Hc in Hin.
    destruct (max_by_count e c) as [modal count].
    exists modal, count. split; [reflexivity|].
    apply (in_map fst) in Hin. cbn [fst] in Hin.
    destruct (counter_fold_keys _ _ _ Hin) as [H|[]]. exact H.
Qed.

(** *** Equality of suggestions is an equivalence *)

Lemma list_eqb_refl {A} (eqb : A -> A -> bool) :
  (forall x, eqb x x = true) -> forall l, list_eqb eqb l l = true.
Proof.
  intros Hrefl l. induction l as [|x l IH]; [reflexivity|].
  cbn. now rewrite Hrefl, IH.
Qed.

Lemma list_eqb_sym {A} (eqb : A -> A -> bool) :
  (forall x y, eqb x y = eqb y x) ->
  forall l1 l2, list_eqb eqb l1 l2 = list_eqb eqb l2 l1.
Proof.
  intros Hsym l1. induction l1 as [|x l1 IH]; intros [|y l2]; try reflexivity.
  cbn. now rewrite Hsym, IH.
Qed.

Lemma list_eqb_trans {A} (eqb : A -> A -> bool) :
  (forall x y z, eqb x y = true -> eqb y z = true -> eqb x z = true) ->
  forall l1 l2 l3,
    list_eqb eqb l1 l2 = true -> list_eqb eqb l2 l3 = true -> list_eqb eqb l1 l3 = true.
Proof.
  intros Htrans l1. induction l1 as [|x l1 IH]; intros [|y l2] [|z l3]; cbn;
    try discriminate; try reflexivity.
  intros H12 H23. apply andb_prop in H12. apply andb_prop in H23.
  destruct H12 as [Hxy H12], H23 as [Hyz H23].
  apply andb_true_intro. split; [now apply Htrans with y|now apply IH with l2].
Qed.

Lemma note_eqb_refl x : (if Note_eq_dec x x then true else false) = true.
Proof. destruct (Note_eq_dec x x); congruence. Qed.

Lemma note_eqb_sym x y :
  (if Note_eq_dec x y then true else false) = (if Note_eq_dec y x then true else false).
Proof. destruct (Note_eq_dec x y), (Note_eq_dec y x); congruence. Qed.

Lemma note_eqb_trans x y z :
  (if Note_eq_dec x y then true else false) = true ->
  (if Note_eq_dec y z then true else false) = true ->
  (if Note_eq_dec x z then true else false) = true.
Proof.
  destruct (Note_eq_dec x y), (Note_eq_dec y z), (Note_eq_dec x z); congruence.
Qed.

Lemma string_eqb_trans x y z :
  String.eqb x y = true -> String.eqb y z = true -> String.eqb x z = true.
Proof. rewrite !String.eqb_eq. congruence. Qed.

Lemma Z_eqb_trans x y z : (x =? y) = true -> (y =? z) = true -> (x =? z) = true.
Proof. rewrite !Z.eqb_eq. congruence. Qed.

Lemma notes_entry_eqb_refl e : notes_entry_eqb e e = true.
Proof.
  unfold notes_entry_eqb. rewrite String.eqb_refl.
  now rewrite (list_eqb_refl _ note_eqb_refl).
Qed.

Lemma notes_entry_eqb_sym a b : notes_entry_eqb a b = notes_entry_eqb b a.
Proof.
  unfold notes_entry_eqb. rewrite String.eqb_sym.
  now rewrite (list_eqb_sym _ note_eqb_sym).
Qed.

Lemma notes_entry_eqb_trans a b c :
  notes_entry_eqb a b = true -> notes_entry_eqb b c = true -> notes_entry_eqb a c = true.
Proof.
  unfold notes_entry_eqb. intros H1 H2.
  apply andb_prop in H1. apply andb_prop in H2.
  destruct H1 as [H1 H1'], H2 as [H2 H2'].
  apply andb_true_intro. split.
  - now apply string_eqb_trans with (fst b).
  - now apply (list_eqb_trans _ note_eqb_trans) with (snd b).
Qed.

Lemma slot_eqb_refl a : slot_eqb a a = true.
Proof.
  unfold slot_eqb.
  rewrite !Z.eqb_refl, !Qeq_bool_refl, !String.eqb_refl.
  rewrite (list_eqb_refl _ String.eqb_refl), (list_eqb_refl _ Qeq_bool_refl),
    (list_eqb_refl _ notes_entry_eqb_refl).
  reflexivity.
Qed.

Lemma slot_eqb_sym a b : slot_eqb a b = slot_eqb b a.
Proof.
  unfold slot_eqb.
  rewrite (Z.eqb_sym (start_time a)), (Z.eqb_sym (end_time a)),
    (Z.eqb_sym (duration_minutes a)), (Z.eqb_sym (day_of_week a)),
    (Qeq_bool_comm (confidence a)), (Qeq_bool_comm (score a)),
    (String.eqb_sym (notes a)),
    (list_eqb_sym _ String.eqb_sym (participants a)),
    (list_eqb_sym _ Qeq_bool_comm (participant_scores a)),
    (list_eqb_sym _ notes_entry_eqb_sym (participant_notes a)).
  reflexivity.
Qed.

Lemma names_eqb_trans (a b c : list string) :
  list_eqb String.eqb a b = true -> list_eqb String.eqb b c = true ->
  list_eqb String.eqb a c = true.
Proof. apply list_eqb_trans, string_eqb_trans. Qed.

Lemma scores_eqb_trans (a b c : list Q) :
  list_eqb Qeq_bool a b = true -> list_eqb Qeq_bool b c = true ->
  list_eqb Qeq_bool a c = true.
Proof. apply list_eqb_trans, Qeq_bool_trans. Qed.

Lemma notes_eqb_trans (a b c : list (string * list Note)) :
  list_eqb notes_entry_eqb a b = true -> list_eqb notes_entry_eqb b c = true ->
  list_eqb notes_entry_eqb a c = true.
Proof. apply list_eqb_trans, notes_entry_eqb_trans. Qed.

Lemma slot_eqb_trans a b c :
  slot_eqb a b = true -> slot_eqb b c = true -> slot_eqb a c = true.
Proof.
  unfold slot_eqb. intros H1 H2.
  repeat (apply andb_prop in H1; destruct H1 as [H1 ?]).
  repeat (apply andb_prop in H2; destruct H2 as [H2 ?]).
  repeat (apply andb_true_intro; split);
    eauto using Z_eqb_trans, Qeq_bool_trans, string_eqb_trans, names_eqb_trans,
      scores_eqb_trans, notes_eqb_trans.
Qed.

(** Equivalent suggestions are equivalent to the same suggestions. *)
Lemma slot_eqb_congr a b s : slot_eqb a b = true -> slot_eqb s a = slot_eqb s b.
Proof.
  intros Hab. destruct (slot_eqb s a) eqn:Ha, (slot_eqb s b) eqn:Hb; try reflexivity.
  - rewrite (slot_eqb_trans s a b Ha Hab) in Hb. discriminate.
  - rewrite slot_eqb_sym in Hab. rewrite (slot_eqb_trans s b a Hb Hab) in Ha. discriminate.
Qed.

(** *** The counter counts occurrences *)

Lemma lookup_count_add x c s :
  lookup_count (counter_add x c) s
  = if slot_eqb s x then S (lookup_count c s) else lookup_count c s.
Proof.
  induction c as [|[y n] c IH]; cbn [counter_add lookup_count].
  - destruct (slot_eqb s x); reflexivity.
  - destruct (slot_eqb x y) eqn:Hxy; cbn [lookup_count].
    + rewrite (slot_eqb_congr x y s Hxy). destruct (slot_eqb s y); reflexivity.
    + rewrite IH. destruct (slot_eqb s y) eqn:Hsy; [|reflexivity].
      destruct (slot_eqb s x) eqn:Hsx; [|reflexivity].
      rewrite slot_eqb_sym in Hsx. rewrite (slot_eqb_trans x s y Hsx Hsy) in Hxy.
      discriminate.
Qed.

Lemma lookup_count_fold l c s :
  lookup_count (fold_left (fun c x => counter_add x c) l c) s
  = (lookup_count c s + occurrences s l)%nat.
Proof.
  revert c. induction l as [|x l IH]; intros c; cbn [fold_left].
  - unfold occurrences. cbn. lia.
  - rewrite IH, lookup_count_add. unfold occurrences. cbn [List.filter].
    destruct (slot_eqb s x); cbn [List.length]; lia.
Qed.

Lemma lookup_count_Counter l s : lookup_count (Counter l) s = occurrences s l.
Proof. unfold Counter. now rewrite lookup_count_fold. Qed.

(** A stored count is zero or the count of some entry. *)
Lemma lookup_count_entry c s :
  lookup_count c s = 0%nat \/ exists k, In (k, lookup_count c s) c.
Proof.
  induction c as [|[y n] c IH]; cbn [lookup_count]; [now left|].
  destruct (slot_eqb s y).
  - right. exists y. now left.
  - destruct IH as [IH|[k IH]]; [now left|]. right. exists k. now right.
Qed.

Lemma counter_add_distinct x c : distinct_keys c -> distinct_keys (counter_add x c).
Proof.
  induction c as [|[y n] c IH]; cbn [counter_add distinct_keys].
  - intros _. split; [intros e []|exact I].
  - intros [Hy Hc]. destruct (slot_eqb x y) eqn:Hxy; cbn [distinct_keys].
    + split; assumption.
    + split; [|now apply IH].
      intros e He. apply (in_map fst) in He.
      destruct (counter_add_keys _ _ _ He) as [->|Hk].
      * exact Hxy.
      * apply in_map_iff in Hk. destruct Hk as (e' & <- & He'). now apply Hy.
Qed.

Lemma counter_fold_distinct l c :
  distinct_keys c -> distinct_keys (fold_left (fun c x => counter_add x c) l c).
Proof.
  revert c. induction l as [|x l IH]; intros c Hc; cbn [fold_left]; [exact Hc|].
  apply IH, counter_add_distinct, Hc.
Qed.

(** In a counter with pairwise different keys every entry holds the count
    stored for its key. *)
Lemma lookup_count_own c k n :
  distinct_keys c -> In (k, n) c -> lookup_count c k = n.
Proof.
  induction c as [|[y m] c IH]; cbn [distinct_keys lookup_count]; [intros _ []|].
  intros [Hy Hc] [[= -> ->]|Hin].
  - now rewrite slot_eqb_refl.
  - pose proof (Hy (k, n) Hin) as Hk. cbn [fst] in Hk. rewrite Hk. now apply IH.
Qed.

(** The greatest count is at least every count. *)
Lemma max_by_count_ge best c e :
  In e (best :: c) -> (snd e <= snd (max_by_count best c))%nat.
Proof.
  revert best e. induction c as [|x c IH]; intros best e; cbn [max_by_count].
  - intros [<-|[]]. lia.
  - intros Hin.
    pose proof (IH (if (snd best <? snd x)%nat then x else best) _
                  (or_introl eq_refl)) as Hnext.
    destruct Hin as [<-|[<-|Hin]].
    + destruct (Nat.ltb_spec (snd best) (snd x)); lia.
    + destruct (Nat.ltb_spec (snd best) (snd x)); lia.
    + apply IH. now right.
Qed.

(** The entry that [most_common(1)] returns is keyed by one of the
    suggestions, holds the number of its occurrences, and no suggestion
    occurs more often. *)
Lemma most_common_1_modal x l :
  exists modal count,
    most_common_1 (x :: l) = Ok (modal, count)
    /\ In modal (x :: l)
    /\ count = occurrences modal (x :: l)
    /\ forall s, In s (x :: l) -> (occurrences s (x :: l) <= count)%nat.
Proof.
  destruct (most_common_1_in x l) as (modal & count & Hmc & Hin).
  exists modal, count. split; [exact Hmc|]. split; [exact Hin|].
  unfold most_common_1 in Hmc.
  destruct (Counter (x :: l)) as [|e c] eqn:Hc; [discriminate|].
  injection Hmc as Hmax.
  assert (Hdistinct : distinct_keys (e :: c)).
  { rewrite <- Hc. unfold Counter. apply counter_fold_distinct. exact I. }
  assert (Hentry : In (modal, count) (e :: c))
    by (rewrite <- Hmax; apply max_by_count_in).
  split.
  - rewrite <- lookup_count_Counter, Hc. symmetry.
    now apply lookup_count_own.
  - intros s Hs. rewrite <- lookup_count_Counter, Hc.
    destruct (lookup_count_entry (e :: c) s) as [->|[k Hk]]; [lia|].
    pose proof (max_by_count_ge e c _ Hk) as Hle. rewrite Hmax in Hle. exact Hle.
Qed.

(** C5, as the code has it. Among the suggestions collected over the rounds
    the fallback computes the most common one (none occurs more often) and the
    one of highest confidence, and takes the most common one only if its
    confidence is strictly greater than the highest confidence. That never happens, so the
    fallback is the suggestion of highest confidence, the first such in the
    order of suggestion: every suggestion collected before it has a strictly
    smaller confidence. In the scenario with X suggested twice at 0.55 and Y
    once at 0.9 the most common one is X and Y is selected. *)
Theorem fallback_selects_highest_confidence :
  (forall x l,
      exists modal count highest,
        most_common_1 (x :: l) = Ok (modal, count)
        /\ count = occurrences modal (x :: l)
        /\ (forall s, In s (x :: l) -> (occurrences s (x :: l) <= count)%nat)
        /\ highest_confidence_of (x :: l) = Ok highest
        /\ In modal (x :: l)
        /\ In highest (x :: l)
        /\ (forall s, In s (x :: l) -> (confidence s <= confidence highest)%Q)
        /\ (exists earlier later,
               x :: l = earlier ++ highest :: later
               /\ Forall (fun s => (confidence s < confidence highest)%Q) earlier)
        /\ fallback_selection (x :: l)
           = Ok (Some (if Qlt_bool (confidence highest) (confidence modal)
                       then modal else highest))
        /\ Qlt_bool (confidence highest) (confidence modal) = false
        /\ fallback_selection (x :: l) = Ok (Some highest)
        /\ final_slot false None (x :: l) = Ok (Some highest))
  /\ fallback_selection [] = Ok None
  /\ suggestions_of three_rounds = [slot_x; slot_y; slot_x]
  /\ most_common_1 (suggestions_of three_rounds) = Ok (slot_x, 2%nat)
  /\ highest_confidence_of (suggestions_of three_rounds) = Ok slot_y
  /\ fallback_selection (suggestions_of three_rounds) = Ok (Some slot_y).
Proof.
  split; [|repeat split; reflexivity].
  intros x l.
  destruct (most_common_1_modal x l) as (modal & count & Hmodal & Hin & Hcount & Hmost).
  destruct (sort_match_nonempty (x :: l) eq_refl) as (highest & rest & Hsort).
  destruct (sort_by_confidence_head _ _ _ Hsort) as [Hhin Hmax].
  assert (Hnever : Qlt_bool (confidence highest) (confidence modal) = false)
    by (apply Qlt_bool_false, Hmax, Hin).
  assert (Hhigh : highest_confidence_of (x :: l) = Ok highest)
    by (unfold highest_confidence_of; now rewrite Hsort).
  assert (Hfall : fallback_selection (x :: l)
                  = Ok (Some (if Qlt_bool (confidence highest) (confidence modal)
                              then modal else highest))).
  { unfold fallback_selection. cbn [nonempty]. now rewrite Hmodal, Hhigh. }
  exists modal, count, highest. repeat split; try assumption.
  - exact (sort_by_confidence_first _ _ _ Hsort).
  - now rewrite Hfall, Hnever.
  - unfold final_slot. cbn [negb]. now rewrite Hfall, Hnever.
Qed.

(** C5 as stated fails on its own scenario: X is the most common suggestion
    and its confidence, 0.55, does not exceed the highest confidence, 0.9, so
    the stated rule takes X; the code takes Y. The most common suggestion is
    not taken at equal confidence either: with A once and B twice, all at 0.9,
    B is the most common one and the code takes A, the first of the
    suggestions of highest confidence. *)
Lemma fallback_is_not_the_modal_suggestion :
  (most_common_1 (suggestions_of three_rounds) = Ok (slot_x, 2%nat)
   /\ highest_confidence_of (suggestions_of three_rounds) = Ok slot_y
   /\ Qle_bool (confidence slot_x) (confidence slot_y) = true
   /\ fallback_as_specified (suggestions_of three_rounds) = Ok (Some slot_x)
   /\ fallback_selection (suggestions_of three_rounds) = Ok (Some slot_y)
   /\ fallback_selection (suggestions_of three_rounds)
      <> fallback_as_specified (suggestions_of three_rounds))
  /\ (most_common_1 [slot_a; slot_b; slot_b] = Ok (slot_b, 2%nat)
      /\ Qeq_bool (confidence slot_a) (confidence slot_b) = true
      /\ slot_eqb slot_a slot_b = false
      /\ fallback_selection [slot_a; slot_b; slot_b] = Ok (Some slot_a)).
Proof.
  split; repeat split; try reflexivity.
  vm_compute. discriminate.
Qed.

(** ** Soft scoring against the strict filter *)













(** * Further properties of the analyst *)

(** ** The candidate generator, in closed form *)

Lemma back_to_back_succ start step k :
  back_to_back start step (S k)
  = (start, start + step) :: back_to_back (start + step) step k.
Proof.
  unfold back_to_back. cbn [seq map]. rewrite <- seq_shift, map_map.
  f_equal; [cbn [Z.of_nat]; f_equal; lia|].
  apply map_ext. intros i. f_equal; lia.
Qed.

Lemma back_to_back_length start step k : List.length (back_to_back start step k) = k.
Proof. unfold back_to_back. now rewrite length_map, length_seq. Qed.

(** More loop tests never change a list that was returned. *)
Lemma gen_run_more_fuel self end_date duration fuel extra :
  forall s result,
    gen_run self end_date duration fuel s = Some result ->
    gen_run self end_date duration (fuel + extra) s = Some result.
Proof.
  induction fuel as [|fuel IH]; intros s result Hrun; [discriminate|].
  simpl in *. destruct (gen_step self end_date duration s); [auto|exact Hrun].
Qed.

(** [n] passes of the inner loop, each of which finds room for the meeting. *)
Lemma gen_inner_passes self end_date duration n :
  forall cur acc fuel,
    (forall i, (i < n)%nat ->
               cur + Z.of_nat i * min_slot_duration self + duration <= end_date) ->
    gen_run self end_date duration (n + fuel) (mk_gen AtInner cur acc)
    = gen_run self end_date duration fuel
        (mk_gen AtInner (cur + Z.of_nat n * min_slot_duration self)
           (acc ++ back_to_back cur (min_slot_duration self) n)).
Proof.
  induction n as [|n IH]; intros cur acc fuel Hroom.
  - cbn [Nat.add]. unfold back_to_back. cbn [seq map Z.of_nat].
    rewrite app_nil_r. do 2 f_equal. lia.
  - assert (Hstep : gen_step self end_date duration (mk_gen AtInner cur acc)
                    = inl (mk_gen AtInner (cur + min_slot_duration self)
                             (acc ++ [(cur, cur + min_slot_duration self)]))).
    { unfold gen_step, plus_minutes. cbn [pc current_time slots].
      specialize (Hroom 0%nat ltac:(lia)). cbn [Z.of_nat] in Hroom.
      destruct (Z.leb_spec (cur + duration) end_date); [reflexivity|lia]. }
    cbn [Nat.add]. rewrite (gen_run_unfold _ _ _ _ _ _ Hstep).
    rewrite IH.
    + rewrite back_to_back_succ, <- app_assoc. cbn [app].
      replace (cur + min_slot_duration self + Z.of_nat n * min_slot_duration self)
        with (cur + Z.of_nat (S n) * min_slot_duration self) by lia.
      reflexivity.
    + intros i Hi. specialize (Hroom (S i) ltac:(lia)). lia.
Qed.

(** The inner loop appends [inner_passes] candidates: there is room for the
    meeting before each of them, and none after the last. *)
Lemma inner_passes_spec start_date end_date duration step :
  0 < step ->
  let k := inner_passes start_date end_date duration step in
  (forall i, (i < k)%nat -> start_date + Z.of_nat i * step + duration <= end_date)
  /\ end_date < start_date + Z.of_nat k * step + duration.
Proof.
  intros Hstep k. subst k. unfold inner_passes.
  destruct (Z.leb_spec (start_date + duration) end_date) as [Hfit|Hfit].
  - set (a := end_date - start_date - duration).
    assert (Ha : 0 <= a) by (subst a; lia).
    pose proof (Z.div_pos a step Ha Hstep) as Hq.
    pose proof (Z.mul_div_le a step Hstep) as Hlo.
    pose proof (Z.mul_succ_div_gt a step Hstep) as Hhi.
    rewrite Z2Nat.id by lia. split.
    + intros i Hi. assert (Z.of_nat i <= a / step) by lia. subst a. nia.
    + subst a. nia.
  - split; [intros i Hi; lia|cbn [Z.of_nat]; lia].
Qed.

(** After the first test of the outer loop and the passes of the inner loop
    the generator stands at the inner test, at a time from which the meeting
    no longer fits. *)
Lemma generator_head self start_date end_date duration :
  0 < min_slot_duration self ->
  start_date < end_date ->
  weekday start_date < 5 ->
  let k := inner_passes start_date end_date duration (min_slot_duration self) in
  let stop := start_date + Z.of_nat k * min_slot_duration self in
  (forall fuel,
      _generate_time_slots self start_date end_date duration (S (k + fuel))
      = gen_run self end_date duration fuel
          (mk_gen AtInner stop (back_to_back start_date (min_slot_duration self) k)))
  /\ end_date < plus_minutes stop duration.
Proof.
  intros Hstep Hlt Hwd k stop.
  destruct (inner_passes_spec start_date end_date duration _ Hstep) as [Hroom Hfull].
  fold k in Hroom, Hfull. fold stop in Hfull.
  assert (Houter : gen_step self end_date duration (mk_gen AtOuter start_date [])
                   = inl (mk_gen AtInner start_date [])).
  { unfold gen_step. cbn [pc current_time slots].
    destruct (Z.ltb_spec start_date end_date); [|lia].
    destruct (Z.ltb_spec (weekday start_date) 5); [reflexivity|lia]. }
  split; [|exact Hfull].
  intros fuel. unfold _generate_time_slots.
  rewrite (gen_run_unfold _ _ _ _ _ _ Houter).
  now rewrite (gen_inner_passes _ _ _ _ _ _ _ Hroom).
Qed.

Lemma generator_hangs self start_date end_date duration :
  0 < min_slot_duration self ->
  start_date < end_date ->
  weekday start_date < 5 ->
  let k := inner_passes start_date end_date duration (min_slot_duration self) in
  let stop := start_date + Z.of_nat k * min_slot_duration self in
  stop < end_date -> weekday stop < 5 ->
  forall fuel, _generate_time_slots self start_date end_date duration fuel = None.
Proof.
  intros Hstep Hlt Hwd k stop Hbefore Hweek fuel.
  destruct (generator_head self start_date end_date duration Hstep Hlt Hwd)
    as [Hhead Hfull]. fold k in Hhead, Hfull. fold stop in Hhead, Hfull.
  destruct (_generate_time_slots self start_date end_date duration fuel)
    as [result|] eqn:Hrun; [|reflexivity].
  unfold _generate_time_slots in Hrun, Hhead.
  apply (gen_run_more_fuel _ _ _ _ (S k)) in Hrun.
  replace (fuel + S k)%nat with (S (k + fuel)) in Hrun by lia.
  rewrite Hhead in Hrun.
  destruct (gen_run_stuck self end_date duration stop
              (back_to_back start_date (min_slot_duration self) k)
              Hbefore Hweek Hfull fuel) as [_ Hstuck].
  rewrite Hstuck in Hrun. discriminate.
Qed.

Lemma generator_returns self start_date end_date duration :
  0 < min_slot_duration self ->
  start_date < end_date ->
  weekday start_date < 5 ->
  let k := inner_passes start_date end_date duration (min_slot_duration self) in
  end_date <= start_date + Z.of_nat k * min_slot_duration self ->
  _generate_time_slots self start_date end_date duration (k + 3)
  = Some (back_to_back start_date (min_slot_duration self) k).
Proof.
  intros Hstep Hlt Hwd k Hstop.
  destruct (generator_head self start_date end_date duration Hstep Hlt Hwd)
    as [Hhead Hfull]. fold k in Hhead, Hfull.
  replace (k + 3)%nat with (S (k + 2)) by lia. rewrite Hhead.
  cbn [gen_run]. unfold gen_step at 1. cbn [pc current_time slots].
  destruct (Z.leb_spec
              (plus_minutes (start_date + Z.of_nat k * min_slot_duration self) duration)
              end_date); [lia|].
  unfold gen_step. cbn [pc current_time slots].
  destruct (Z.ltb_spec (start_date + Z.of_nat k * min_slot_duration self) end_date);
    [lia|reflexivity].
Qed.

(** X1. With a positive step, a range that begins on a weekday before its end
    has exactly two fates. The inner loop appends [inner_passes] candidates
    back to back; if the time it stops at has reached [end_date], or lies on
    a weekend, that list is returned; otherwise the loops never leave. *)
Theorem generator_returns_or_hangs :
  forall self start_date end_date duration,
    0 < min_slot_duration self ->
    start_date < end_date ->
    weekday start_date < 5 ->
    let k := inner_passes start_date end_date duration (min_slot_duration self) in
    let stop := start_date + Z.of_nat k * min_slot_duration self in
    (end_date <= stop \/ 5 <= weekday stop ->
       _generate_time_slots self start_date end_date duration (k + 3)
       = Some (back_to_back start_date (min_slot_duration self) k))
    /\ (stop < end_date -> weekday stop < 5 ->
        ~ generate_terminates self start_date end_date duration).
Proof.
  intros self start_date end_date duration Hstep Hlt Hwd k stop.
  destruct (generator_head self start_date end_date duration Hstep Hlt Hwd)
    as [Hhead Hfull]. fold k in Hhead, Hfull. fold stop in Hhead, Hfull.
  split.
  - intros Hstop. replace (k + 3)%nat with (S (k + 2)) by lia. rewrite Hhead.
    cbn [gen_run]. unfold gen_step at 1. cbn [pc current_time slots].
    destruct (Z.leb_spec (plus_minutes stop duration) end_date); [lia|].
    unfold gen_step. cbn [pc current_time slots].
    destruct (Z.ltb_spec stop end_date); [|reflexivity].
    destruct (Z.ltb_spec (weekday stop) 5); [lia|reflexivity].
  - intros Hbefore Hweek (fuel & result & Hrun).
    rewrite (generator_hangs self start_date end_date duration Hstep Hlt Hwd
               Hbefore Hweek fuel) in Hrun.
    discriminate.
Qed.

(** The default agent on Monday 2025-01-06 from 09:00 to 17:00 with 30-minute
    meetings: sixteen candidates. *)
Lemma generator_returns_or_hangs_witness :
  0 < min_slot_duration default_agent
  /\ at_ monday_2025_01_06 9 0 < at_ monday_2025_01_06 17 0
  /\ weekday (at_ monday_2025_01_06 9 0) < 5
  /\ _generate_time_slots default_agent
       (at_ monday_2025_01_06 9 0) (at_ monday_2025_01_06 17 0) 30 19
     = Some (back_to_back (at_ monday_2025_01_06 9 0) 30 16).
Proof.
  assert (H1 : 0 < min_slot_duration default_agent) by (vm_compute; reflexivity).
  assert (H2 : at_ monday_2025_01_06 9 0 < at_ monday_2025_01_06 17 0)
    by (vm_compute; reflexivity).
  assert (H3 : weekday (at_ monday_2025_01_06 9 0) < 5) by (vm_compute; reflexivity).
  split; [exact H1|]. split; [exact H2|]. split; [exact H3|].
  destruct (generator_returns_or_hangs default_agent
              (at_ monday_2025_01_06 9 0) (at_ monday_2025_01_06 17 0) 30 H1 H2 H3)
    as [Hret _].
  apply Hret. left. vm_compute. discriminate.
Defined.

(** ** The conflict filter on combined calendars *)

Lemma no_conflict_app slot (a b : DataFrame) :
  df_empty (List.filter (conflicts_with slot) (a ++ b))
  = df_empty (List.filter (conflicts_with slot) a)
    && df_empty (List.filter (conflicts_with slot) b).
Proof.
  rewrite List.filter_app.
  destruct (List.filter (conflicts_with slot) a); reflexivity.
Qed.

Lemma filter_available_app potential_slots (a b : DataFrame) :
  _filter_available_slots potential_slots (a ++ b)
  = _filter_available_slots (_filter_available_slots potential_slots a) b.
Proof.
  rewrite !filter_available_as_filter.
  induction potential_slots as [|x l IH]; [reflexivity|].
  cbn [List.filter]. rewrite no_conflict_app.
  destruct (df_empty (List.filter (conflicts_with x) a)); cbn [andb List.filter];
    [destruct (df_empty (List.filter (conflicts_with x) b))|]; now rewrite IH.
Qed.

(** X2. Filtering the candidates against the calendars of all participants
    put together, as [find_free_slots] does, gives what filtering against
    one calendar after the other gives; and the order in which two groups of
    calendars are put together makes no difference. *)
Theorem filter_combined_calendars :
  forall (potential_slots : list (datetime * datetime)) (calendars : list DataFrame),
    _filter_available_slots potential_slots (List.concat calendars)
    = fold_left _filter_available_slots calendars potential_slots
    /\ forall more,
        _filter_available_slots potential_slots (List.concat (calendars ++ more))
        = _filter_available_slots potential_slots (List.concat (more ++ calendars)).
Proof.
  intros potential_slots calendars. split.
  - revert potential_slots.
    induction calendars as [|df dfs IH]; intros potential_slots; [reflexivity|].
    cbn [List.concat fold_left]. now rewrite filter_available_app, IH.
  - intros more. rewrite !concat_app, !filter_available_as_filter.
    apply filter_ext. intros slot. rewrite !no_conflict_app. apply andb_comm.
Qed.

(** ** The range of the participant score *)

Lemma clamp01_range x : (0 <= clamp01 x <= 1)%Q.
Proof.
  unfold clamp01.
  destruct (Qlt_bool 1 x) eqn:H1; cbn zeta.
  - destruct (Qlt_bool 1 0) eqn:H0; [apply Qlt_bool_true in H0|]; lra.
  - apply Qlt_bool_false in H1.
    destruct (Qlt_bool x 0) eqn:H0; [lra|]. apply Qlt_bool_false in H0. lra.
Qed.

Lemma clamp01_le x c : (0 <= c)%Q -> (x <= c)%Q -> (clamp01 x <= c)%Q.
Proof.
  intros Hc Hx. unfold clamp01.
  destruct (Qlt_bool 1 x) eqn:H1; cbn zeta.
  - apply Qlt_bool_true in H1. destruct (Qlt_bool 1 0); lra.
  - destruct (Qlt_bool x 0); lra.
Qed.

(** Splits on every test of a rule and leaves the arithmetic to [lra]. *)
Ltac bound_rule :=
  repeat match goal with
         | |- context [if ?c then _ else _] => destruct c eqn:?
         end;
  cbn [fst snd] in *; try lra.

Lemma before_rule_upper who prefs slot_start st :
  (fst (rule_no_meetings_before who prefs slot_start st) <= fst st)%Q.
Proof. destruct st as [score notes]. unfold rule_no_meetings_before. bound_rule. Qed.

Lemma after_rule_upper who prefs slot_end st :
  (fst (rule_no_meetings_after who prefs slot_end st) <= fst st)%Q.
Proof. destruct st as [score notes]. unfold rule_no_meetings_after. bound_rule. Qed.

(** The morning and the afternoon bonus exclude each other: the start hour is
    below 12 for the one and at least 13 for the other. *)
Lemma time_of_day_rules_upper who prefs slot_start st :
  (fst (rule_prefer_afternoon who prefs slot_start
          (rule_prefer_morning who prefs slot_start st)) <= fst st + 0.2)%Q.
Proof.
  destruct st as [score notes]. unfold rule_prefer_afternoon, rule_prefer_morning.
  destruct (truthy_bool (prefer_morning prefs));
    destruct (truthy_bool (prefer_afternoon prefs));
    destruct (Z.leb_spec 6 (hour slot_start)); destruct (Z.ltb_spec (hour slot_start) 12);
    destruct (Z.leb_spec 13 (hour slot_start)); destruct (Z.ltb_spec (hour slot_start) 18);
    cbn [andb fst snd]; try lra; lia.
Qed.

Lemma lunch_rule_upper who prefs slot_start slot_end st :
  (fst (rule_avoid_lunch who prefs slot_start slot_end st) <= fst st)%Q.
Proof. destruct st as [score notes]. unfold rule_avoid_lunch. bound_rule. Qed.

Lemma duration_rule_upper who prefs duration st :
  (fst (rule_preferred_duration who prefs duration st) <= fst st + 0.1)%Q.
Proof. destruct st as [score notes]. unfold rule_preferred_duration. bound_rule. Qed.

Lemma calendar_rule_upper who prefs cal slot_start slot_end st :
  (fst (rule_calendar who prefs cal slot_start slot_end st) <= fst st)%Q.
Proof. destruct st as [score notes]. unfold rule_calendar. bound_rule. Qed.

Lemma assessment_rule_score slot_start st :
  fst (rule_time_assessment slot_start st) = fst st.
Proof. destruct st as [score notes]. unfold rule_time_assessment. bound_rule; reflexivity. Qed.

Lemma participant_score_range slot_start slot_end duration who pdata :
  (0 <= fst (_calculate_slot_score_with_notes slot_start slot_end duration who pdata)
   <= 0.8)%Q.
Proof.
  unfold _calculate_slot_score_with_notes. cbv zeta.
  set (st0 := (0.5%Q, @nil Note)).
  set (st1 := rule_no_meetings_after who (preferences pdata) slot_end
                (rule_no_meetings_before who (preferences pdata) slot_start st0)).
  set (st2 := rule_prefer_afternoon who (preferences pdata) slot_start
                (rule_prefer_morning who (preferences pdata) slot_start st1)).
  set (st3 := rule_avoid_lunch who (preferences pdata) slot_start slot_end st2).
  set (st4 := rule_preferred_duration who (preferences pdata) duration st3).
  set (st5 := rule_calendar who (preferences pdata) (calendar pdata) slot_start slot_end st4).
  set (st6 := rule_time_assessment slot_start st5).
  assert (H1 : (fst st1 <= 0.5)%Q).
  { subst st1. eapply Qle_trans; [apply after_rule_upper|].
    eapply Qle_trans; [apply before_rule_upper|]. subst st0. cbn [fst]. lra. }
  assert (H2 : (fst st2 <= 0.7)%Q).
  { subst st2. eapply Qle_trans; [apply time_of_day_rules_upper|]. lra. }
  assert (H3 : (fst st3 <= 0.7)%Q).
  { subst st3. eapply Qle_trans; [apply lunch_rule_upper|]. exact H2. }
  assert (H4 : (fst st4 <= 0.8)%Q).
  { subst st4. eapply Qle_trans; [apply duration_rule_upper|]. lra. }
  assert (H5 : (fst st5 <= 0.8)%Q).
  { subst st5. eapply Qle_trans; [apply calendar_rule_upper|]. exact H4. }
  assert (H6 : (fst st6 <= 0.8)%Q).
  { subst st6. rewrite assessment_rule_score. exact H5. }
  clearbody st6. destruct st6 as [score notes]. cbn [fst] in H6.
  pose proof (clamp01_range score) as [Hlo _].
  pose proof (clamp01_le score 0.8 ltac:(lra) H6) as Hhi.
  unfold rule_final.
  destruct (Qlt_bool 0.8 (clamp01 score)); [|destruct (Qlt_bool 0.6 (clamp01 score));
    [|destruct (Qlt_bool 0.4 (clamp01 score))]]; cbn [fst]; split; assumption.
Qed.

Lemma final_rule_verdict score notes :
  (clamp01 score <= 0.8)%Q ->
  exists verdict,
    snd (rule_final (score, notes)) = notes ++ [verdict]
    /\ In verdict [NoteGood; NoteAcceptable; NotePoor].
Proof.
  intros Hhi. unfold rule_final.
  destruct (Qlt_bool 0.8 (clamp01 score)) eqn:E8.
  { apply Qlt_bool_true in E8. lra. }
  destruct (Qlt_bool 0.6 (clamp01 score));
    [|destruct (Qlt_bool 0.4 (clamp01 score))];
    cbn [fst snd]; eexists; (split; [reflexivity|]); cbn [In]; tauto.
Qed.

(** X3. Whatever the slot, the preferences and the calendar, the score of a
    participant lies between 0 and 0.8: the bonuses for morning and afternoon
    exclude each other, which leaves 0.5 + 0.2 + 0.1 at most. The last note is
    the overall assessment, and it is never the one for a score above 0.8. *)
Theorem participant_score_never_excellent :
  forall slot_start slot_end duration who pdata,
    let result := _calculate_slot_score_with_notes slot_start slot_end duration who pdata in
    (0 <= fst result <= 0.8)%Q
    /\ exists earlier verdict,
        snd result = earlier ++ [verdict]
        /\ In verdict [NoteGood; NoteAcceptable; NotePoor].
Proof.
  intros slot_start slot_end duration who pdata result. subst result.
  split; [apply participant_score_range|].
  pose proof (participant_score_range slot_start slot_end duration who pdata) as [_ Hhi].
  revert Hhi. unfold _calculate_slot_score_with_notes. cbv zeta.
  destruct (rule_time_assessment _ _) as [score notes].
  intros Hhi.
  assert (Hc : (clamp01 score <= 0.8)%Q).
  { revert Hhi. unfold rule_final.
    destruct (Qlt_bool 0.8 (clamp01 score)); [|destruct (Qlt_bool 0.6 (clamp01 score));
      [|destruct (Qlt_bool 0.4 (clamp01 score))]]; cbn [fst]; auto. }
  destruct (final_rule_verdict score notes Hc) as (verdict & Hv & Hin).
  exists notes, verdict. split; assumption.
Qed.

(** ** Scoring and ranking the available slots *)

Lemma sum_scores_range c (scores : list Q) :
  Forall (fun q => (0 <= q <= c)%Q) scores ->
  forall acc,
    (acc <= fold_left Qplus scores acc
     <= acc + c * inject_Z (Z.of_nat (List.length scores)))%Q.
Proof.
  induction 1 as [|q scores Hq _ IH]; intros acc; cbn [fold_left List.length].
  - change (inject_Z (Z.of_nat 0)) with 0%Q. lra.
  - specialize (IH (acc + q)%Q).
    rewrite Nat2Z.inj_succ, <- Z.add_1_r, inject_Z_plus.
    change (inject_Z 1) with 1%Q. lra.
Qed.

Lemma average_range c (scores : list Q) :
  (0 <= c)%Q ->
  Forall (fun q => (0 <= q <= c)%Q) scores ->
  (0 <= average scores <= c)%Q.
Proof.
  intros Hc Hall. unfold average.
  destruct scores as [|q scores]; cbn [nonempty]; [lra|].
  pose proof (sum_scores_range c _ Hall 0) as [Hlo Hhi].
  set (n := inject_Z (Z.of_nat (List.length (q :: scores)))) in *.
  assert (Hn : (0 < n)%Q).
  { subst n. change 0%Q with (inject_Z 0). rewrite <- Zlt_Qlt. cbn [List.length]. lia. }
  split.
  - apply Qle_shift_div_l; [exact Hn|]. lra.
  - apply Qle_shift_div_r; [exact Hn|]. lra.
Qed.

Lemma insert_by_score_perm x l : Permutation (insert_by_score x l) (x :: l).
Proof.
  induction l as [|y l IH]; simpl; [reflexivity|].
  destruct (Qlt_bool (score x) (score y)); [|reflexivity].
  rewrite IH. apply perm_swap.
Qed.

Lemma sort_by_score_perm l : Permutation (sort_by_score l) l.
Proof.
  induction l as [|x l IH]; simpl; [reflexivity|].
  rewrite insert_by_score_perm. now constructor.
Qed.

Lemma insert_by_score_sorted x l :
  StronglySorted (fun a b => (score b <= score a)%Q) l ->
  StronglySorted (fun a b => (score b <= score a)%Q) (insert_by_score x l).
Proof.
  induction l as [|y l IH]; intros Hs; simpl.
  - repeat constructor.
  - apply StronglySorted_inv in Hs. destruct Hs as [Hl Hy].
    destruct (Qlt_bool (score x) (score y)) eqn:E.
    + constructor; [now apply IH|].
      apply Qlt_bool_true in E.
      rewrite List.Forall_forall in *. intros z Hz.
      apply (Permutation_in _ (insert_by_score_perm x l)) in Hz.
      destruct Hz as [<-|Hz]; [now apply Qlt_le_weak|now apply Hy].
    + apply Qlt_bool_false in E.
      constructor; [now constructor|].
      constructor; [exact E|].
      rewrite List.Forall_forall in *. intros z Hz.
      apply Qle_trans with (score y); [now apply Hy|exact E].
Qed.

Lemma sort_by_score_sorted l :
  StronglySorted (fun a b => (score b <= score a)%Q) (sort_by_score l).
Proof.
  induction l as [|x l IH]; simpl; [constructor|].
  now apply insert_by_score_sorted.
Qed.

Lemma map_answer_done {A B} (f : A -> answer B) (P : A -> B -> Prop) (l : list A) :
  (forall x, In x l -> exists y, f x = Done y /\ P x y) ->
  exists ys, map_answer f l = Done ys /\ Forall2 P l ys.
Proof.
  induction l as [|x l IH]; intros Hall; cbn [map_answer].
  - exists []. split; [reflexivity|constructor].
  - destruct (Hall x (or_introl eq_refl)) as (y & -> & Hy).
    destruct IH as (ys & -> & Hys); [intros z Hz; apply Hall; now right|].
    exists (y :: ys). split; [reflexivity|now constructor].
Qed.

Lemma notes_nonempty (a b : list string) (score : Q) :
  nonempty (a ++ b ++ score_note score) = true.
Proof.
  unfold score_note.
  destruct a; [|reflexivity]. destruct b; [|reflexivity].
  destruct (Qlt_bool 0.8 score); [|destruct (Qlt_bool 0.6 score)]; reflexivity.
Qed.

Lemma score_one_done participants_data duration slot :
  0 < duration ->
  exists s, score_one participants_data duration slot = Done s
            /\ scored_as participants_data duration slot s.
Proof.
  intros Hpos. destruct slot as [slot_start slot_end]. unfold score_one.
  set (scored := map _ participants_data).
  set (avg := average (map (fun ps => fst (snd ps)) scored)).
  assert (Havg : (0 <= avg <= 0.8)%Q).
  { subst avg. apply average_range; [lra|].
    subst scored. rewrite map_map. apply List.Forall_forall. intros q Hq.
    apply in_map_iff in Hq. destruct Hq as (pd & <- & _). cbn [fst snd].
    apply participant_score_range. }
  assert (Hcap : Qlt_bool 1 avg = false) by (apply Qlt_bool_false; lra).
  unfold new_SlotInfo. rewrite Hcap.
  destruct (Z.ltb_spec 0 duration) as [_|]; [|lia].
  assert (H0 : Qle_bool 0 avg = true) by (apply Qle_bool_iff; lra).
  assert (H1 : Qle_bool avg 1 = true) by (apply Qle_bool_iff; lra).
  rewrite H0, H1. cbn [andb]. eexists. split; [reflexivity|].
  unfold scored_as. cbn [start_time end_time duration_minutes participants
    participant_notes participant_scores day_of_week notes confidence score].
  subst scored. rewrite !map_map, !length_map. cbn [fst snd].
  repeat split; try reflexivity; lra.
Qed.

Lemma score_one_failed participants_data duration slot :
  duration <= 0 -> score_one participants_data duration slot = Failed SlotValidationError.
Proof.
  intros Hneg. destruct slot as [slot_start slot_end]. unfold score_one, new_SlotInfo.
  destruct (Z.ltb_spec 0 duration); [lia|reflexivity].
Qed.

(** The loop over the available slots, before the sort. *)
Lemma score_every_slot available_slots participants_data duration :
  0 < duration ->
  exists in_order,
    map_answer (score_one participants_data duration) available_slots = Done in_order
    /\ Forall2 (scored_as participants_data duration) available_slots in_order.
Proof.
  intros Hpos. apply map_answer_done. intros slot _. now apply score_one_done.
Qed.

(** X4. With a positive duration [_score_slots] raises nothing and returns
    one [SlotInfo] for each available slot, ordered by descending score. Each
    carries the start and end of its slot, the requested duration, the
    participants in the order of the input, one score and one list of notes
    for each of them, the note generated from its start and its score, and
    a confidence equal to the score, which lies between 0 and 1. *)
Theorem score_slots_ranks_every_slot :
  forall available_slots participants_data duration,
    0 < duration ->
    exists scored,
      _score_slots available_slots participants_data duration = Done scored
      /\ StronglySorted (fun a b => (score b <= score a)%Q) scored
      /\ exists in_order,
          Permutation scored in_order
          /\ Forall2 (scored_as participants_data duration) available_slots in_order.
Proof.
  intros available_slots participants_data duration Hpos. unfold _score_slots.
  destruct (score_every_slot available_slots participants_data duration Hpos)
    as (in_order & -> & Hall).
  exists (sort_by_score in_order). split; [reflexivity|].
  split; [apply sort_by_score_sorted|].
  exists in_order. split; [apply sort_by_score_perm|exact Hall].
Qed.

(** Two slots on Monday 2025-01-06 for Alice, who prefers mornings. *)
Lemma score_slots_ranks_every_slot_witness :
  0 < 60
  /\ exists scored,
      _score_slots
        [(at_ monday_2025_01_06 14 0, at_ monday_2025_01_06 15 0);
         (at_ monday_2025_01_06 10 0, at_ monday_2025_01_06 11 0)]
        (alone prefers_morning) 60 = Done scored
      /\ StronglySorted (fun a b => (score b <= score a)%Q) scored.
Proof.
  split; [lia|].
  destruct (score_slots_ranks_every_slot
              [(at_ monday_2025_01_06 14 0, at_ monday_2025_01_06 15 0);
               (at_ monday_2025_01_06 10 0, at_ monday_2025_01_06 11 0)]
              (alone prefers_morning) 60 ltac:(lia))
    as (scored & Hrun & Hsorted & _).
  exists scored. split; [exact Hrun|exact Hsorted].
Defined.

(** X5. With a duration of zero or less the [SlotInfo] constructor rejects
    the first slot: the call raises the validation error as soon as there is
    one slot to score, and returns the empty list when there is none. *)
Theorem score_slots_rejects_duration :
  forall available_slots participants_data duration,
    duration <= 0 ->
    _score_slots available_slots participants_data duration
    = if nonempty available_slots then Failed SlotValidationError else Done [].
Proof.
  intros available_slots participants_data duration Hneg. unfold _score_slots.
  destruct available_slots as [|slot rest]; [reflexivity|].
  cbn [map_answer nonempty]. now rewrite score_one_failed.
Qed.

Lemma score_slots_rejects_duration_witness :
  0 <= 0
  /\ _score_slots [(at_ monday_2025_01_06 10 0, at_ monday_2025_01_06 11 0)]
       (alone prefers_morning) 0
     = Failed SlotValidationError.
Proof.
  split; [lia|].
  apply (score_slots_rejects_duration
           [(at_ monday_2025_01_06 10 0, at_ monday_2025_01_06 11 0)]
           (alone prefers_morning) 0).
  lia.
Defined.

(** ** [find_free_slots] and [propose_slots] *)

Lemma all_busy_slots_none participants_data pd :
  In pd participants_data -> calendar (snd pd) = None ->
  all_busy_slots participants_data = Failed AttributeError.
Proof.
  induction participants_data as [|x l IH]; intros Hin Hnone; [destruct Hin|].
  cbn [all_busy_slots]. destruct Hin as [->|Hin]; [now rewrite Hnone|].
  destruct (calendar (snd x)); [|reflexivity]. now rewrite IH.
Qed.

(** X6. A participant whose calendar is [None] makes [find_free_slots] raise
    [AttributeError] while it collects the calendars, before any candidate is
    generated: whatever the working hours, the duration and the day, also
    those for which the generator would not return. *)
Theorem find_free_slots_needs_every_calendar :
  forall self participants_data meeting_duration schedule_day fuel pd,
    In pd participants_data ->
    calendar (snd pd) = None ->
    find_free_slots self participants_data meeting_duration schedule_day fuel
    = Some (Failed AttributeError).
Proof.
  intros self participants_data meeting_duration schedule_day fuel pd Hin Hnone.
  unfold find_free_slots. destruct (working_hours self) as [start_time_obj end_time_obj].
  now rewrite (all_busy_slots_none participants_data pd Hin Hnone).
Qed.

(** Alice without a calendar, on hours in which the duration does not fit. *)
Lemma find_free_slots_needs_every_calendar_witness :
  In ("Alice"%string, mk_pdata prefers_morning None) (alone prefers_morning)
  /\ calendar (snd ("Alice"%string, mk_pdata prefers_morning None)) = None
  /\ find_free_slots (mk_analyst (mk_time 9 0, mk_time 12 0) 240)
       (alone prefers_morning) 240 (at_ monday_2025_01_06 0 0) 0
     = Some (Failed AttributeError).
Proof.
  assert (Hin : In ("Alice"%string, mk_pdata prefers_morning None) (alone prefers_morning))
    by (left; reflexivity).
  split; [exact Hin|]. split; [reflexivity|].
  exact (find_free_slots_needs_every_calendar
           (mk_analyst (mk_time 9 0, mk_time 12 0) 240) (alone prefers_morning) 240
           (at_ monday_2025_01_06 0 0) 0 _ Hin eq_refl).
Defined.

Lemma load_participants_unknown get_preference get_person_calendar participants p :
  In p participants -> get_preference p = None ->
  forall seen,
    load_participants get_preference get_person_calendar participants seen
    = Failed KeyError.
Proof.
  induction participants as [|q rest IH]; intros Hin Hnone seen; [destruct Hin|].
  cbn [load_participants]. destruct Hin as [->|Hin]; [now rewrite Hnone|].
  destruct (get_preference q); [|reflexivity]. now rewrite IH.
Qed.

(** X7. A participant without stored preferences makes [propose_slots] raise
    [KeyError] while it loads the participants, whatever the schedule. *)
Theorem propose_slots_unknown_participant :
  forall get_preference get_person_calendar participants meeting_schedule fuel p,
    In p participants ->
    get_preference p = None ->
    propose_slots get_preference get_person_calendar participants meeting_schedule fuel
    = Some (Failed KeyError).
Proof.
  intros get_preference get_person_calendar participants meeting_schedule fuel p Hin Hnone.
  unfold propose_slots.
  now rewrite (load_participants_unknown _ _ participants p Hin Hnone).
Qed.

(** Carol is not in the store. *)
Lemma propose_slots_unknown_participant_witness :
  In "Carol"%string ["Alice"%string; "Carol"%string]
  /\ stored_preference "Carol" = None
  /\ propose_slots stored_preference stored_calendar ["Alice"%string; "Carol"%string]
       schedule0 0
     = Some (Failed KeyError).
Proof.
  assert (Hin : In "Carol"%string ["Alice"%string; "Carol"%string])
    by (right; left; reflexivity).
  split; [exact Hin|]. split; [reflexivity|].
  exact (propose_slots_unknown_participant stored_preference stored_calendar
           ["Alice"%string; "Carol"%string] schedule0 0 "Carol"%string Hin eq_refl).
Defined.

Lemma existsb_eqb_In (p : string) (seen : list string) :
  existsb (String.eqb p) seen = true <-> In p seen.
Proof.
  rewrite existsb_exists. split.
  - intros (q & Hq & Heq). apply String.eqb_eq in Heq. now subst.
  - intros Hin. exists p. split; [exact Hin|apply String.eqb_refl].
Qed.

(** With every participant in the store, the loop builds one entry for each
    name, at its first place in the list, with the calendar of that name. *)
Lemma load_participants_done get_preference get_person_calendar participants :
  (forall p, In p participants -> get_preference p <> None) ->
  forall seen,
    exists data,
      load_participants get_preference get_person_calendar participants seen = Done data
      /\ (forall e, In e data ->
                    In (fst e) participants
                    /\ calendar (snd e) = Some (get_person_calendar (fst e)))
      /\ (forall p, In p participants -> ~ In p seen -> In p (map fst data)).
Proof.
  induction participants as [|q rest IH]; intros Hknown seen.
  - exists []. split; [reflexivity|]. split; intros ? [].
  - cbn [load_participants].
    destruct (get_preference q) as [pr|] eqn:Hq;
      [|exfalso; apply (Hknown q); [now left|exact Hq]].
    destruct (IH (fun p Hp => Hknown p (or_intror Hp)) (q :: seen))
      as (data & -> & Hentries & Hall).
    destruct (existsb (String.eqb q) seen) eqn:Hseen.
    + apply existsb_eqb_In in Hseen.
      exists data. split; [reflexivity|]. split.
      * intros e He. destruct (Hentries e He). split; [now right|assumption].
      * intros p [<-|Hp] Hnew; [contradiction|].
        apply Hall; [exact Hp|]. intros [<-|Hs]; contradiction.
    + exists ((q, mk_pdata pr (Some (get_person_calendar q))) :: data).
      split; [reflexivity|]. split.
      * intros e [<-|He]; [split; [now left|reflexivity]|].
        destruct (Hentries e He). split; [now right|assumption].
      * intros p Hp Hnew. cbn [map fst].
        destruct (string_dec q p) as [->|Hne]; [now left|right].
        destruct Hp as [->|Hp]; [contradiction|].
        apply Hall; [exact Hp|]. intros [Heq|Hs]; [now apply Hne|contradiction].
Qed.

Lemma all_busy_slots_done (get_person_calendar : string -> DataFrame) participants_data :
  (forall e, In e participants_data ->
             calendar (snd e) = Some (get_person_calendar (fst e))) ->
  all_busy_slots participants_data
  = Done (map (fun e => get_person_calendar (fst e)) participants_data).
Proof.
  induction participants_data as [|x l IH]; intros Hall; [reflexivity|].
  cbn [all_busy_slots map]. rewrite (Hall x (or_introl eq_refl)).
  rewrite IH; [reflexivity|]. intros e He. apply Hall. now right.
Qed.

Lemma back_to_back_In start step k lo hi :
  In (lo, hi) (back_to_back start step k)
  <-> exists i, 0 <= i < Z.of_nat k /\ lo = start + i * step /\ hi = lo + step.
Proof.
  unfold back_to_back. rewrite in_map_iff. split.
  - intros (i & [= <- <-] & Hi). apply in_seq in Hi.
    exists (Z.of_nat i). repeat split; lia.
  - intros (i & Hi & -> & ->). exists (Z.to_nat i). split.
    + rewrite Z2Nat.id by lia. reflexivity.
    + apply in_seq. lia.
Qed.

Lemma date_same_day day m :
  0 <= m < minutes_per_day -> date (midnight day + m) = date day.
Proof.
  intros Hm. unfold date, midnight, minutes_per_day in *.
  rewrite Z.div_add_l by lia. rewrite (Z.div_small m) by lia. apply Z.add_0_r.
Qed.

Lemma minute_of_day_range t : valid_time t -> 0 <= minute_of_day t < minutes_per_day.
Proof. unfold valid_time, minute_of_day, minutes_per_day. lia. Qed.

Lemma replace_time_minutes t c :
  replace_time t c = midnight t + minute_of_day c.
Proof. unfold replace_time, minute_of_day. lia. Qed.

Lemma replace_time_twice t c c' :
  valid_time c -> replace_time (replace_time t c) c' = replace_time t c'.
Proof.
  intros Hc. rewrite !replace_time_minutes. f_equal.
  unfold midnight at 1. rewrite <- replace_time_minutes, replace_time_minutes.
  rewrite date_same_day by now apply minute_of_day_range. reflexivity.
Qed.

Lemma time_ltb_minutes a b :
  valid_time a -> valid_time b ->
  time_ltb a b = true -> minute_of_day a < minute_of_day b.
Proof.
  unfold valid_time, time_ltb, minute_of_day. intros Ha Hb H.
  apply orb_prop in H. destruct H as [H|H].
  - apply Z.ltb_lt in H. lia.
  - apply andb_prop in H. destruct H as [H1 H2].
    apply Z.eqb_eq in H1. apply Z.ltb_lt in H2. lia.
Qed.

(** When the step is the duration, the inner loop runs once for every whole
    duration that fits the window. *)
Lemma inner_passes_window start_date end_date d :
  0 < d -> start_date < end_date ->
  inner_passes start_date end_date d d = Z.to_nat ((end_date - start_date) / d).
Proof.
  intros Hd Hlt. unfold inner_passes.
  destruct (Z.leb_spec (start_date + d) end_date) as [Hfit|Hfit].
  - f_equal. set (a := end_date - start_date - d).
    replace (end_date - start_date) with (a + 1 * d) by (subst a; lia).
    rewrite Z.div_add by lia. reflexivity.
  - rewrite Z.div_small by lia. reflexivity.
Qed.

Lemma Forall2_In_r {A B} (P : A -> B -> Prop) l l' y :
  Forall2 P l l' -> In y l' -> exists x, In x l /\ P x y.
Proof.
  induction 1 as [|x0 y0 l l' Hxy _ IH]; intros Hin; [destruct Hin|].
  destruct Hin as [<-|Hin]; [exists x0; split; [now left|exact Hxy]|].
  destruct (IH Hin) as (x & Hx & HP). exists x. split; [now right|exact HP].
Qed.

Lemma Forall2_In_l {A B} (P : A -> B -> Prop) l l' x :
  Forall2 P l l' -> In x l -> exists y, In y l' /\ P x y.
Proof.
  induction 1 as [|x0 y0 l l' Hxy _ IH]; intros Hin; [destruct Hin|].
  destruct Hin as [<-|Hin]; [exists y0; split; [now left|exact Hxy]|].
  destruct (IH Hin) as (y & Hy & HP). exists y. split; [now right|exact HP].
Qed.

(** The candidates that survive the combined calendar of the loaded
    participants are those that are free for every participant. *)
Lemma available_iff_free get_person_calendar participants
    (data : list (string * ParticipantData)) potential_slots lo hi :
  (forall e, In e data -> In (fst e) participants) ->
  (forall p, In p participants -> In p (map fst data)) ->
  In (lo, hi)
    (_filter_available_slots potential_slots
       (List.concat (map (fun e => get_person_calendar (fst e)) data)))
  <-> In (lo, hi) potential_slots /\ free_for get_person_calendar participants lo hi.
Proof.
  intros Hsound Hcomplete. rewrite filter_available_as_filter, filter_In, no_conflict_iff.
  cbn [fst snd]. unfold free_for. split; intros [Hin Hfree]; (split; [exact Hin|]).
  - intros p b Hp Hb. apply Hfree. apply in_concat.
    apply Hcomplete in Hp. apply in_map_iff in Hp. destruct Hp as (e & <- & He).
    exists (get_person_calendar (fst e)). split; [|exact Hb].
    apply in_map_iff. now exists e.
  - intros b Hb. apply in_concat in Hb. destruct Hb as (df & Hdf & Hb).
    apply in_map_iff in Hdf. destruct Hdf as (e & <- & He).
    apply (Hfree (fst e)); [now apply Hsound|exact Hb].
Qed.

(** The working hours of a schedule on its day: the range the analyst
    searches, its length, and the weekday of every time of that day. *)
Lemma working_window meeting_schedule :
  valid_time (working_hours_start meeting_schedule) ->
  valid_time (working_hours_end meeting_schedule) ->
  let start :=
    replace_time (schedule_day meeting_schedule) (working_hours_start meeting_schedule) in
  let window :=
    minute_of_day (working_hours_end meeting_schedule)
    - minute_of_day (working_hours_start meeting_schedule) in
  replace_time start (working_hours_end meeting_schedule) = start + window
  /\ weekday start = weekday (schedule_day meeting_schedule)
  /\ forall m, 0 <= m <= window ->
               weekday (start + m) = weekday (schedule_day meeting_schedule).
Proof.
  intros Hws Hwe start window.
  pose proof (minute_of_day_range _ Hws) as Rs.
  pose proof (minute_of_day_range _ Hwe) as Re.
  assert (Hstart : start = midnight (schedule_day meeting_schedule)
                           + minute_of_day (working_hours_start meeting_schedule))
    by apply replace_time_minutes.
  split; [|split].
  - subst start. rewrite replace_time_twice by exact Hws.
    rewrite !replace_time_minutes. subst window. lia.
  - rewrite Hstart. unfold weekday. now rewrite date_same_day.
  - intros m Hm. rewrite Hstart. unfold weekday.
    rewrite <- Z.add_assoc, date_same_day; [reflexivity|]. subst window. lia.
Qed.

(** With every participant in the store, [propose_slots] is the generator
    followed by the filter against the calendars of the participants and by
    the scorer. *)
Lemma propose_slots_run get_preference get_person_calendar participants meeting_schedule :
  (forall p, In p participants -> get_preference p <> None) ->
  exists data,
    (forall e, In e data -> In (fst e) participants)
    /\ (forall p, In p participants -> In p (map fst data))
    /\ forall fuel,
        propose_slots get_preference get_person_calendar participants meeting_schedule fuel
        = match _generate_time_slots
                  (mk_analyst (working_hours_start meeting_schedule,
                               working_hours_end meeting_schedule)
                     (default_duration meeting_schedule))
                  (replace_time (schedule_day meeting_schedule)
                     (working_hours_start meeting_schedule))
                  (replace_time
                     (replace_time (schedule_day meeting_schedule)
                        (working_hours_start meeting_schedule))
                     (working_hours_end meeting_schedule))
                  (default_duration meeting_schedule) fuel with
          | None => None
          | Some potential_slots =>
              Some (_score_slots
                      (_filter_available_slots potential_slots
                         (List.concat (map (fun e => get_person_calendar (fst e)) data)))
                      data (default_duration meeting_schedule))
          end.
Proof.
  intros Hknown.
  destruct (load_participants_done get_preference get_person_calendar participants
              Hknown []) as (data & Hload & Hentries & Hall).
  exists data. split; [intros e He; now apply Hentries|].
  split; [intros p Hp; apply Hall; [exact Hp|intros []]|].
  intros fuel. unfold propose_slots. rewrite Hload. unfold find_free_slots.
  cbn [working_hours].
  rewrite (all_busy_slots_done get_person_calendar data)
    by (intros e He; now apply Hentries).
  reflexivity.
Qed.

(** A duration that does not divide the length of the working hours leaves
    the generator, and with it [propose_slots], in its loops. *)
Lemma propose_slots_hangs get_preference get_person_calendar participants
    meeting_schedule :
  (forall p, In p participants -> get_preference p <> None) ->
  valid_time (working_hours_start meeting_schedule) ->
  valid_time (working_hours_end meeting_schedule) ->
  time_ltb (working_hours_start meeting_schedule) (working_hours_end meeting_schedule)
  = true ->
  0 < default_duration meeting_schedule ->
  weekday (schedule_day meeting_schedule) < 5 ->
  (minute_of_day (working_hours_end meeting_schedule)
   - minute_of_day (working_hours_start meeting_schedule))
    mod default_duration meeting_schedule <> 0 ->
  forall fuel,
    propose_slots get_preference get_person_calendar participants meeting_schedule fuel
    = None.
Proof.
  intros Hknown Hws Hwe Horder Hd Hweek Hrem fuel.
  destruct (propose_slots_run get_preference get_person_calendar participants
              meeting_schedule Hknown) as (data & _ & _ & ->).
  pose proof (time_ltb_minutes _ _ Hws Hwe Horder) as Hlt.
  destruct (working_window meeting_schedule Hws Hwe) as (Hend & Hwd & Hday).
  cbv zeta in Hend, Hwd, Hday.
  set (start := replace_time (schedule_day meeting_schedule)
                  (working_hours_start meeting_schedule)) in *.
  set (window := minute_of_day (working_hours_end meeting_schedule)
                 - minute_of_day (working_hours_start meeting_schedule)) in *.
  set (d := default_duration meeting_schedule) in *.
  rewrite Hend.
  pose proof (Z.div_mod window d ltac:(lia)) as Hdm.
  pose proof (Z.mod_pos_bound window d Hd) as Hmod.
  assert (Hq : 0 <= window / d) by (apply Z.div_pos; lia).
  assert (Hpasses : inner_passes start (start + window) d d = Z.to_nat (window / d)).
  { rewrite inner_passes_window by lia.
    now replace (start + window - start) with window by lia. }
  assert (Hgen : _generate_time_slots
                   (mk_analyst (working_hours_start meeting_schedule,
                                working_hours_end meeting_schedule) d)
                   start (start + window) d fuel = None).
  { apply generator_hangs; cbn [min_slot_duration];
      rewrite ?Hpasses, ?Z2Nat.id by exact Hq.
    - exact Hd.
    - lia.
    - rewrite Hwd. exact Hweek.
    - nia.
    - rewrite Hday; [exact Hweek|]. nia. }
  now rewrite Hgen.
Qed.

(** X8. [propose_slots] for participants that are all in the store, on a
    weekday, with working hours that name valid times in order and a positive
    duration. If the duration does not divide the length of the working hours,
    the call never returns. If it does, the call returns, ordered by
    descending score, one slot for each of the back-to-back intervals of that
    duration in the working hours that no calendar row of any participant
    overlaps, and nothing else; each slot ends its duration after its start. *)
Theorem propose_slots_returns_or_hangs :
  forall get_preference get_person_calendar participants meeting_schedule,
    (forall p, In p participants -> get_preference p <> None) ->
    valid_time (working_hours_start meeting_schedule) ->
    valid_time (working_hours_end meeting_schedule) ->
    time_ltb (working_hours_start meeting_schedule) (working_hours_end meeting_schedule)
    = true ->
    0 < default_duration meeting_schedule ->
    weekday (schedule_day meeting_schedule) < 5 ->
    let d := default_duration meeting_schedule in
    let start :=
      replace_time (schedule_day meeting_schedule) (working_hours_start meeting_schedule) in
    let window :=
      minute_of_day (working_hours_end meeting_schedule)
      - minute_of_day (working_hours_start meeting_schedule) in
    (window mod d <> 0 ->
     forall fuel,
       propose_slots get_preference get_person_calendar participants meeting_schedule fuel
       = None)
    /\ (window mod d = 0 ->
        exists slots,
          propose_slots get_preference get_person_calendar participants meeting_schedule
            (Z.to_nat (window / d) + 3)
          = Some (Done slots)
          /\ StronglySorted (fun a b => (score b <= score a)%Q) slots
          /\ Forall (fun s => end_time s = start_time s + d
                              /\ duration_minutes s = d
                              /\ confidence s = score s) slots
          /\ forall lo hi,
              (exists s, In s slots /\ start_time s = lo /\ end_time s = hi)
              <-> (exists i, 0 <= i < window / d
                             /\ lo = start + i * d /\ hi = lo + d
                             /\ free_for get_person_calendar participants lo hi)).
Proof.
  intros get_preference get_person_calendar participants meeting_schedule
    Hknown Hws Hwe Horder Hd Hweek d start window.
  split; [now apply propose_slots_hangs|].
  intros Hrem.
  destruct (propose_slots_run get_preference get_person_calendar participants
              meeting_schedule Hknown) as (data & Hsound & Hcomplete & Hrun).
  rewrite Hrun.
  pose proof (time_ltb_minutes _ _ Hws Hwe Horder) as Hlt.
  destruct (working_window meeting_schedule Hws Hwe) as (Hend & Hwd & _).
  fold start in Hend, Hwd |- *. fold window in Hend. fold d. rewrite Hend.
  assert (Hq : 0 <= window / d) by (apply Z.div_pos; subst window d; lia).
  pose proof (Z.div_mod window d ltac:(lia)) as Hdm.
  assert (Hpasses : inner_passes start (start + window) d d = Z.to_nat (window / d)).
  { rewrite inner_passes_window by (subst window; lia).
    now replace (start + window - start) with window by lia. }
  pose proof (generator_returns (mk_analyst (working_hours_start meeting_schedule,
                                             working_hours_end meeting_schedule) d)
                start (start + window) d) as Hgen.
  cbn [min_slot_duration] in Hgen. rewrite Hpasses in Hgen.
  rewrite Hgen; [|exact Hd|subst window; lia|rewrite Hwd; exact Hweek
                 |rewrite Z2Nat.id by exact Hq; nia].
  set (potential := back_to_back start d (Z.to_nat (window / d))).
  set (busy := List.concat (map (fun e => get_person_calendar (fst e)) data)).
  unfold _score_slots.
  destruct (score_every_slot (_filter_available_slots potential busy) data d Hd)
    as (in_order & -> & Hscored).
  pose proof (sort_by_score_perm in_order) as Hperm.
  exists (sort_by_score in_order). split; [reflexivity|].
  split; [apply sort_by_score_sorted|].
  assert (Hfree : forall lo hi,
             In (lo, hi) (_filter_available_slots potential busy)
             <-> (exists i, 0 <= i < window / d /\ lo = start + i * d /\ hi = lo + d)
                 /\ free_for get_person_calendar participants lo hi).
  { intros lo hi. subst busy.
    rewrite (available_iff_free get_person_calendar participants data potential lo hi
               Hsound Hcomplete).
    subst potential. rewrite back_to_back_In, Z2Nat.id by exact Hq. reflexivity. }
  split.
  - apply List.Forall_forall. intros s Hs.
    apply (Permutation_in _ Hperm) in Hs.
    destruct (Forall2_In_r _ _ _ _ Hscored Hs) as ([lo hi] & Hslot & Has).
    destruct Has as (Hpair & Hdur & _ & _ & _ & _ & _ & Hconf & _).
    injection Hpair as Hlo Hhi.
    apply Hfree in Hslot. destruct Hslot as [(i & _ & _ & Hhi') _].
    repeat split; [lia|exact Hdur|exact Hconf].
  - intros lo hi. split.
    + intros (s & Hs & Hlo & Hhi).
      apply (Permutation_in _ Hperm) in Hs.
      destruct (Forall2_In_r _ _ _ _ Hscored Hs) as ([lo' hi'] & Hslot & Has).
      destruct Has as (Hpair & _). injection Hpair as Hlo' Hhi'. subst lo' hi'.
      rewrite Hlo, Hhi in Hslot.
      apply Hfree in Hslot. destruct Hslot as [(i & Hi & Hl & Hh) Hok].
      exists i. auto.
    + intros (i & Hi & Hl & Hh & Hok).
      assert (Hslot : In (lo, hi) (_filter_available_slots potential busy)).
      { apply Hfree. split; [now exists i|exact Hok]. }
      destruct (Forall2_In_l _ _ _ _ Hscored Hslot) as (s & Hs & Has).
      destruct Has as (Hpair & _). injection Hpair as Hlo Hhi.
      exists s. split; [|split; assumption].
      apply (Permutation_in _ (Permutation_sym Hperm)). exact Hs.
Qed.

(** Alice and Bob on Monday 2025-01-06, 08:00 to 18:00: with 60-minute
    meetings the call returns, with 45-minute meetings it never does. *)
Lemma propose_slots_returns_or_hangs_witness :
  (forall p, In p ["Alice"%string; "Bob"%string] -> stored_preference p <> None)
  /\ valid_time (working_hours_start schedule0)
  /\ valid_time (working_hours_end schedule0)
  /\ time_ltb (working_hours_start schedule0) (working_hours_end schedule0) = true
  /\ 0 < default_duration schedule0
  /\ weekday (schedule_day schedule0) < 5
  /\ (exists slots,
         propose_slots stored_preference stored_calendar ["Alice"%string; "Bob"%string]
           schedule0 13 = Some (Done slots))
  /\ forall fuel,
      propose_slots stored_preference stored_calendar ["Alice"%string; "Bob"%string]
        (set_default_duration 45 schedule0) fuel = None.
Proof.
  assert (Hknown : forall p, In p ["Alice"%string; "Bob"%string] ->
                             stored_preference p <> None).
  { intros p [<-|[<-|[]]]; vm_compute; discriminate. }
  assert (Hws : valid_time (working_hours_start schedule0)) by (vm_compute; intuition discriminate).
  assert (Hwe : valid_time (working_hours_end schedule0)) by (vm_compute; intuition discriminate).
  assert (Horder : time_ltb (working_hours_start schedule0) (working_hours_end schedule0)
                   = true) by reflexivity.
  assert (Hd : 0 < default_duration schedule0) by (vm_compute; reflexivity).
  assert (Hweek : weekday (schedule_day schedule0) < 5) by (vm_compute; reflexivity).
  repeat (split; [assumption|]).
  split.
  - destruct (propose_slots_returns_or_hangs stored_preference stored_calendar
                ["Alice"%string; "Bob"%string] schedule0 Hknown Hws Hwe Horder Hd Hweek)
      as [_ Hreturns].
    destruct (Hreturns eq_refl) as (slots & Hrun & _).
    exists slots. exact Hrun.
  - destruct (propose_slots_returns_or_hangs stored_preference stored_calendar
                ["Alice"%string; "Bob"%string] (set_default_duration 45 schedule0)
                Hknown Hws Hwe Horder ltac:(vm_compute; reflexivity) Hweek)
      as [Hhangs _].
    apply Hhangs. vm_compute. discriminate.
Defined.

(** * Further properties of the negotiation specialist *)

(** ** The strict filter against the gates of the strategies *)

Lemma respects_one_relaxed utcoffset slot calendars p pr :
  respects_one utcoffset slot calendars p pr = true ->
  (if truthy_time (no_meetings_before pr)
      && time_ltb (time_of (start_time slot)) (no_before pr) then false
   else if truthy_time (no_meetings_after pr)
           && time_ltb (no_after pr) (time_of (end_time slot)) then false
   else if truthy_bool (avoid_lunch_time pr)
           && lunch_test (time_of (start_time slot)) (time_of (end_time slot)) then false
   else if truthy_int (preferred_max_duration pr)
           && (int_value (preferred_max_duration pr) <? duration_minutes slot) then false
   else true) = true
  /\ truthy_bool (prefer_morning pr) && truthy_bool (prefer_afternoon pr) = false.
Proof.
  unfold respects_one. cbv zeta.
  destruct (truthy_time (no_meetings_before pr)
            && time_ltb (time_of (start_time slot)) (no_before pr)); [discriminate|].
  destruct (truthy_time (no_meetings_after pr)
            && time_ltb (no_after pr) (time_of (end_time slot))); [discriminate|].
  destruct (truthy_bool (prefer_morning pr)) eqn:Hm;
    destruct (truthy_bool (prefer_afternoon pr)) eqn:Ha; cbn [andb];
    destruct (Z.leb_spec 6 (hour (start_time slot)));
    destruct (Z.ltb_spec (hour (start_time slot)) 12);
    destruct (Z.leb_spec 13 (hour (start_time slot)));
    destruct (Z.ltb_spec (hour (start_time slot)) 18);
    cbn [andb negb]; try discriminate; try lia;
    destruct (truthy_bool (avoid_lunch_time pr)
              && lunch_test (time_of (start_time slot)) (time_of (end_time slot)));
    try discriminate;
    destruct (truthy_int (preferred_max_duration pr)
              && (int_value (preferred_max_duration pr) <? duration_minutes slot));
    try discriminate; auto.
Qed.

(** X9. A slot that passes the strict filter passes the gate of the
    relaxed-hours strategy, which repeats four of its seven tests; and no
    participant of a slot that passes prefers both the morning and the
    afternoon, since the two hour ranges exclude each other. *)
Theorem strict_filter_is_the_narrowest :
  forall utcoffset slot prefs calendars,
    _slot_respects_all utcoffset slot prefs calendars = true ->
    relax_allowed prefs slot = true
    /\ Forall (fun ppr => truthy_bool (prefer_morning (snd ppr))
                          && truthy_bool (prefer_afternoon (snd ppr)) = false) prefs.
Proof.
  intros utcoffset slot prefs calendars. unfold _slot_respects_all, relax_allowed.
  cbv zeta. induction prefs as [|[p pr] prefs IH]; cbn [forallb fst snd].
  - intros _. split; [reflexivity|constructor].
  - intros H. apply andb_prop in H. destruct H as [Hone Hrest].
    destruct (respects_one_relaxed utcoffset slot calendars p pr Hone) as [Hgate Hpref].
    destruct (IH Hrest) as [IHgate IHpref].
    split; [rewrite Hgate; exact IHgate|constructor; assumption].
Qed.

(** Alice prefers mornings and the slot starts at 10:00. *)
Lemma strict_filter_is_the_narrowest_witness :
  _slot_respects_all 0 (slot_at 10 0 60 0.7) (prefs_of (alone prefers_morning))
    (calendars_of (alone prefers_morning)) = true
  /\ relax_allowed (prefs_of (alone prefers_morning)) (slot_at 10 0 60 0.7) = true.
Proof.
  assert (H : _slot_respects_all 0 (slot_at 10 0 60 0.7) (prefs_of (alone prefers_morning))
                (calendars_of (alone prefers_morning)) = true) by reflexivity.
  split; [exact H|].
  exact (proj1 (strict_filter_is_the_narrowest 0 (slot_at 10 0 60 0.7)
                  (prefs_of (alone prefers_morning))
                  (calendars_of (alone prefers_morning)) H)).
Defined.

(** ** What a call leaves in the store and in its result *)

Lemma untouched_refl w : untouched w w.
Proof. intros l v H. exact H. Qed.

Lemma untouched_trans w1 w2 w3 : untouched w1 w2 -> untouched w2 w3 -> untouched w1 w3.
Proof. intros H12 H23 l v H. apply H23, H12, H. Qed.

Lemma untouched_same_heap w w' : heap w' = heap w -> untouched w w'.
Proof. intros E l v H. now rewrite E. Qed.

Lemma untouched_alloc w v steps' :
  untouched w (mk_world (<[fresh (dom (heap w)) := v]> (heap w)) steps').
Proof. intros l u H. cbn [heap]. now apply lookup_after_copy. Qed.

Lemma leads_sorted l best rest outcome sched reasoning strategy :
  sort_by_confidence l = best :: rest ->
  leads (mk_result outcome sched (Some best) reasoning (firstn 2 rest) strategy).
Proof.
  intros Hsort. split; cbn [alternative_suggestions selected_slot].
  - apply firstn_2_length.
  - intros a Ha. exists best. split; [reflexivity|].
    pose proof (sort_by_confidence_sorted l) as Hs. rewrite Hsort in Hs.
    apply StronglySorted_inv in Hs. destruct Hs as [_ Hall].
    rewrite List.Forall_forall in Hall. apply Hall.
    destruct rest as [|x [|y rest]]; simpl in Ha; simpl; tauto.
Qed.

Lemma leads_nothing outcome sched reasoning strategy :
  leads (mk_result outcome sched None reasoning [] strategy).
Proof. split; cbn; [lia|intros a []]. Qed.

(** Closes the parts of [strategy_call_effect] once the run is in closed
    form. *)
Ltac close_effect init :=
  intros [= <- <-]; cbn [steps];
  (split; [reflexivity|]);
  (split; [first [apply untouched_alloc | now apply untouched_same_heap]|]);
  intros r Hr; try discriminate; injection Hr as <-;
  unfold compromise_of;
  cbn [outcome strategy_choose proposed_schedule selected_slot heap];
  (split; [reflexivity|]); (split; [reflexivity|]);
  (split; [do 2 eexists; split; [reflexivity|];
           split; [now apply (fresh_is_new _ init)|apply lookup_insert_eq]|]);
  (split; [split; intros; discriminate || reflexivity|]);
  eauto using leads_sorted, leads_nothing.

(** One strategy call: it logs its own step, leaves every existing object
    as it was, whether it returns a result, returns nothing or raises, and a
    result it returns is a compromise of that strategy. *)
Lemma strategy_call_effect utcoffset self init slots prefs calendars s w w1 res :
  In s ladder ->
  heap w !! initial self = Some init ->
  strategy_call utcoffset self slots prefs calendars s w = (w1, res) ->
  steps w1 = steps w ++ [own_step s]
  /\ untouched w w1
  /\ forall r, res = Ok (Some r) -> compromise_of self s w1 r.
Proof.
  intros Hs Hinit.
  destruct Hs as [<-|[<-|[<-|[<-|[]]]]]; cbn [strategy_call own_step].
  - rewrite (duration_adjust_run_any self slots prefs w init Hinit).
    destruct (map _ (List.filter _ prefs)) as [|c cs]; [close_effect init|].
    cbv zeta.
    destruct (default_duration init <=? fold_left Z.min cs c); [close_effect init|].
    destruct (List.filter _ slots) as [|x l]; [close_effect init|].
    destruct (0 <? fold_left Z.min cs c); [|close_effect init].
    destruct (sort_by_confidence _) as [|best rest] eqn:Hsort; close_effect init.
  - rewrite (time_shift_run self slots prefs w init Hinit).
    destruct (sort_by_confidence _) as [|best rest] eqn:Hsort; close_effect init.
  - rewrite (alternative_day_run utcoffset self slots prefs calendars w init Hinit).
    destruct (max_alternative_days init =? 0); [close_effect init|].
    destruct (List.find _ _) as [day|]; close_effect init.
  - rewrite (relax_hours_run self slots prefs w init Hinit).
    destruct (sort_by_confidence _) as [|best rest] eqn:Hsort; close_effect init.
Qed.

Lemma log_grows_trans w1 w2 w3 : log_grows w1 w2 -> log_grows w2 w3 -> log_grows w1 w3.
Proof.
  intros [n1 H1] [n2 H2]. exists (n1 ++ n2). now rewrite H2, H1, app_assoc.
Qed.

(** The climb of any stack of rungs: every existing object stays as it was
    and the log grows, whether the climb returns or raises; a result it
    returns is the impossible one or a compromise of an attempted rung. *)
Lemma climb_effect utcoffset self init slots prefs calendars previous_strategy rungs :
  Forall (fun s => In s ladder) rungs ->
  forall w w' res,
    heap w !! initial self = Some init ->
    climb utcoffset self slots prefs calendars previous_strategy rungs w = (w', res) ->
    untouched w w'
    /\ log_grows w w'
    /\ forall r, res = Ok r ->
                 r = impossible_result
                 \/ exists s, In s rungs /\ attempts previous_strategy s = true
                              /\ compromise_of self s w' r.
Proof.
  induction 1 as [|s rungs Hs _ IH]; intros w w' res Hinit.
  - cbn. intros [= <- <-]. split; [apply untouched_refl|].
    split; [exists []; now rewrite app_nil_r|].
    intros r [= <-]. now left.
  - cbn [climb fold_right].
    fold (climb utcoffset self slots prefs calendars previous_strategy rungs).
    destruct (attempts previous_strategy s) eqn:Hatt.
    + rewrite rung_attempted.
      set (wa := mk_world (heap w) (steps w ++ [announce_step s])).
      destruct (strategy_call utcoffset self slots prefs calendars s wa)
        as [w1 res1] eqn:Hcall.
      destruct (strategy_call_effect utcoffset self init slots prefs calendars s wa w1
                  res1 Hs Hinit Hcall) as (Hsteps & Hkeep & Hshape).
      assert (Hkeep1 : untouched w w1) by exact Hkeep.
      assert (Hlog1 : log_grows w w1).
      { exists [announce_step s; own_step s]. rewrite Hsteps. subst wa. cbn [steps].
        now rewrite <- app_assoc. }
      destruct res1 as [[r1|]|e].
      * intros [= <- <-]. split; [exact Hkeep1|]. split; [exact Hlog1|].
        intros r [= <-]. right. exists s. split; [now left|]. split; [exact Hatt|].
        now apply Hshape.
      * intros Hrest.
        destruct (IH w1 w' res (Hkeep1 _ _ Hinit) Hrest) as (Hkeep2 & Hlog2 & Hres).
        split; [now apply (untouched_trans w w1 w')|].
        split; [now apply (log_grows_trans w w1 w')|].
        intros r Hr. destruct (Hres r Hr) as [->|(k & Hk & Hkatt & Hkshape)];
          [now left|right]. exists k. split; [now right|]. split; assumption.
      * intros [= <- <-]. split; [exact Hkeep1|]. split; [exact Hlog1|].
        intros r Hr. discriminate.
    + rewrite rung_skipped by reflexivity. intros Hrest.
      destruct (IH w w' res Hinit Hrest) as (Hkeep & Hlog & Hres).
      split; [exact Hkeep|]. split; [exact Hlog|].
      intros r Hr. destruct (Hres r Hr) as [->|(k & Hk & Hkatt & Hkshape)];
        [now left|right]. exists k. split; [now right|]. split; assumption.
Qed.

Lemma ladder_all_in : Forall (fun s => In s ladder) ladder.
Proof. apply List.Forall_forall. auto. Qed.

(** The whole call, with or without a survivor of the strict filter. *)
Lemma negotiate_effect utcoffset self init available_slots participants min_score
    previous_strategy w w' res :
  heap w !! initial self = Some init ->
  negotiate_schedule utcoffset self available_slots participants min_score
    previous_strategy w = (w', res) ->
  untouched w w'
  /\ log_grows w w'
  /\ forall r, res = Ok r ->
      leads r
      /\ ((strategy_choose r = NONE
           /\ proposed_schedule r = Some (initial self)
           /\ exists best,
               selected_slot r = Some best
               /\ In best available_slots
               /\ ((min_score <= confidence best)%Q /\ outcome r = OPTIMAL_FOUND
                   \/ (confidence best < min_score)%Q /\ outcome r = COMPROMISE_PROPOSED))
          \/ (exists s, In s ladder /\ attempts previous_strategy s = true
                        /\ compromise_of self s w' r)
          \/ r = impossible_result).
Proof.
  intros Hinit.
  destruct (sort_by_confidence
              (List.filter
                 (fun s => _slot_respects_all utcoffset s (prefs_of participants)
                             (calendars_of participants)) available_slots))
    as [|best rest] eqn:Hsort.
  - apply sort_by_confidence_nil in Hsort.
    rewrite (negotiate_without_survivor _ _ _ _ _ _ _ Hsort).
    set (w0 := mk_world (heap w) _). intros Hclimb.
    destruct (climb_effect utcoffset self init available_slots (prefs_of participants)
                (calendars_of participants) previous_strategy ladder ladder_all_in
                w0 w' res Hinit Hclimb) as (Hkeep & Hlog & Hres).
    split; [exact Hkeep|]. split.
    { apply (log_grows_trans w w0 w'); [|exact Hlog]. eexists. reflexivity. }
    intros r Hr. destruct (Hres r Hr) as [->|(s & Hs & Hatt & Hshape)].
    + split; [apply leads_nothing|]. right. now right.
    + split; [apply Hshape|]. right. left. now exists s.
  - rewrite (negotiate_with_survivor _ _ _ _ _ _ _ best rest Hsort).
    intros [= <- <-]. split; [now apply untouched_same_heap|].
    split; [eexists; reflexivity|].
    intros r [= <-]. split; [now apply (leads_sorted _ _ _ _ _ _ _ Hsort)|].
    left. cbn [strategy_choose proposed_schedule selected_slot outcome].
    split; [reflexivity|]. split; [reflexivity|]. exists best.
    split; [reflexivity|]. split.
    { destruct (sort_by_confidence_head _ _ _ Hsort) as [Hin _].
      apply filter_In in Hin. apply Hin. }
    destruct (Qle_bool min_score (confidence best)) eqn:E.
    + left. split; [now apply Qle_bool_iff|reflexivity].
    + right. split; [|reflexivity]. apply Qnot_le_lt. intros Hle.
      apply Qle_bool_iff in Hle. congruence.
Qed.

(** X10. Whatever the slots, the participants, the threshold and the previous
    strategy, and whether the call returns a result or raises, a call of
    [negotiate_schedule] leaves every schedule object that existed before,
    the initial schedule among them, with the field values it had, and only
    adds steps to the log. *)
Theorem negotiate_never_overwrites :
  forall utcoffset self init available_slots participants min_score previous_strategy
         w w' res,
    heap w !! initial self = Some init ->
    negotiate_schedule utcoffset self available_slots participants min_score
      previous_strategy w = (w', res) ->
    untouched w w'
    /\ heap w' !! initial self = Some init
    /\ log_grows w w'.
Proof.
  intros utcoffset self init available_slots participants min_score previous_strategy
    w w' res Hinit Hrun.
  destruct (negotiate_effect _ _ _ _ _ _ _ _ _ _ Hinit Hrun) as (Hkeep & Hlog & _).
  split; [exact Hkeep|]. split; [now apply Hkeep|exact Hlog].
Qed.

(** Alice prefers mornings and the only slot is in the afternoon: the
    time-of-day shift allocates a schedule, the initial one stays. *)
Lemma negotiate_never_overwrites_witness :
  heap world0 !! initial agent0 = Some schedule0
  /\ exists w' res,
      negotiate_schedule 0 agent0 [slot_at 14 0 60 0.7] (alone prefers_morning) 0.6 NONE
        world0 = (w', res)
      /\ heap w' !! initial agent0 = Some schedule0.
Proof.
  split; [exact world0_initial|].
  destruct (negotiate_schedule 0 agent0 [slot_at 14 0 60 0.7] (alone prefers_morning)
              0.6 NONE world0) as [w' res] eqn:Hrun.
  exists w', res. split; [reflexivity|].
  exact (proj1 (proj2 (negotiate_never_overwrites 0 agent0 schedule0
                         [slot_at 14 0 60 0.7] (alone prefers_morning) 0.6 NONE
                         world0 w' res world0_initial Hrun))).
Defined.

(** X11. Every result that [negotiate_schedule] returns has at most two
    alternatives, none more confident than the selected slot. The outcome
    OPTIMAL_FOUND comes from the strict filter only, with a selected slot of
    the input whose confidence reaches the threshold: no strategy yields it.
    A result carries no selected slot exactly when it comes from the
    alternative-day strategy or is impossible, and no schedule exactly when it
    is impossible. *)
Theorem negotiation_result_is_well_formed :
  forall utcoffset self init available_slots participants min_score previous_strategy
         w w' r,
    heap w !! initial self = Some init ->
    negotiate_schedule utcoffset self available_slots participants min_score
      previous_strategy w = (w', Ok r) ->
    leads r
    /\ (outcome r = OPTIMAL_FOUND ->
        strategy_choose r = NONE
        /\ exists best, selected_slot r = Some best /\ In best available_slots
                        /\ (min_score <= confidence best)%Q)
    /\ (selected_slot r = None
        <-> strategy_choose r = ALTERNATIVE_DAY \/ outcome r = IMPOSSIBLE)
    /\ (proposed_schedule r = None <-> outcome r = IMPOSSIBLE)
    /\ (strategy_choose r <> NONE ->
        outcome r = COMPROMISE_PROPOSED
        /\ attempts previous_strategy (strategy_choose r) = true).
Proof.
  intros utcoffset self init available_slots participants min_score previous_strategy
    w w' r Hinit Hrun.
  destruct (negotiate_effect _ _ _ _ _ _ _ _ _ _ Hinit Hrun) as (_ & _ & Hres).
  destruct (Hres r eq_refl) as [Hleads Hcases]. split; [exact Hleads|].
  destruct Hcases as [(Hnone & Hsched & best & Hsel & Hin & Hout)
                     |[(s & Hs & Hatt & Hout & Hstr & (l & v & Hsched & _) & Hsel & _)| ->]].
  - rewrite Hnone, Hsched, Hsel.
    split.
    { intros Hopt. split; [reflexivity|]. exists best. split; [reflexivity|].
      split; [exact Hin|]. destruct Hout as [[Hle _]|[_ Hc]]; [exact Hle|congruence]. }
    split.
    { split; [discriminate|]. intros [|Himp]; [discriminate|].
      destruct Hout as [[_ Ho]|[_ Ho]]; congruence. }
    split.
    { split; [discriminate|]. intros Himp. destruct Hout as [[_ Ho]|[_ Ho]]; congruence. }
    intros Hne. now contradiction Hne.
  - rewrite Hout, Hstr, Hsched.
    split; [discriminate|].
    split.
    { rewrite Hsel. split; [now left|]. intros [|]; [assumption|discriminate]. }
    split; [split; discriminate|].
    intros _. split; [reflexivity|exact Hatt].
  - cbn [impossible_result outcome strategy_choose selected_slot proposed_schedule].
    split; [discriminate|].
    split; [split; [now right|reflexivity]|].
    split; [split; reflexivity|].
    intros Hne. now contradiction Hne.
Qed.

Lemma negotiation_result_is_well_formed_witness :
  heap world0 !! initial agent0 = Some schedule0
  /\ exists w' r,
      negotiate_schedule 0 agent0 [slot_at 14 0 60 0.7] (alone prefers_morning) 0.6 NONE
        world0 = (w', Ok r)
      /\ leads r.
Proof.
  split; [exact world0_initial|].
  destruct (negotiate_schedule 0 agent0 [slot_at 14 0 60 0.7] (alone prefers_morning)
              0.6 NONE world0) as [w' res] eqn:Hrun.
  assert (Hres : exists r, res = Ok r).
  { vm_compute in Hrun. injection Hrun as _ <-. eexists. reflexivity. }
  destruct Hres as [r ->].
  exists w', r. split; [reflexivity|].
  exact (proj1 (negotiation_result_is_well_formed 0 agent0 schedule0
                  [slot_at 14 0 60 0.7] (alone prefers_morning) 0.6 NONE
                  world0 w' r world0_initial Hrun)).
Defined.

(** ** What each strategy selects *)

Lemma fold_min_spec l x :
  In (fold_left Z.min l x) (x :: l)
  /\ forall y, In y (x :: l) -> fold_left Z.min l x <= y.
Proof.
  revert x. induction l as [|z l IH]; intros x; cbn [fold_left].
  - split; [now left|]. intros y [<-|[]]. lia.
  - destruct (IH (Z.min x z)) as [Hin Hle]. split.
    + destruct Hin as [Hin|Hin]; [|right; now right].
      rewrite <- Hin. destruct (Z.min_spec x z) as [[_ ->]|[_ ->]];
        [now left|right; now left].
    + intros y Hy.
      assert (Hm : fold_left Z.min l (Z.min x z) <= Z.min x z)
        by (apply Hle; now left).
      destruct Hy as [<-|[<-|Hy]]; [lia|lia|]. apply Hle. now right.
Qed.

Lemma truthy_cap_iff (pr : ParticipantPreferences) c :
  truthy_int (preferred_max_duration pr) = true
  /\ int_value (preferred_max_duration pr) = c
  <-> preferred_max_duration pr = Some c /\ c <> 0.
Proof.
  unfold truthy_int, int_value. destruct (preferred_max_duration pr) as [n|].
  - destruct (Z.eqb_spec n 0); cbn [negb]; split.
    + intros [H _]. discriminate.
    + intros [[= ->] H]. contradiction.
    + intros [_ <-]. auto.
    + intros [[= ->] _]. auto.
  - split; [intros [H _]; discriminate|intros [H _]; discriminate].
Qed.

Lemma caps_smallest (prefs : list (string * ParticipantPreferences)) c cs :
  map (fun ppr => int_value (preferred_max_duration (snd ppr)))
    (List.filter (fun ppr => truthy_int (preferred_max_duration (snd ppr))) prefs)
  = c :: cs ->
  smallest_cap_of prefs (fold_left Z.min cs c).
Proof.
  intros Hcaps.
  assert (Hmem : forall x, In x (c :: cs)
                           <-> exists ppr, In ppr prefs
                                           /\ preferred_max_duration (snd ppr) = Some x
                                           /\ x <> 0).
  { intros x. rewrite <- Hcaps, in_map_iff. split.
    - intros (ppr & Hx & Hin). apply filter_In in Hin. destruct Hin as [Hin Ht].
      exists ppr. split; [exact Hin|]. now apply truthy_cap_iff.
    - intros (ppr & Hin & Hsome & Hne).
      destruct (proj2 (truthy_cap_iff (snd ppr) x) (conj Hsome Hne)) as [Ht Hv].
      exists ppr. split; [exact Hv|]. apply filter_In. now split. }
  destruct (fold_min_spec cs c) as [Hin Hle]. split.
  - now apply Hmem.
  - intros ppr x Hppr Hsome Hne. apply Hle. apply Hmem. now exists ppr.
Qed.

(** X12. When the duration adjustment returns a result, the new schedule is
    the initial one with its default duration set to the least duration cap
    that is set among the participants, a positive value below the old
    default. The selected slot is an input slot at least as long as the cap,
    of greatest confidence among those, rebuilt with the cap as its duration
    but with the start and end times it had; the alternatives carry the cap
    as their duration too. *)
Theorem duration_adjust_selects_capped_slot :
  forall self slots prefs w init w' r,
    heap w !! initial self = Some init ->
    _strategy_duration_adjust self slots prefs w = (w', Ok (Some r)) ->
    exists cap original new_ref,
      smallest_cap_of prefs cap
      /\ 0 < cap < default_duration init
      /\ proposed_schedule r = Some new_ref
      /\ heap w' !! new_ref = Some (set_default_duration cap init)
      /\ selected_slot r = Some (replace_duration cap original)
      /\ In original slots
      /\ cap <= duration_minutes original
      /\ (forall s, In s slots -> cap <= duration_minutes s ->
                    (confidence s <= confidence original)%Q)
      /\ Forall (fun a => duration_minutes a = cap) (alternative_suggestions r).
Proof.
  intros self slots prefs w init w' r Hinit.
  rewrite (duration_adjust_run_any self slots prefs w init Hinit).
  destruct (map _ (List.filter _ prefs)) as [|c cs] eqn:Hcaps; [discriminate|].
  cbv zeta. set (cap := fold_left Z.min cs c).
  destruct (Z.leb_spec (default_duration init) cap) as [|Hbelow]; [discriminate|].
  destruct (List.filter _ slots) as [|x l] eqn:Hfilter; [discriminate|].
  destruct (Z.ltb_spec 0 cap) as [Hpos|]; [|discriminate].
  destruct (sort_by_confidence _) as [|best rest] eqn:Hsort; [discriminate|].
  intros [= <- <-].
  destruct (sort_by_confidence_head _ _ _ Hsort) as [Hbest Hmax].
  apply in_map_iff in Hbest. destruct Hbest as (original & <- & Horig).
  rewrite <- Hfilter in Horig. apply filter_In in Horig. destruct Horig as [Hin Hlong].
  apply Z.leb_le in Hlong.
  exists cap, original, (fresh (dom (heap w))).
  cbn [proposed_schedule selected_slot alternative_suggestions heap].
  split; [now apply caps_smallest|]. split; [lia|]. split; [reflexivity|].
  split; [apply lookup_insert_eq|]. split; [reflexivity|].
  split; [exact Hin|]. split; [exact Hlong|]. split.
  - intros s Hs Hlen.
    apply (Hmax (replace_duration cap s)). apply in_map. rewrite <- Hfilter.
    apply filter_In. split; [exact Hs|now apply Z.leb_le].
  - apply List.Forall_forall. intros a Ha.
    assert (Hrest : In a (sort_by_confidence
                            (map (replace_duration cap) (x :: l)))).
    { rewrite Hsort. right.
      destruct rest as [|y [|z rest]]; simpl in Ha; simpl; tauto. }
    apply (proj1 (sort_by_confidence_In _ _)) in Hrest.
    apply in_map_iff in Hrest. destruct Hrest as (s & <- & _). reflexivity.
Qed.

(** Alice caps meetings at 45 minutes; the schedule asks for 60. *)
Lemma duration_adjust_selects_capped_slot_witness :
  heap world0 !! initial agent0 = Some schedule0
  /\ exists w' r,
      _strategy_duration_adjust agent0 [slot_at 10 0 60 0.7]
        (prefs_of (alone at_most_45)) world0 = (w', Ok (Some r))
      /\ exists cap original,
          smallest_cap_of (prefs_of (alone at_most_45)) cap
          /\ selected_slot r = Some (replace_duration cap original).
Proof.
  split; [exact world0_initial|].
  destruct (_strategy_duration_adjust agent0 [slot_at 10 0 60 0.7]
              (prefs_of (alone at_most_45)) world0) as [w' res] eqn:Hrun.
  assert (Hres : exists r, res = Ok (Some r)).
  { vm_compute in Hrun. injection Hrun as _ <-. eexists. reflexivity. }
  destruct Hres as [r ->].
  destruct (duration_adjust_selects_capped_slot agent0 [slot_at 10 0 60 0.7]
              (prefs_of (alone at_most_45)) world0 schedule0 w' r world0_initial Hrun)
    as (cap & original & new_ref & Hcap & _ & _ & _ & Hsel & _).
  exists w', r. split; [reflexivity|]. exists cap, original. split; assumption.
Defined.

Lemma find_flat_pairs {A} (f : A -> bool) (g : Z -> A) (os : list Z) x :
  List.find f (flat_map (fun o => [g o; g (- o)]) os) = Some x ->
  exists pre o post,
    os = pre ++ o :: post
    /\ Forall (fun o' => f (g o') = false /\ f (g (- o')) = false) pre
    /\ f x = true
    /\ (x = g o \/ (x = g (- o) /\ f (g o) = false)).
Proof.
  induction os as [|o os IH]; [discriminate|].
  cbn [flat_map app List.find].
  destruct (f (g o)) eqn:Hpos.
  - intros [= <-]. exists [], o, os. repeat split; auto.
  - destruct (f (g (- o))) eqn:Hneg.
    + intros [= <-]. exists [], o, os. repeat split; auto.
    + intros Hfind. destruct (IH Hfind) as (pre & o1 & post & -> & Hpre & Hx & Hcase).
      exists (o :: pre), o1, post. repeat split; auto.
Qed.

Lemma offsets_split n : forall start pre o post,
  map Z.of_nat (seq start n) = pre ++ o :: post ->
  Z.of_nat start <= o < Z.of_nat (start + n)
  /\ forall o', Z.of_nat start <= o' < o -> In o' pre.
Proof.
  induction n as [|n IH]; intros start pre o post Heq.
  - destruct pre; discriminate.
  - cbn [seq map] in Heq. destruct pre as [|a pre].
    + injection Heq as <- _. split; [lia|]. intros o' Ho'. lia.
    + injection Heq as <- Heq. destruct (IH _ _ _ _ Heq) as [Hrange Hpre].
      split; [lia|]. intros o' Ho'.
      destruct (Z.eq_dec o' (Z.of_nat start)) as [->|Hne]; [now left|right].
      apply Hpre. lia.
Qed.

Lemma time_of_plus_days t k : time_of (plus_days t k) = time_of t.
Proof.
  unfold time_of, plus_days, hour, minute, minutes_per_day. f_equal.
  - replace (t + k * 1440) with (t + (k * 24) * 60) by lia.
    rewrite Z.div_add by lia. apply Z_mod_plus_full.
  - replace (t + k * 1440) with (t + (k * 24) * 60) by lia. apply Z_mod_plus_full.
Qed.

(** X13. When the alternative-day strategy returns a result, the new
    schedule is the initial one moved by a whole number of days, at least one
    and at most [max_alternative_days], to a weekday on which no participant
    has reached a daily cap, at the same time of day. Every nearer day, before
    or after, is a weekend day or has a cap reached, and so is the day at the
    same distance after the initial one when the chosen day lies before it.
    The result has no selected slot and no alternatives. *)
Theorem alternative_day_picks_nearest_day :
  forall utcoffset self slots prefs calendars w init w' r,
    heap w !! initial self = Some init ->
    _strategy_alternative_day utcoffset self slots prefs calendars w
    = (w', Ok (Some r)) ->
    let acceptable day := (weekday day <? 5) && day_ok utcoffset prefs calendars day in
    exists offset new_ref,
      1 <= Z.abs offset <= max_alternative_days init
      /\ acceptable (plus_days (schedule_day init) offset) = true
      /\ (forall nearer, 1 <= Z.abs nearer < Z.abs offset ->
                         acceptable (plus_days (schedule_day init) nearer) = false)
      /\ (offset < 0 -> acceptable (plus_days (schedule_day init) (- offset)) = false)
      /\ time_of (plus_days (schedule_day init) offset) = time_of (schedule_day init)
      /\ proposed_schedule r = Some new_ref
      /\ heap w' !! new_ref
         = Some (set_schedule_day (plus_days (schedule_day init) offset) init)
      /\ selected_slot r = None
      /\ alternative_suggestions r = [].
Proof.
  intros utcoffset self slots prefs calendars w init w' r Hinit.
  rewrite (alternative_day_run utcoffset self slots prefs calendars w init Hinit).
  destruct (max_alternative_days init =? 0); [discriminate|].
  destruct (List.find _ _) as [day|] eqn:Hfind; [|discriminate].
  intros [= <- <-] acceptable.
  unfold candidate_days in Hfind.
  apply (find_flat_pairs _ (plus_days (schedule_day init))) in Hfind.
  destruct Hfind as (pre & o & post & Hsplit & Hpre & Hday & Hcase).
  destruct (offsets_split _ _ _ _ _ Hsplit) as [Hrange Hnear].
  assert (Hmax : o <= max_alternative_days init) by lia.
  assert (Hfail : forall nearer, 1 <= Z.abs nearer < o ->
                    acceptable (plus_days (schedule_day init) nearer) = false).
  { intros nearer Hn. rewrite List.Forall_forall in Hpre.
    destruct (Hpre (Z.abs nearer)) as [Hp Hm]; [apply Hnear; lia|].
    destruct (Z.abs_spec nearer) as [[_ E]|[_ E]]; rewrite E in *.
    - exact Hp.
    - rewrite Z.opp_involutive in Hm. exact Hm. }
  cbn [proposed_schedule selected_slot alternative_suggestions heap].
  destruct Hcase as [->|[-> Hlater]].
  - exists o, (fresh (dom (heap w))).
    rewrite (Z.abs_eq o) by lia.
    split; [lia|]. split; [exact Hday|]. split; [exact Hfail|].
    split; [lia|]. split; [apply time_of_plus_days|]. split; [reflexivity|].
    split; [apply lookup_insert_eq|]. split; reflexivity.
  - exists (- o), (fresh (dom (heap w))).
    rewrite (Z.abs_neq (- o)) by lia. rewrite Z.opp_involutive.
    split; [lia|]. split; [exact Hday|]. split; [exact Hfail|].
    split; [intros _; exact Hlater|]. split; [apply time_of_plus_days|].
    split; [reflexivity|]. split; [apply lookup_insert_eq|]. split; reflexivity.
Qed.

Lemma alternative_day_picks_nearest_day_witness :
  heap world0 !! initial agent0 = Some schedule0
  /\ exists w' r,
      _strategy_alternative_day 0 agent0 [] (prefs_of (alone prefers_morning))
        (calendars_of (alone prefers_morning)) world0 = (w', Ok (Some r))
      /\ selected_slot r = None.
Proof.
  split; [exact world0_initial|].
  destruct (_strategy_alternative_day 0 agent0 [] (prefs_of (alone prefers_morning))
              (calendars_of (alone prefers_morning)) world0) as [w' res] eqn:Hrun.
  assert (Hres : exists r, res = Ok (Some r)).
  { vm_compute in Hrun. injection Hrun as _ <-. eexists. reflexivity. }
  destruct Hres as [r ->].
  destruct (alternative_day_picks_nearest_day 0 agent0 [] (prefs_of (alone prefers_morning))
              (calendars_of (alone prefers_morning)) world0 schedule0 w' r
              world0_initial Hrun)
    as (offset & new_ref & _ & _ & _ & _ & _ & _ & _ & Hsel & _).
  exists w', r. split; [reflexivity|exact Hsel].
Defined.

Lemma shift_clock_valid t m : valid_time (shift_clock t m).
Proof.
  unfold valid_time, shift_clock, minutes_per_day. cbn [t_hour t_minute].
  pose proof (Z.mod_pos_bound (t_hour t * 60 + t_minute t + m) 1440 ltac:(lia)) as Hb.
  set (total := (t_hour t * 60 + t_minute t + m) mod 1440) in *.
  pose proof (Z.mod_pos_bound total 60 ltac:(lia)).
  pose proof (Z.div_pos total 60 ltac:(lia) ltac:(lia)).
  assert (total / 60 < 24) by (apply Z.div_lt_upper_bound; lia).
  lia.
Qed.

Lemma shift_clock_minutes t m :
  minute_of_day (shift_clock t m) = (minute_of_day t + m) mod minutes_per_day.
Proof.
  unfold minute_of_day, shift_clock. cbn [t_hour t_minute].
  set (total := (t_hour t * 60 + t_minute t + m) mod minutes_per_day).
  pose proof (Z.div_mod total 60 ltac:(lia)). lia.
Qed.

(** X14. When the relaxed-hours strategy returns a result, the new schedule
    is the initial one with its working hours moved, on the clock, 30 minutes
    earlier at the start and 30 minutes later at the end, wrapping around
    midnight; both are valid times. The selected slot is one of the input
    slots, none is generated for the added time: it passes the gate of the
    strategy and has the greatest confidence among the input slots that do. *)
Theorem relax_hours_widens_the_clock :
  forall self slots prefs w init w' r,
    heap w !! initial self = Some init ->
    _strategy_relax_hours self slots prefs w = (w', Ok (Some r)) ->
    exists best new_ref new_sched,
      proposed_schedule r = Some new_ref
      /\ heap w' !! new_ref = Some new_sched
      /\ valid_time (working_hours_start new_sched)
      /\ valid_time (working_hours_end new_sched)
      /\ minute_of_day (working_hours_start new_sched)
         = (minute_of_day (working_hours_start init) - 30) mod minutes_per_day
      /\ minute_of_day (working_hours_end new_sched)
         = (minute_of_day (working_hours_end init) + 30) mod minutes_per_day
      /\ selected_slot r = Some best
      /\ In best slots
      /\ relax_allowed prefs best = true
      /\ forall s, In s slots -> relax_allowed prefs s = true ->
                   (confidence s <= confidence best)%Q.
Proof.
  intros self slots prefs w init w' r Hinit.
  rewrite (relax_hours_run self slots prefs w init Hinit).
  destruct (sort_by_confidence _) as [|best rest] eqn:Hsort; [discriminate|].
  intros [= <- <-].
  destruct (sort_by_confidence_head _ _ _ Hsort) as [Hin Hmax].
  apply filter_In in Hin. destruct Hin as [Hin Hok].
  exists best, (fresh (dom (heap w))). eexists.
  cbn [proposed_schedule selected_slot heap].
  split; [reflexivity|]. split; [apply lookup_insert_eq|].
  cbn [working_hours_start working_hours_end set_working_hours_start
       set_working_hours_end].
  split; [apply shift_clock_valid|]. split; [apply shift_clock_valid|].
  split; [apply shift_clock_minutes|]. split; [apply shift_clock_minutes|].
  split; [reflexivity|]. split; [exact Hin|]. split; [exact Hok|].
  intros s Hs Hoks. apply Hmax. apply filter_In. split; assumption.
Qed.

Lemma relax_hours_widens_the_clock_witness :
  heap world0 !! initial agent0 = Some schedule0
  /\ exists w' r best,
      _strategy_relax_hours agent0 [slot_at 14 0 60 0.7] (prefs_of (alone prefers_morning))
        world0 = (w', Ok (Some r))
      /\ selected_slot r = Some best
      /\ In best [slot_at 14 0 60 0.7].
Proof.
  split; [exact world0_initial|].
  destruct (_strategy_relax_hours agent0 [slot_at 14 0 60 0.7]
              (prefs_of (alone prefers_morning)) world0) as [w' res] eqn:Hrun.
  assert (Hres : exists r, res = Ok (Some r)).
  { vm_compute in Hrun. injection Hrun as _ <-. eexists. reflexivity. }
  destruct Hres as [r ->].
  destruct (relax_hours_widens_the_clock agent0 [slot_at 14 0 60 0.7]
              (prefs_of (alone prefers_morning)) world0 schedule0 w' r
              world0_initial Hrun)
    as (best & new_ref & new_sched & _ & _ & _ & _ & _ & _ & Hsel & Hin & _).
  exists w', r, best. split; [reflexivity|]. split; assumption.
Defined.

(** * Properties of the rounds of the coordinator *)

Lemma fallback_selection_none l :
  fallback_selection l = Ok None <-> l = [].
Proof.
  unfold fallback_selection. destruct l as [|x l]; cbn [nonempty].
  - split; reflexivity.
  - split; [|discriminate].
    destruct (most_common_1 (x :: l)) as [[most_common count]|e]; [|discriminate].
    destruct (highest_confidence_of (x :: l)); discriminate.
Qed.

(** The loop in closed form, from any of its states: the replies it adds to
    the history, the suggestions it collects from them, and the two ways it
    leaves. *)
Lemma negotiation_loop_returns analyst_agent negotiator_agent remaining :
  forall round_num0 schedule suggestions history0 exit,
    negotiation_loop analyst_agent negotiator_agent remaining round_num0 schedule
      suggestions history0 = Returned exit ->
    exists new,
      negotiation_history exit = history0 ++ new
      /\ all_suggestions exit = fold_left collect (map fields new) suggestions
      /\ (List.length new <= remaining)%nat
      /\ if optimal_found exit
         then exists earlier last,
             new = earlier ++ [last]
             /\ Forall goes_on earlier
             /\ outcome (fields last) = OPTIMAL_FOUND
             /\ best_slot exit = selected_slot (fields last)
             /\ round_num exit = (round_num0 + List.length earlier)%nat
         else Forall goes_on new
              /\ List.length new = remaining
              /\ round_num exit = (round_num0 + remaining)%nat
              /\ best_slot exit = None.
Proof.
  induction remaining as [|remaining IH];
    intros round_num0 schedule suggestions history0 exit; cbn [negotiation_loop].
  - intros [= <-]. exists [].
    cbn [negotiation_history all_suggestions optimal_found best_slot round_num
         map fold_left List.length].
    rewrite app_nil_r, Nat.add_0_r. repeat split; auto.
  - destruct (analyst_agent schedule) as [slots|e]; [|discriminate].
    destruct (negotiator_agent round_num0 slots schedule) as [negotiation|e];
      [|discriminate].
    cbv zeta.
    assert (Hnext :
      outcome (fields negotiation) <> OPTIMAL_FOUND ->
      match get_proposed_schedule negotiation with
      | None => Raised TypeError
      | Some proposed =>
          match new_MeetingSchedule proposed with
          | Raised e => Raised e
          | Returned schedule' =>
              negotiation_loop analyst_agent negotiator_agent remaining (S round_num0)
                schedule' (collect suggestions (fields negotiation))
                (history0 ++ [negotiation])
          end
      end = Returned exit ->
      exists new,
        negotiation_history exit = history0 ++ new
        /\ all_suggestions exit = fold_left collect (map fields new) suggestions
        /\ (List.length new <= S remaining)%nat
        /\ if optimal_found exit
           then exists earlier last,
               new = earlier ++ [last]
               /\ Forall goes_on earlier
               /\ outcome (fields last) = OPTIMAL_FOUND
               /\ best_slot exit = selected_slot (fields last)
               /\ round_num exit = (round_num0 + List.length earlier)%nat
           else Forall goes_on new
                /\ List.length new = S remaining
                /\ round_num exit = (round_num0 + S remaining)%nat
                /\ best_slot exit = None).
    { intros Hnot.
      destruct (get_proposed_schedule negotiation) as [proposed|] eqn:Hprop; [|discriminate].
      destruct (new_MeetingSchedule proposed) as [schedule'|e] eqn:Hnew; [|discriminate].
      intros Hloop.
      assert (Hgo : goes_on negotiation) by (split; [exact Hnot|eauto]).
      destruct (IH _ _ _ _ _ Hloop) as (new & Hhist & Hsugg & Hlen & Hexit).
      exists (negotiation :: new).
      split; [rewrite Hhist, <- app_assoc; reflexivity|].
      split; [exact Hsugg|]. split; [cbn [List.length]; lia|].
      destruct (optimal_found exit).
      - destruct Hexit as (earlier & last & -> & Hearlier & Hout & Hbest & Hround).
        exists (negotiation :: earlier), last.
        split; [reflexivity|]. split; [now constructor|].
        split; [exact Hout|]. split; [exact Hbest|]. cbn [List.length]. lia.
      - destruct Hexit as (Hall & Hlen' & Hround & Hbest).
        split; [now constructor|]. cbn [List.length].
        split; [lia|]. split; [lia|exact Hbest]. }
    destruct (outcome (fields negotiation)) eqn:Hout;
      [|apply Hnext; discriminate|apply Hnext; discriminate].
    intros [= <-]. exists [negotiation].
    cbn [negotiation_history all_suggestions optimal_found best_slot round_num
         map fold_left List.length].
    split; [reflexivity|]. split; [reflexivity|]. split; [lia|].
    exists [], negotiation. cbn [List.length]. rewrite Nat.add_0_r.
    repeat split; auto.
Qed.

(** X15. Whatever the two agents reply, a summary that [on_messages] comes to
    is of one of two kinds. Either the last reply is optimal and every earlier
    reply was not and carried an acceptable schedule: the outcome is
    OPTIMAL_FOUND, the slot is the selected slot of the last reply, and the
    number of rounds reported is the number of earlier replies, so zero
    when the first round is optimal. Or all [max_negotiation_rounds] rounds
    were run, each with such a reply that is not optimal: the slot is the
    fallback selection over the slots collected from all replies, and the
    outcome is FALLBACK, or IMPOSSIBLE when no slot was collected. *)
Theorem coordinator_summary_has_two_kinds :
  forall analyst_agent negotiator_agent max_negotiation_rounds initial_meeting_schedule
         schedule_date summary,
    negotiation_summary analyst_agent negotiator_agent max_negotiation_rounds
      initial_meeting_schedule schedule_date = Returned summary ->
    (outcome_type summary = "OPTIMAL_FOUND"%string
     /\ exists earlier last,
         history summary = earlier ++ [last]
         /\ Forall goes_on earlier
         /\ outcome (fields last) = OPTIMAL_FOUND
         /\ summary_slot summary = selected_slot (fields last)
         /\ negotiation_rounds summary = List.length earlier
         /\ (List.length earlier < max_negotiation_rounds)%nat)
    \/ (Forall goes_on (history summary)
        /\ List.length (history summary) = max_negotiation_rounds
        /\ negotiation_rounds summary = max_negotiation_rounds
        /\ fallback_selection (suggestions_of (map fields (history summary)))
           = Ok (summary_slot summary)
        /\ (summary_slot summary = None
            <-> suggestions_of (map fields (history summary)) = [])
        /\ outcome_type summary
           = match summary_slot summary with
             | Some _ => "FALLBACK"%string
             | None => "IMPOSSIBLE"%string
             end).
Proof.
  intros analyst_agent negotiator_agent max_negotiation_rounds initial_meeting_schedule
    schedule_date summary. unfold negotiation_summary. cbv zeta.
  destruct (negotiation_loop _ _ _ _ _ _ _) as [exit|e] eqn:Hloop; [|discriminate].
  destruct (negotiation_loop_returns _ _ _ _ _ _ _ _ Hloop)
    as (new & Hhist & Hsugg & Hlen & Hexit).
  cbn [app] in Hhist. unfold final_slot.
  destruct (optimal_found exit); cbn [negb].
  - intros [= <-]. left. cbn [outcome_type history summary_slot negotiation_rounds].
    split; [reflexivity|].
    destruct Hexit as (earlier & last & -> & Hearlier & Hout & Hbest & Hround).
    exists earlier, last. rewrite Hhist. repeat split; try assumption.
    rewrite length_app in Hlen. cbn [List.length] in Hlen. lia.
  - destruct Hexit as (Hall & Hlen' & Hround & _).
    destruct (fallback_selection (all_suggestions exit)) as [best|e] eqn:Hfb;
      [|discriminate].
    intros [= <-]. right. cbn [outcome_type history summary_slot negotiation_rounds].
    rewrite Hhist. unfold suggestions_of. rewrite <- Hsugg.
    split; [exact Hall|]. split; [exact Hlen'|]. split; [exact Hround|].
    split; [exact Hfb|]. split; [|reflexivity].
    rewrite <- fallback_selection_none, Hfb. split; [now intros ->|now intros [= ->]].
Qed.

(** Alice prefers mornings and the analyst offers 10:00: the first round is
    optimal, and no round is reported. *)
Lemma coordinator_summary_has_two_kinds_witness :
  exists summary,
    negotiation_summary analyst_morning negotiator_for_alice 5 schedule0 None
    = Returned summary
    /\ outcome_type summary = "OPTIMAL_FOUND"%string
    /\ negotiation_rounds summary = 0%nat.
Proof.
  destruct (negotiation_summary analyst_morning negotiator_for_alice 5 schedule0 None)
    as [summary|e] eqn:Hrun; [|vm_compute in Hrun; discriminate].
  exists summary. split; [reflexivity|].
  destruct (coordinator_summary_has_two_kinds analyst_morning negotiator_for_alice 5
              schedule0 None summary Hrun)
    as [(Hout & earlier & last & Hhist & _ & _ & _ & Hrounds & _)|(_ & Hlen & _)].
  - split; [exact Hout|]. rewrite Hrounds.
    assert (Hone : List.length (history summary) = 1%nat).
    { vm_compute in Hrun. injection Hrun as <-. reflexivity. }
    rewrite Hhist, length_app in Hone. cbn [List.length] in Hone. lia.
  - exfalso. assert (Hone : List.length (history summary) = 1%nat).
    { vm_compute in Hrun. injection Hrun as <-. reflexivity. }
    rewrite Hone in Hlen. discriminate.
Defined.

(** X16. In whatever round and state of the loop, a reply that is not
    optimal and has no proposed schedule, as the impossible result of the
    negotiator, makes the coordinator raise [TypeError] when it builds the
    schedule of the next round; in the first round the whole of
    [on_messages] raises it, and no summary is produced. *)
Theorem coordinator_raises_without_schedule :
  forall analyst_agent negotiator_agent model_client remaining round_num schedule
         suggestions negotiation_history slots negotiation,
    analyst_agent schedule = Done slots ->
    negotiator_agent round_num slots schedule = Ok negotiation ->
    outcome (fields negotiation) <> OPTIMAL_FOUND ->
    proposed_schedule (fields negotiation) = None ->
    negotiation_loop analyst_agent negotiator_agent (S remaining) round_num schedule
      suggestions negotiation_history = Raised TypeError
    /\ (round_num = 0%nat ->
        on_messages analyst_agent negotiator_agent model_client (S remaining) schedule
          None
        = Raised TypeError).
Proof.
  intros analyst_agent negotiator_agent model_client remaining round_num schedule
    suggestions negotiation_history slots negotiation Hanalyst Hnegotiator Hnot Hnone.
  assert (Hloop : forall suggestions negotiation_history,
             negotiation_loop analyst_agent negotiator_agent (S remaining) round_num
               schedule suggestions negotiation_history = Raised TypeError).
  { intros sugg hist. cbn [negotiation_loop]. rewrite Hanalyst, Hnegotiator. cbv zeta.
    unfold get_proposed_schedule. rewrite Hnone.
    destruct (outcome (fields negotiation)); [now contradiction Hnot| |]; reflexivity. }
  split; [apply Hloop|].
  intros ->. unfold on_messages, negotiation_summary. cbv zeta. now rewrite Hloop.
Qed.

(** Nothing is offered and no other day may be tried: the negotiator
    answers with the impossible result. *)
Lemma coordinator_raises_without_schedule_witness :
  exists negotiation,
    analyst_nothing schedule_no_alternative_day = Done []
    /\ negotiator_for_alice 0 [] schedule_no_alternative_day = Ok negotiation
    /\ outcome (fields negotiation) <> OPTIMAL_FOUND
    /\ proposed_schedule (fields negotiation) = None
    /\ on_messages analyst_nothing negotiator_for_alice (fun _ _ => None) 5
         schedule_no_alternative_day None
       = Raised TypeError.
Proof.
  destruct (negotiator_for_alice 0 [] schedule_no_alternative_day)
    as [negotiation|e] eqn:Hrun; [|vm_compute in Hrun; discriminate].
  assert (Hfields : fields negotiation = impossible_result).
  { vm_compute in Hrun. injection Hrun as <-. reflexivity. }
  assert (Hnot : outcome (fields negotiation) <> OPTIMAL_FOUND)
    by (rewrite Hfields; discriminate).
  assert (Hnone : proposed_schedule (fields negotiation) = None)
    by (rewrite Hfields; reflexivity).
  exists negotiation. split; [reflexivity|]. split; [reflexivity|].
  split; [exact Hnot|]. split; [exact Hnone|].
  exact (proj2 (coordinator_raises_without_schedule analyst_nothing negotiator_for_alice
                  (fun _ _ => None) 4 0 schedule_no_alternative_day [] [] []
                  negotiation eq_refl Hrun Hnot Hnone) eq_refl).
Defined.

Lemma date_midnight t : date (midnight t) = date t.
Proof. unfold midnight, date, minutes_per_day. apply Z.div_mul. lia. Qed.

(** X17. The schedule that the duration adjustment proposes asks for the least
    duration cap of the participants. Sent back through the coordinator to
    the analyst, on a weekday with working hours that name valid times in
    order and participants that are all in the store, it makes
    [propose_slots] run forever whenever that cap does not divide the length
    of the working hours. *)
Theorem adjusted_duration_must_divide_the_hours :
  forall get_preference get_person_calendar participants self slots prefs w init w' r,
    heap w !! initial self = Some init ->
    _strategy_duration_adjust self slots prefs w = (w', Ok (Some r)) ->
    (forall p, In p participants -> get_preference p <> None) ->
    valid_time (working_hours_start init) ->
    valid_time (working_hours_end init) ->
    time_ltb (working_hours_start init) (working_hours_end init) = true ->
    weekday (schedule_day init) < 5 ->
    exists cap new_ref proposed,
      smallest_cap_of prefs cap
      /\ proposed_schedule r = Some new_ref
      /\ heap w' !! new_ref = Some proposed
      /\ default_duration proposed = cap
      /\ forall schedule,
          new_MeetingSchedule proposed = Returned schedule ->
          (minute_of_day (working_hours_end init)
           - minute_of_day (working_hours_start init)) mod cap <> 0 ->
          forall fuel,
            propose_slots get_preference get_person_calendar participants schedule fuel
            = None.
Proof.
  intros get_preference get_person_calendar participants self slots prefs w init w' r
    Hinit Hrun Hknown Hws Hwe Horder Hweek.
  revert Hrun. rewrite (duration_adjust_run_any self slots prefs w init Hinit).
  destruct (map _ (List.filter _ prefs)) as [|c cs] eqn:Hcaps; [discriminate|].
  cbv zeta. set (cap := fold_left Z.min cs c).
  destruct (Z.leb_spec (default_duration init) cap) as [|Hbelow]; [discriminate|].
  destruct (List.filter _ slots) as [|x l]; [discriminate|].
  destruct (Z.ltb_spec 0 cap) as [Hpos|]; [|discriminate].
  destruct (sort_by_confidence _) as [|best rest]; [discriminate|].
  intros [= <- <-].
  exists cap, (fresh (dom (heap w))), (set_default_duration cap init).
  cbn [proposed_schedule heap].
  split; [now apply caps_smallest|]. split; [reflexivity|].
  split; [apply lookup_insert_eq|]. split; [reflexivity|].
  intros schedule Hnew Hrem fuel. unfold new_MeetingSchedule in Hnew.
  destruct (_ && _) in Hnew; [|discriminate]. injection Hnew as <-.
  apply propose_slots_hangs; try assumption.
  cbn [schedule_day set_schedule_day set_default_duration].
  unfold weekday. rewrite date_midnight. exact Hweek.
Qed.

(** Alice caps meetings at 45 minutes and the working hours are 08:00 to
    18:00: 45 does not divide 600. *)
Lemma adjusted_duration_must_divide_the_hours_witness :
  heap world0 !! initial agent0 = Some schedule0
  /\ valid_time (working_hours_start schedule0)
  /\ valid_time (working_hours_end schedule0)
  /\ time_ltb (working_hours_start schedule0) (working_hours_end schedule0) = true
  /\ weekday (schedule_day schedule0) < 5
  /\ exists w' r schedule,
      _strategy_duration_adjust agent0 [slot_at 10 0 60 0.7]
        (prefs_of (alone at_most_45)) world0 = (w', Ok (Some r))
      /\ default_duration schedule = 45
      /\ forall fuel,
          propose_slots (fun _ => Some at_most_45) (fun _ => []) ["Alice"%string]
            schedule fuel = None.
Proof.
  assert (Hws : valid_time (working_hours_start schedule0))
    by (vm_compute; intuition discriminate).
  assert (Hwe : valid_time (working_hours_end schedule0))
    by (vm_compute; intuition discriminate).
  assert (Hweek : weekday (schedule_day schedule0) < 5) by (vm_compute; reflexivity).
  split; [exact world0_initial|]. split; [exact Hws|]. split; [exact Hwe|].
  split; [reflexivity|]. split; [exact Hweek|].
  destruct (_strategy_duration_adjust agent0 [slot_at 10 0 60 0.7]
              (prefs_of (alone at_most_45)) world0) as [w' res] eqn:Hrun.
  assert (Hres : exists r, res = Ok (Some r)).
  { vm_compute in Hrun. injection Hrun as _ <-. eexists. reflexivity. }
  destruct Hres as [r ->].
  destruct (adjusted_duration_must_divide_the_hours
              (fun _ => Some at_most_45) (fun _ => []) ["Alice"%string]
              agent0 [slot_at 10 0 60 0.7] (prefs_of (alone at_most_45))
              world0 schedule0 w' r world0_initial Hrun
              ltac:(intros p _; discriminate) Hws Hwe eq_refl Hweek)
    as (cap & new_ref & proposed & Hcap & Hsched & Hheap & Hdur & Hhang).
  assert (Hcap45 : cap = 45).
  { destruct Hcap as [(ppr & Hin & Hsome & _) _].
    destruct Hin as [<-|[]]. cbn in Hsome. now injection Hsome as <-. }
  rewrite Hcap45 in Hdur, Hhang.
  assert (Hnew : exists schedule, new_MeetingSchedule proposed = Returned schedule).
  { revert Hsched Hheap. vm_compute in Hrun. injection Hrun as <- <-.
    cbn [proposed_schedule]. intros [= <-]. vm_compute. intros [= <-].
    eexists. reflexivity. }
  destruct Hnew as [schedule Hnew].
  exists w', r, schedule. split; [reflexivity|]. split.
  - unfold new_MeetingSchedule in Hnew. destruct (_ && _) in Hnew; [|discriminate].
    injection Hnew as <-. exact Hdur.
  - intros fuel. apply (Hhang schedule Hnew). vm_compute. discriminate.
Defined.

(** X18. The time-of-day shift proposes the initial schedule with its day set
    to the start of the selected slot, one of the input slots. When that slot
    lies on the day of the initial schedule, and the initial schedule is one
    the constructor returns unchanged, the schedule that the coordinator
    rebuilds from the proposal for the next round is the initial schedule
    again: the constructor moves the day back to midnight. *)
Theorem time_shift_proposes_the_same_schedule :
  forall self slots prefs w init w' r,
    heap w !! initial self = Some init ->
    _strategy_time_shift self slots prefs w = (w', Ok (Some r)) ->
    exists best new_ref proposed,
      selected_slot r = Some best
      /\ In best slots
      /\ proposed_schedule r = Some new_ref
      /\ heap w' !! new_ref = Some proposed
      /\ schedule_day proposed = start_time best
      /\ (new_MeetingSchedule init = Returned init ->
          date (start_time best) = date (schedule_day init) ->
          new_MeetingSchedule proposed = Returned init).
Proof.
  intros self slots prefs w init w' r Hinit.
  rewrite (time_shift_run self slots prefs w init Hinit).
  destruct (sort_by_confidence _) as [|best rest] eqn:Hsort; [discriminate|].
  intros [= <- <-].
  destruct (sort_by_confidence_head _ _ _ Hsort) as [Hin _].
  apply filter_In in Hin. destruct Hin as [Hin _].
  exists best, (fresh (dom (heap w))), (set_schedule_day (start_time best) init).
  cbn [selected_slot proposed_schedule heap].
  split; [reflexivity|]. split; [exact Hin|]. split; [reflexivity|].
  split; [apply lookup_insert_eq|]. split; [reflexivity|].
  unfold new_MeetingSchedule.
  cbn [default_duration working_hours_start working_hours_end time_slot_interval
       alternative_durations max_alternative_days schedule_day set_schedule_day].
  destruct (_ && _); [|discriminate].
  intros [= Hsame] Hdate. f_equal. rewrite <- Hsame at 2.
  unfold set_schedule_day, midnight. cbn [schedule_day default_duration
    working_hours_start working_hours_end time_slot_interval alternative_durations
    max_alternative_days]. now rewrite Hdate.
Qed.

Lemma time_shift_proposes_the_same_schedule_witness :
  heap world0 !! initial agent0 = Some schedule0
  /\ exists w' r best,
      _strategy_time_shift agent0 [slot_at 14 0 60 0.7] (prefs_of (alone prefers_morning))
        world0 = (w', Ok (Some r))
      /\ selected_slot r = Some best
      /\ In best [slot_at 14 0 60 0.7].
Proof.
  split; [exact world0_initial|].
  destruct (_strategy_time_shift agent0 [slot_at 14 0 60 0.7]
              (prefs_of (alone prefers_morning)) world0) as [w' res] eqn:Hrun.
  assert (Hres : exists r, res = Ok (Some r)).
  { vm_compute in Hrun. injection Hrun as _ <-. eexists. reflexivity. }
  destruct Hres as [r ->].
  destruct (time_shift_proposes_the_same_schedule agent0 [slot_at 14 0 60 0.7]
              (prefs_of (alone prefers_morning)) world0 schedule0 w' r
              world0_initial Hrun)
    as (best & new_ref & proposed & Hsel & Hin & _).
  exists w', r, best. split; [reflexivity|]. split; assumption.
Defined.

(** X19. On a Saturday or Sunday, or with working hours that do not end after
    they start, [propose_slots] for participants that are all in the store
    returns the empty list at once, whatever the duration. *)
Theorem propose_slots_outside_working_time :
  forall get_preference get_person_calendar participants meeting_schedule,
    (forall p, In p participants -> get_preference p <> None) ->
    valid_time (working_hours_start meeting_schedule) ->
    valid_time (working_hours_end meeting_schedule) ->
    5 <= weekday (schedule_day meeting_schedule)
    \/ minute_of_day (working_hours_end meeting_schedule)
       <= minute_of_day (working_hours_start meeting_schedule) ->
    propose_slots get_preference get_person_calendar participants meeting_schedule 1
    = Some (Done []).
Proof.
  intros get_preference get_person_calendar participants meeting_schedule
    Hknown Hws Hwe Hout.
  destruct (load_participants_done get_preference get_person_calendar participants
              Hknown []) as (data & Hload & Hentries & _).
  unfold propose_slots. rewrite Hload. unfold find_free_slots. cbn [working_hours].
  rewrite (all_busy_slots_done get_person_calendar data)
    by (intros e He; now apply Hentries).
  rewrite replace_time_twice by exact Hws.
  pose proof (minute_of_day_range _ Hws) as Rs.
  pose proof (minute_of_day_range _ Hwe) as Re.
  assert (Hgen : _generate_time_slots
                   (mk_analyst (working_hours_start meeting_schedule,
                                working_hours_end meeting_schedule)
                      (default_duration meeting_schedule))
                   (replace_time (schedule_day meeting_schedule)
                      (working_hours_start meeting_schedule))
                   (replace_time (schedule_day meeting_schedule)
                      (working_hours_end meeting_schedule))
                   (default_duration meeting_schedule) 1 = Some []).
  { destruct Hout as [Hweekend|Horder].
    - apply generate_weekend. rewrite replace_time_minutes. unfold weekday.
      now rewrite date_same_day.
    - apply generate_empty_range. rewrite !replace_time_minutes. lia. }
  rewrite Hgen.
  destruct (List.concat _); reflexivity.
Qed.

(** Saturday 2025-01-11. *)
Lemma propose_slots_outside_working_time_witness :
  (forall p, In p ["Alice"%string; "Bob"%string] -> stored_preference p <> None)
  /\ 5 <= weekday (schedule_day (set_schedule_day (at_ (friday_2025_01_10 + 1) 0 0)
                                   schedule0))
  /\ propose_slots stored_preference stored_calendar ["Alice"%string; "Bob"%string]
       (set_schedule_day (at_ (friday_2025_01_10 + 1) 0 0) schedule0) 1
     = Some (Done []).
Proof.
  assert (Hknown : forall p, In p ["Alice"%string; "Bob"%string] ->
                             stored_preference p <> None).
  { intros p [<-|[<-|[]]]; vm_compute; discriminate. }
  assert (Hweekend : 5 <= weekday (schedule_day
                                     (set_schedule_day (at_ (friday_2025_01_10 + 1) 0 0)
                                        schedule0)))
    by (vm_compute; discriminate).
  split; [exact Hknown|]. split; [exact Hweekend|].
  apply (propose_slots_outside_working_time stored_preference stored_calendar
           ["Alice"%string; "Bob"%string]
           (set_schedule_day (at_ (friday_2025_01_10 + 1) 0 0) schedule0) Hknown).
  - vm_compute; intuition discriminate.
  - vm_compute; intuition discriminate.
  - left. exact Hweekend.
Defined.

(** ** Wording the answer *)

Lemma reduce_history_raises history :
  (exists negotiation, In negotiation history
                       /\ selected_slot (fields negotiation) = None) ->
  map_run reduce_meeting_dict_for_llm history = Raised NoneAttributeError.
Proof.
  induction history as [|x l IH]; intros (n & Hin & Hnone); [destruct Hin|].
  cbn [map_run]. unfold reduce_meeting_dict_for_llm at 1.
  destruct (selected_slot (fields x)) as [selected|] eqn:Hx; [|reflexivity].
  destruct Hin as [->|Hin]; [congruence|].
  rewrite IH; [reflexivity|]. now exists n.
Qed.

Lemma reduce_history_returns history :
  Forall (fun negotiation => selected_slot (fields negotiation) <> None) history ->
  exists reduced, map_run reduce_meeting_dict_for_llm history = Returned reduced.
Proof.
  induction 1 as [|x l Hx _ [reduced IH]]; [now exists []|].
  cbn [map_run]. unfold reduce_meeting_dict_for_llm at 1.
  destruct (selected_slot (fields x)) as [selected|]; [|now contradiction Hx].
  rewrite IH. eexists. reflexivity.
Qed.

(** After the rounds, [on_messages] is the wording of the answer. *)
Lemma on_messages_after_summary analyst_agent negotiator_agent model_client
    max_negotiation_rounds initial_meeting_schedule schedule_date summary :
  negotiation_summary analyst_agent negotiator_agent max_negotiation_rounds
    initial_meeting_schedule schedule_date = Returned summary ->
  on_messages analyst_agent negotiator_agent model_client max_negotiation_rounds
    initial_meeting_schedule schedule_date
  = _generate_tailored_response model_client summary.
Proof. intros Hsummary. unfold on_messages. now rewrite Hsummary. Qed.

(** X20. Once the rounds have produced a summary, [on_messages] answers only
    if every reply of the history has a selected slot. A reply without one,
    as every result of the alternative-day strategy is, makes the wording of
    the prompt raise [AttributeError] before the model is called, whatever
    the outcome of the summary; with a selected slot in every reply an answer
    is returned, from the model or from the fallback texts. *)
Theorem coordinator_answers_only_with_slots :
  forall analyst_agent negotiator_agent model_client max_negotiation_rounds
         initial_meeting_schedule schedule_date summary,
    negotiation_summary analyst_agent negotiator_agent max_negotiation_rounds
      initial_meeting_schedule schedule_date = Returned summary ->
    ((exists negotiation, In negotiation (history summary)
                          /\ selected_slot (fields negotiation) = None) ->
     on_messages analyst_agent negotiator_agent model_client max_negotiation_rounds
       initial_meeting_schedule schedule_date = Raised NoneAttributeError)
    /\ (Forall (fun negotiation => selected_slot (fields negotiation) <> None)
          (history summary) ->
        exists content,
          on_messages analyst_agent negotiator_agent model_client max_negotiation_rounds
            initial_meeting_schedule schedule_date = Returned content).
Proof.
  intros analyst_agent negotiator_agent model_client max_negotiation_rounds
    initial_meeting_schedule schedule_date summary Hsummary.
  rewrite (on_messages_after_summary _ _ model_client _ _ _ _ Hsummary).
  unfold _generate_tailored_response. split.
  - intros Hnone. now rewrite (reduce_history_raises _ Hnone).
  - intros Hall. destruct (reduce_history_returns _ Hall) as [reduced ->].
    destruct (model_client summary reduced); [eexists; reflexivity|].
    destruct (String.eqb _ _); [eexists; reflexivity|].
    destruct (summary_slot summary); eexists; reflexivity.
Qed.

(** The first round is optimal and its reply has a slot: the fallback text
    for success is returned when the model fails. *)
Lemma coordinator_answers_only_with_slots_witness :
  exists summary content,
    negotiation_summary analyst_morning negotiator_for_alice 5 schedule0 None
    = Returned summary
    /\ on_messages analyst_morning negotiator_for_alice (fun _ _ => None) 5 schedule0 None
       = Returned content.
Proof.
  destruct (negotiation_summary analyst_morning negotiator_for_alice 5 schedule0 None)
    as [summary|e] eqn:Hrun; [|vm_compute in Hrun; discriminate].
  destruct (coordinator_answers_only_with_slots analyst_morning negotiator_for_alice
              (fun _ _ => None) 5 schedule0 None summary Hrun) as [_ Hreturns].
  destruct Hreturns as [content Hcontent].
  { vm_compute in Hrun. injection Hrun as <-. cbn [history].
    repeat constructor; discriminate. }
  exists summary, content. split; [reflexivity|exact Hcontent].
Defined.

Lemma collect_grows all_suggestions negotiation :
  (List.length all_suggestions <= List.length (collect all_suggestions negotiation))%nat
  /\ (collect all_suggestions negotiation = [] -> selected_slot negotiation = None).
Proof.
  unfold collect. destruct (selected_slot negotiation) as [s|];
    destruct (alternative_suggestions negotiation) as [|a alts]; cbn [nonempty];
    rewrite ?length_app; cbn [List.length]; split; try lia; try reflexivity;
    intros H; apply (f_equal (@List.length _)) in H;
    rewrite ?length_app in H; cbn [List.length] in H; lia.
Qed.

Lemma fold_collect_nonempty history : forall all_suggestions,
  all_suggestions <> [] -> fold_left collect history all_suggestions <> [].
Proof.
  induction history as [|x l IH]; intros acc Hne; [exact Hne|].
  cbn [fold_left]. apply IH. intros Hnil.
  pose proof (proj1 (collect_grows acc x)) as Hlen. rewrite Hnil in Hlen.
  destruct acc; [now apply Hne|cbn in Hlen; lia].
Qed.

Lemma collected_nothing history : forall all_suggestions,
  fold_left collect history all_suggestions = [] ->
  Forall (fun negotiation => selected_slot negotiation = None) history.
Proof.
  induction history as [|x l IH]; intros acc Hnil; [constructor|].
  cbn [fold_left] in Hnil.
  assert (Hacc : collect acc x = []).
  { destruct (collect acc x) as [|y ys] eqn:E; [reflexivity|].
    exfalso. revert Hnil. now apply fold_collect_nonempty. }
  constructor; [now apply (proj2 (collect_grows acc x))|now apply (IH _ Hnil)].
Qed.

(** X21. With at least one round allowed, the coordinator never answers a
    request with the outcome IMPOSSIBLE. A summary with that outcome means
    that no slot was collected in any round, so no reply has a selected
    slot, and the wording of the prompt raises [AttributeError] on the
    first of them. *)
Theorem coordinator_never_answers_impossible :
  forall analyst_agent negotiator_agent model_client max_negotiation_rounds
         initial_meeting_schedule schedule_date summary,
    (1 <= max_negotiation_rounds)%nat ->
    negotiation_summary analyst_agent negotiator_agent max_negotiation_rounds
      initial_meeting_schedule schedule_date = Returned summary ->
    outcome_type summary = "IMPOSSIBLE"%string ->
    Forall (fun negotiation => selected_slot (fields negotiation) = None
                               /\ outcome (fields negotiation) <> OPTIMAL_FOUND)
      (history summary)
    /\ List.length (history summary) = max_negotiation_rounds
    /\ on_messages analyst_agent negotiator_agent model_client max_negotiation_rounds
         initial_meeting_schedule schedule_date = Raised NoneAttributeError.
Proof.
  intros analyst_agent negotiator_agent model_client max_negotiation_rounds
    initial_meeting_schedule schedule_date summary Hmax Hsummary Himpossible.
  assert (Hfacts :
    Forall (fun negotiation => selected_slot (fields negotiation) = None
                               /\ outcome (fields negotiation) <> OPTIMAL_FOUND)
      (history summary)
    /\ List.length (history summary) = max_negotiation_rounds).
  { revert Hsummary. unfold negotiation_summary. cbv zeta.
    destruct (negotiation_loop _ _ _ _ _ _ _) as [exit|e] eqn:Hloop; [|discriminate].
    destruct (negotiation_loop_returns _ _ _ _ _ _ _ _ Hloop)
      as (new & Hhist & Hsugg & _ & Hexit).
    cbn [app] in Hhist. unfold final_slot.
    destruct (optimal_found exit); cbn [negb].
    { intros [= <-]. discriminate. }
    destruct Hexit as (Hall & Hlen & _ & _).
    destruct (fallback_selection (all_suggestions exit)) as [best|e] eqn:Hfb;
      [|discriminate].
    intros [= <-]. cbn [outcome_type history] in *.
    destruct best as [slot|]; [discriminate|].
    apply fallback_selection_none in Hfb. rewrite Hsugg in Hfb.
    apply collected_nothing in Hfb. rewrite Hhist. split; [|exact Hlen].
    rewrite List.Forall_forall in *. intros negotiation Hin. split.
    - apply (Hfb (fields negotiation)). now apply in_map.
    - apply (Hall negotiation Hin). }
  destruct Hfacts as [Hall Hlen]. split; [exact Hall|]. split; [exact Hlen|].
  rewrite (on_messages_after_summary _ _ model_client _ _ _ _ Hsummary).
  unfold _generate_tailored_response. rewrite reduce_history_raises; [reflexivity|].
  destruct (history summary) as [|negotiation rest]; [cbn in Hlen; lia|].
  exists negotiation. split; [now left|].
  apply List.Forall_cons_iff in Hall. apply Hall.
Qed.

(** The analyst offers nothing and another day can always be tried: five
    replies of the alternative-day strategy, none with a slot. *)
Lemma coordinator_never_answers_impossible_witness :
  (1 <= 5)%nat
  /\ exists summary,
      negotiation_summary analyst_nothing negotiator_for_alice 5 schedule0 None
      = Returned summary
      /\ outcome_type summary = "IMPOSSIBLE"%string
      /\ on_messages analyst_nothing negotiator_for_alice (fun _ _ => None) 5 schedule0 None
         = Raised NoneAttributeError.
Proof.
  split; [lia|].
  destruct (negotiation_summary analyst_nothing negotiator_for_alice 5 schedule0 None)
    as [summary|e] eqn:Hrun; [|vm_compute in Hrun; discriminate].
  assert (Hout : outcome_type summary = "IMPOSSIBLE"%string).
  { vm_compute in Hrun. injection Hrun as <-. reflexivity. }
  exists summary. split; [reflexivity|]. split; [exact Hout|].
  exact (proj2 (proj2 (coordinator_never_answers_impossible analyst_nothing
                         negotiator_for_alice (fun _ _ => None) 5 schedule0 None
                         summary ltac:(lia) Hrun Hout))).
Defined.

(** * The duration cap across the components *)




(** X23. When the duration adjustment returns a result although some
    participant has a duration cap below 15 minutes, the proposed schedule
    asks for less than the 15 minutes that [MeetingSchedule] allows: the
    coordinator raises the validation error when it rebuilds the schedule
    from that reply, in whatever round. *)
Theorem small_cap_breaks_the_next_round :
  forall analyst_agent negotiator_agent self specialist_slots prefs w init w' r
         remaining round_num schedule suggestions negotiation_history slots ppr cap,
    heap w !! initial self = Some init ->
    _strategy_duration_adjust self specialist_slots prefs w = (w', Ok (Some r)) ->
    In ppr prefs ->
    preferred_max_duration (snd ppr) = Some cap ->
    cap <> 0 ->
    cap < 15 ->
    analyst_agent schedule = Done slots ->
    negotiator_agent round_num slots schedule = Ok (mk_negotiation (heap w') r) ->
    negotiation_loop analyst_agent negotiator_agent (S remaining) round_num schedule
      suggestions negotiation_history
    = Raised ScheduleValidationError.
Proof.
  intros analyst_agent negotiator_agent self specialist_slots prefs w init w' r
    remaining round_num schedule suggestions negotiation_history slots ppr cap
    Hinit Hrun Hppr Hcap Hne Hsmall Hanalyst Hnegotiator.
  cbn [negotiation_loop]. rewrite Hanalyst, Hnegotiator. cbv zeta.
  revert Hrun. rewrite (duration_adjust_run_any self specialist_slots prefs w init Hinit).
  destruct (map _ (List.filter _ prefs)) as [|c cs] eqn:Hcaps; [discriminate|].
  cbv zeta.
  destruct (caps_smallest _ _ _ Hcaps) as [_ Hleast].
  pose proof (Hleast ppr cap Hppr Hcap Hne) as Hle.
  destruct (default_duration init <=? fold_left Z.min cs c); [discriminate|].
  destruct (List.filter _ specialist_slots) as [|x l]; [discriminate|].
  destruct (0 <? fold_left Z.min cs c); [|discriminate].
  destruct (sort_by_confidence _) as [|best rest]; [discriminate|].
  intros [= <- <-].
  cbn [fields outcome]. unfold get_proposed_schedule.
  cbn [fields objects proposed_schedule heap]. rewrite lookup_insert_eq.
  unfold new_MeetingSchedule. cbn [default_duration set_default_duration].
  destruct (Z.leb_spec 15 (fold_left Z.min cs c)); [lia|]. reflexivity.
Qed.

(** Alice caps meetings at 10 minutes. *)
Lemma small_cap_breaks_the_next_round_witness :
  exists w w' r,
    heap w !! initial agent0 = Some schedule0
    /\ _strategy_duration_adjust agent0 [slot_at 10 0 60 0.7] (prefs_of (alone at_most_10)) w
       = (w', Ok (Some r))
    /\ negotiator_for at_most_10 0 [slot_at 10 0 60 0.7] schedule0
       = Ok (mk_negotiation (heap w') r)
    /\ negotiation_loop analyst_morning (negotiator_for at_most_10) 5 0 schedule0 [] []
       = Raised ScheduleValidationError.
Proof.
  set (w := mk_world {[ 1%positive := schedule0 ]}
              [ps_negotiate_schedule; ps_preference_processing; ps_strict_filter;
               ps_iterative_negotiation; ps_strategy_duration]).
  assert (Hinit : heap w !! initial agent0 = Some schedule0) by reflexivity.
  destruct (_strategy_duration_adjust agent0 [slot_at 10 0 60 0.7]
              (prefs_of (alone at_most_10)) w) as [w' res] eqn:Hrun.
  assert (Hshape : exists r,
             res = Ok (Some r)
             /\ negotiator_for at_most_10 0 [slot_at 10 0 60 0.7] schedule0
                = Ok (mk_negotiation (heap w') r)).
  { pose proof Hrun as Hc. vm_compute in Hc. injection Hc as <- <-.
    eexists. split; [reflexivity|]. vm_compute. reflexivity. }
  destruct Hshape as (r & -> & Hnegotiator).
  exists w, w', r. split; [exact Hinit|]. split; [exact Hrun|].
  split; [exact Hnegotiator|].
  exact (small_cap_breaks_the_next_round analyst_morning (negotiator_for at_most_10)
           agent0 [slot_at 10 0 60 0.7] (prefs_of (alone at_most_10)) w schedule0 w' r
           4 0 schedule0 [] [] [slot_at 10 0 60 0.7] ("Alice"%string, at_most_10) 10
           Hinit Hrun ltac:(left; reflexivity) eq_refl ltac:(discriminate) ltac:(lia)
           eq_refl Hnegotiator).
Defined.
